(** * Product demo service: models and routes

    A shallow embedding of [service/models.py] and [service/routes.py]
    (a Flask + SQLAlchemy CRUD service for a single [Product] table) and
    the verification of its natural-language specification.

    Layout:
    - [PyStr]: the few [str] methods the service calls;
    - [PyDecimal]: the values of Python's [decimal.Decimal], its
      constructor and its [__str__];
    - Python values, exceptions and the [Category] enumeration;
    - [Product] instances, [serialize] and [deserialize];
    - the SQLAlchemy session and the storage behind it, as a state and
      exception monad over a heap of instances;
    - the persistence methods of [Product] and the route handlers;
    - the properties: the round trip of [Decimal] through text, what
      the unit of work does when one instance has changes, the
      invariant of the session, the tests of the repository run on the
      model, the specification, claim by claim, and further properties
      of the methods and the handlers.

    Left out: the logging calls, [init_db] and the static home page. *)

From Stdlib Require Import ZArith NArith List String Ascii Bool Lia.
From Stdlib Require Import DecimalString DecimalN DecimalPos DecimalFacts.
From Stdlib Require Import SpecFloat.
From stdpp Require Import base option list gmap.

Set Warnings "-register-all".

Local Open Scope string_scope.
Local Open Scope Z_scope.
Local Arguments String.append !_ _ / : simpl nomatch.

(* ================================================================= *)
(** ** Text *)

(** Python [str] values are modelled by [string]: sequences of 8-bit
    characters, of which the ASCII ones carry the usual classes (digit,
    white space, upper case). *)

Module PyStr.

Definition is_digit (c : ascii) : bool :=
  let n := N_of_ascii c in ((48 <=? n) && (n <=? 57))%N.

(** [str.isspace] on ASCII: TAB, LF, VT, FF, CR, FS, GS, RS, US, SP. *)
Definition is_space (c : ascii) : bool :=
  let n := N_of_ascii c in
  (((9 <=? n) && (n <=? 13)) || ((28 <=? n) && (n <=? 32)))%N.

Definition is_upper (c : ascii) : bool :=
  let n := N_of_ascii c in ((65 <=? n) && (n <=? 90))%N.

Definition lower_char (c : ascii) : ascii :=
  if is_upper c then ascii_of_N (N_of_ascii c + 32) else c.

(** [s.lower()] *)
Fixpoint lower (s : string) : string :=
  match s with
  | EmptyString => EmptyString
  | String c s' => String (lower_char c) (lower s')
  end.

Fixpoint lstrip (s : string) : string :=
  match s with
  | EmptyString => EmptyString
  | String c s' => if is_space c then lstrip s' else s
  end.

Fixpoint rstrip (s : string) : string :=
  match s with
  | EmptyString => EmptyString
  | String c s' =>
      match rstrip s' with
      | EmptyString => if is_space c then EmptyString else String c EmptyString
      | r => String c r
      end
  end.

(** [s.strip()] *)
Definition strip (s : string) : string := rstrip (lstrip s).

(** [s.replace("_", "")] *)
Fixpoint remove_underscores (s : string) : string :=
  match s with
  | EmptyString => EmptyString
  | String c s' =>
      if Ascii.eqb c "_" then remove_underscores s'
      else String c (remove_underscores s')
  end.

Fixpoint all_chars (P : ascii -> bool) (s : string) : bool :=
  match s with
  | EmptyString => true
  | String c s' => P c && all_chars P s'
  end.

(** The longest prefix of decimal digits, and the rest. *)
Fixpoint span_digits (s : string) : string * string :=
  match s with
  | EmptyString => (EmptyString, EmptyString)
  | String c s' =>
      if is_digit c
      then let (d, r) := span_digits s' in (String c d, r)
      else (EmptyString, s)
  end.

Definition digit_value (c : ascii) : N := (N_of_ascii c - 48)%N.

(** [int(s)] for a string of decimal digits, most significant first. *)
Fixpoint int_of_digits (acc : N) (s : string) : N :=
  match s with
  | EmptyString => acc
  | String c s' => int_of_digits (10 * acc + digit_value c)%N s'
  end.

(** [str(n)] for a natural number. *)
Definition str_of_N (n : N) : string := NilEmpty.string_of_uint (N.to_uint n).

(** [str(z)] for an integer. *)
Definition str_of_Z (z : Z) : string :=
  if z <? 0 then "-" ++ str_of_N (Z.abs_N z) else str_of_N (Z.abs_N z).

(** The slices [s[:n]] and [s[n:]]. *)
Fixpoint take (n : nat) (s : string) : string :=
  match n, s with
  | S n', String c s' => String c (take n' s')
  | _, _ => EmptyString
  end.

Fixpoint drop (n : nat) (s : string) : string :=
  match n, s with
  | S n', String _ s' => drop n' s'
  | _, _ => s
  end.

(** ["0" * n] *)
Fixpoint zeros (n : nat) : string :=
  match n with
  | O => EmptyString
  | S n' => String "0" (zeros n')
  end.

(** The text does not go on with a digit. *)
Definition no_digit_ahead (s : string) : bool :=
  match s with
  | EmptyString => true
  | String c _ => negb (is_digit c)
  end.

(** Neither white space nor an underscore. *)
Definition plain (c : ascii) : bool :=
  negb (is_space c) && negb (Ascii.eqb c "_").

End PyStr.

(* ================================================================= *)
(** ** decimal.Decimal *)

(** The values, the constructor from text and [__str__] of the standard
    [decimal] module.  A finite value is [(-1)^sign * coefficient *
    10^exponent]; the coefficient is kept as a number, which is the
    digit string [_int] without its leading zeros.  The bounds that the
    C implementation puts on the size of exponents (10^18) are not
    modelled. *)

Module PyDecimal.
Import PyStr.

Inductive t : Type :=
| Finite (sign : bool) (coefficient : N) (exponent : Z)
| Infinity (sign : bool)
| NaN (sign : bool) (signaling : bool) (payload : N).

Definition sign_str (sign : bool) : string := if sign then "-" else "".

(** ["%+d" % z] *)
Definition signed_str (z : Z) : string :=
  (if z <? 0 then "-" else "+") ++ str_of_N (Z.abs_N z).

(** [Decimal.__str__] (scientific notation, [context.capitals = 1]). *)
Definition to_str (d : t) : string :=
  match d with
  | Infinity s => sign_str s ++ "Infinity"
  | NaN s sg p =>
      sign_str s ++ (if sg then "sNaN" else "NaN")
                 ++ (if (p =? 0)%N then "" else str_of_N p)
  | Finite s c e =>
      let int_ := str_of_N c in
      let len := Z.of_nat (String.length int_) in
      let leftdigits := e + len in
      let dotplace :=
        if (e <=? 0) && (-6 <? leftdigits) then leftdigits else 1 in
      let intpart :=
        if dotplace <=? 0 then "0"
        else if len <=? dotplace then int_ ++ zeros (Z.to_nat (dotplace - len))
        else take (Z.to_nat dotplace) int_ in
      let fracpart :=
        if dotplace <=? 0 then "." ++ zeros (Z.to_nat (- dotplace)) ++ int_
        else if len <=? dotplace then ""
        else "." ++ drop (Z.to_nat dotplace) int_ in
      let exp :=
        if leftdigits =? dotplace then ""
        else "E" ++ signed_str (leftdigits - dotplace) in
      sign_str s ++ intpart ++ fracpart ++ exp
  end.

(** The fraction and the exponent as [to_str] writes them. *)
Definition frac_str (dot : bool) (F : string) : string :=
  if dot then "." ++ F else "".

Definition exp_str (x : option Z) : string :=
  match x with
  | Some z => "E" ++ signed_str z
  | None => ""
  end.

(** An optional sign: whether it is [-], and the rest of the text. *)
Definition split_sign (s : string) : bool * string :=
  match s with
  | String c r =>
      if Ascii.eqb c "-" then (true, r)
      else if Ascii.eqb c "+" then (false, r)
      else (false, s)
  | EmptyString => (false, s)
  end.

(** The exponent of a numeric string, after the [E]: an optional sign
    and one digit or more, up to the end of the text. *)
Definition parse_exponent (s : string) : option Z :=
  let (neg, ds) := split_sign s in
  match span_digits ds with
  | (String _ _ as digs, EmptyString) =>
      let n := Z.of_N (int_of_digits 0 digs) in
      Some (if neg then - n else n)
  | _ => None
  end.

(** A number (the text is already in lower case): digits, then
    optionally a point and digits, with a digit on at least one side of
    the point, then optionally [e] and an exponent, up to the end of the
    text.  Returns coefficient and exponent. *)
Definition parse_finite (s : string) : option (N * Z) :=
  let (intpart, r1) := span_digits s in
  let (fracpart, r2) :=
    match r1 with
    | String "." r => span_digits r
    | _ => (EmptyString, r1)
    end in
  match intpart, fracpart with
  | EmptyString, EmptyString => None
  | _, _ =>
      let coeff := int_of_digits 0 (intpart ++ fracpart) in
      let flen := Z.of_nat (String.length fracpart) in
      match r2 with
      | EmptyString => Some (coeff, 0 - flen)
      | String "e" r3 =>
          match parse_exponent r3 with
          | Some exp => Some (coeff, exp - flen)
          | None => None
          end
      | _ => None
      end
  end.

(** [inf], [infinity], and [nan] or [snan] followed by the digits of a
    payload (the text is already in lower case). *)
Definition parse_special (sign : bool) (s : string) : option t :=
  if (String.eqb s "inf" || String.eqb s "infinity")%bool then Some (Infinity sign)
  else
    let (signal, r) :=
      match s with
      | String "s" r => (true, r)
      | _ => (false, s)
      end in
    match r with
    | String "n" (String "a" (String "n" diag)) =>
        if all_chars is_digit diag
        then Some (NaN sign signal (int_of_digits 0 diag))
        else None
    | _ => None
    end.

(** [Decimal(value)] for a [str]: [None] stands for the
    [InvalidOperation] raised on a malformed literal. *)
Definition of_str (value : string) : option t :=
  let s := lower (remove_underscores (strip value)) in
  let (sign, body) := split_sign s in
  match parse_finite body with
  | Some (c, e) => Some (Finite sign c e)
  | None => parse_special sign body
  end.

(** [Decimal(value)] for an [int] *)
Definition of_int (value : Z) : t := Finite (value <? 0) (Z.abs_N value) 0.

(** [Decimal(value)] for a [float]: the exact value of the binary
    fraction [m * 2^e], as [n * 5^k * 10^(-k)] where [n / 2^k] is the
    fraction in lowest terms. *)
Fixpoint reduce_ratio (m : positive) (k : nat) : positive * nat :=
  match k, m with
  | S k', xO m' => reduce_ratio m' k'
  | _, _ => (m, k)
  end.

Definition of_float (f : spec_float) : t :=
  match f with
  | S754_zero s => Finite s 0 0
  | S754_infinity s => Infinity s
  | S754_nan => NaN false false 0
  | S754_finite s m e =>
      if 0 <=? e then Finite s (Npos m * 2 ^ Z.to_N e) 0
      else
        let (n, k) := reduce_ratio m (Z.to_nat (- e)) in
        Finite s (Npos n * 5 ^ N.of_nat k) (- Z.of_nat k)
  end.

End PyDecimal.

(* ================================================================= *)
(** ** Python values and exceptions *)

(** [class Category(Enum)] *)
Inductive Category : Type :=
| UNKNOWN | CLOTHS | FOOD | HOUSEWARES | AUTOMOTIVE | TOOLS.

Global Instance Category_eq_dec : EqDecision Category.
Proof. solve_decision. Defined.

(** The values the service handles: what [request.get_json()] can
    return ([None], [bool], [int], [float], [str], [list], [dict] with
    [str] keys), and the [Decimal] and [Category] objects the model
    creates.  A [float] is given by its IEEE 754 decoding; a [dict] by
    its items in insertion order. *)
Inductive pyval : Type :=
| VNone
| VBool (b : bool)
| VInt (z : Z)
| VFloat (f : spec_float)
| VStr (s : string)
| VList (l : list pyval)
| VDict (items : list (string * pyval))
| VDecimal (d : PyDecimal.t)
| VCategory (c : Category).

(** Exceptions.  The text of a [DataValidationError] is kept symbolic:
    [MissingField k] is [f"Missing field: {KeyError(k)}"] and [StrOf e]
    is [str(e)] for a library exception [e]. *)
Inductive exn : Type :=
| KeyError (key : pyval)
| TypeError
| ValueError
| AttributeError
| InvalidOperation                         (* decimal.InvalidOperation *)
| ReferenceError                           (* no such instance *)
| DataValidationError (msg : message)
| HTTPException (code : Z) (description : string)   (* flask.abort *)
| IntegrityError                           (* sqlalchemy.exc *)
| DataError                                (* sqlalchemy.exc *)
| InvalidRequestError                      (* sqlalchemy.exc *)
| StaleDataError                           (* sqlalchemy.orm.exc *)
with message : Type :=
| Text (s : string)
| MissingField (key : pyval)
| StrOf (e : exn).

Inductive result (A : Type) : Type :=
| Ok (a : A)
| Raise (e : exn).
Arguments Ok {A} a.
Arguments Raise {A} e.

(** [str(error)] as [deserialize] uses it: the text of a
    [DataValidationError] is its message. *)
Definition str_of_exn (e : exn) : message :=
  match e with
  | DataValidationError m => m
  | _ => StrOf e
  end.

(** [bool(v)] *)
Definition truthy (v : pyval) : bool :=
  match v with
  | VNone => false
  | VBool b => b
  | VInt z => negb (z =? 0)
  | VFloat (S754_zero _) => false
  | VFloat _ => true
  | VStr s => negb (String.eqb s "")
  | VList l => match l with [] => false | _ => true end
  | VDict d => match d with [] => false | _ => true end
  | VDecimal (PyDecimal.Finite _ 0%N _) => false
  | VDecimal _ => true
  | VCategory _ => true
  end.

(** [isinstance(v, bool)] *)
Definition isinstance_bool (v : pyval) : bool :=
  match v with VBool _ => true | _ => false end.

(** The first value of a key among items: [d.get(key)] for a [dict] or
    a [MultiDict] given by its items. *)
Fixpoint assoc {V} (key : string) (items : list (string * V)) : option V :=
  match items with
  | [] => None
  | (k, v) :: rest => if String.eqb k key then Some v else assoc key rest
  end.

(** [data[key]] for a [str] key: a [dict] looks the key up, [list] and
    [str] take integer indices only, nothing else is subscriptable. *)
Definition getitem (data : pyval) (key : string) : result pyval :=
  match data with
  | VDict items =>
      match assoc key items with
      | Some v => Ok v
      | None => Raise (KeyError (VStr key))
      end
  | _ => Raise TypeError
  end.

Module CategoryEnum.

(** [member.name] *)
Definition name (c : Category) : string :=
  match c with
  | UNKNOWN => "UNKNOWN" | CLOTHS => "CLOTHS" | FOOD => "FOOD"
  | HOUSEWARES => "HOUSEWARES" | AUTOMOTIVE => "AUTOMOTIVE" | TOOLS => "TOOLS"
  end.

(** [member.value] *)
Definition value (c : Category) : Z :=
  match c with
  | UNKNOWN => 0 | CLOTHS => 1 | FOOD => 2
  | HOUSEWARES => 3 | AUTOMOTIVE => 4 | TOOLS => 5
  end.

Definition members : list Category :=
  [UNKNOWN; CLOTHS; FOOD; HOUSEWARES; AUTOMOTIVE; TOOLS].

(** [Category._member_map_.get(s)] *)
Definition of_name (s : string) : option Category :=
  List.find (fun c => String.eqb (name c) s) members.

(** [Category[key]]: the member map is a [dict] with the names as
    keys, so a key that is not a name raises [KeyError] and a key that
    cannot be hashed (a list, a dict, a signaling NaN) raises
    [TypeError]. *)
Definition getitem (key : pyval) : result Category :=
  match key with
  | VStr s =>
      match of_name s with
      | Some c => Ok c
      | None => Raise (KeyError key)
      end
  | VList _ | VDict _ | VDecimal (PyDecimal.NaN _ true _) => Raise TypeError
  | _ => Raise (KeyError key)
  end.

End CategoryEnum.

(** [Decimal(value)] *)
Module DecimalNew.
Import PyDecimal.

(** The digits of the coefficient in [Decimal((sign, digits, exponent))]:
    integers between 0 and 9. *)
Fixpoint coefficient (acc : N) (digits : list pyval) : option N :=
  match digits with
  | [] => Some acc
  | d :: rest =>
      let digit :=
        match d with
        | VInt z => if (0 <=? z) && (z <=? 9) then Some (Z.to_N z) else None
        | VBool b => Some (if b then 1%N else 0%N)
        | _ => None
        end in
      match digit with
      | Some n => coefficient (10 * acc + n)%N rest
      | None => None
      end
  end.

Definition from_sequence (l : list pyval) : result PyDecimal.t :=
  match l with
  | [s; ds; e] =>
      let sign :=
        match s with
        | VInt 0 => Some false
        | VInt 1 => Some true
        | VBool b => Some b
        | _ => None
        end in
      let coeff :=
        match ds with
        | VList digits => coefficient 0 digits
        | _ => None
        end in
      match sign, coeff with
      | Some sg, Some c =>
          match e with
          | VStr "F" => Ok (Infinity sg)
          | VStr "n" => Ok (NaN sg false c)
          | VStr "N" => Ok (NaN sg true c)
          | VInt z => Ok (Finite sg c z)
          | VBool b => Ok (Finite sg c (if b then 1 else 0))
          | _ => Raise ValueError
          end
      | _, _ => Raise ValueError
      end
  | _ => Raise ValueError
  end.

Definition Decimal (value : pyval) : result PyDecimal.t :=
  match value with
  | VStr s =>
      match of_str s with
      | Some d => Ok d
      | None => Raise InvalidOperation
      end
  | VInt z => Ok (of_int z)
  | VBool b => Ok (of_int (if b then 1 else 0))
  | VDecimal d => Ok d
  | VList l => from_sequence l
  | VFloat f => Ok (of_float f)
  | VNone | VDict _ | VCategory _ => Raise TypeError
  end.

End DecimalNew.

(* ================================================================= *)
(** ** Computations with state and exceptions *)

(** A statement runs on a state and either returns or raises; either
    way it leaves a state behind: what a Python method assigned before
    it raised stays assigned. *)
Definition SE (S A : Type) : Type := S -> result A * S.

Global Instance SE_ret {S} : MRet (SE S) := fun A a s => (Ok a, s).

Global Instance SE_bind {S} : MBind (SE S) := fun A B f m s =>
  match m s with
  | (Ok a, s') => f a s'
  | (Raise e, s') => (Raise e, s')
  end.

Definition raise {S A} (e : exn) : SE S A := fun s => (Raise e, s).

Definition lift {S A} (r : result A) : SE S A := fun s => (r, s).

Definition gets {S A} (f : S -> A) : SE S A := fun s => (Ok (f s), s).

Definition modify {S} (f : S -> S) : SE S unit := fun s => (Ok tt, f s).

(** [try: m  except ...: h]; the handler [h] returns [None] on the
    exceptions that no [except] clause matches. *)
Definition try_except {S A} (m : SE S A) (h : exn -> option (SE S A)) : SE S A :=
  fun s =>
    match m s with
    | (Raise e, s') =>
        match h e with
        | Some k => k s'
        | None => (Raise e, s')
        end
    | ok => ok
    end.

Fixpoint mapM {S A B} (f : A -> SE S B) (l : list A) : SE S (list B) :=
  match l with
  | [] => mret []
  | x :: rest => y ← f x; ys ← mapM f rest; mret (y :: ys)
  end.

Global Instance result_ret : MRet result := fun A a => Ok a.

Global Instance result_bind : MBind result := fun A B f r =>
  match r with
  | Ok a => f a
  | Raise e => Raise e
  end.

(* ================================================================= *)
(** ** Product instances *)

(** The attributes of an instance of [class Product(db.Model)].
    Python puts no type on them: each holds whatever was assigned. *)
Record Product : Type := mkProduct {
  id : pyval;
  name : pyval;
  description : pyval;
  price : pyval;
  available : pyval;
  category : pyval;
}.

Definition set_id (v : pyval) (p : Product) : Product :=
  mkProduct v (name p) (description p) (price p) (available p) (category p).
Definition set_name (v : pyval) (p : Product) : Product :=
  mkProduct (id p) v (description p) (price p) (available p) (category p).
Definition set_description (v : pyval) (p : Product) : Product :=
  mkProduct (id p) (name p) v (price p) (available p) (category p).
Definition set_price (v : pyval) (p : Product) : Product :=
  mkProduct (id p) (name p) (description p) v (available p) (category p).
Definition set_available (v : pyval) (p : Product) : Product :=
  mkProduct (id p) (name p) (description p) (price p) v (category p).
Definition set_category (v : pyval) (p : Product) : Product :=
  mkProduct (id p) (name p) (description p) (price p) (available p) v.

(* ================================================================= *)
(** ** The table and the storage engine *)

(** A row of the [product] table without its primary key, typed as the
    columns are declared: [String(100)], [String(250)], [Numeric],
    [Boolean], [Enum(Category)], all [nullable=False]. *)
Record Row : Type := mkRow {
  row_name : string;
  row_description : string;
  row_price : PyDecimal.t;
  row_available : bool;
  row_category : Category;
}.

(** What an instance loaded from row [k] holds. *)
Definition loaded (k : Z) (r : Row) : Product :=
  mkProduct (VInt k) (VStr (row_name r)) (VStr (row_description r))
            (VDecimal (row_price r)) (VBool (row_available r))
            (VCategory (row_category r)).

(** The storage engine with its driver is an external collaborator.
    For each column type it decides what a column holds once an
    attribute value [v] has been flushed to it, given what the column
    held before ([None] on INSERT), or that the value is rejected:
    SQLAlchemy sends a column only when the attribute differs from the
    loaded value, and the driver and the database convert the value
    sent or refuse it.  An attribute that is as it was loaded leaves
    its column alone.  The error raised for a value that is refused is
    the storage's as well ([refusal]): a text that is too long, a value
    of a type that the driver cannot send, each has its own. *)
Class Engine : Type := {
  bind_string : nat -> option string -> pyval -> option string;
  bind_numeric : option PyDecimal.t -> pyval -> option PyDecimal.t;
  bind_boolean : option bool -> pyval -> option bool;
  bind_enum : option Category -> pyval -> option Category;
  refusal : pyval -> exn;
  bind_string_loaded n s : bind_string n (Some s) (VStr s) = Some s;
  bind_numeric_loaded d : bind_numeric (Some d) (VDecimal d) = Some d;
  bind_boolean_loaded b : bind_boolean (Some b) (VBool b) = Some b;
  bind_enum_loaded c : bind_enum (Some c) (VCategory c) = Some c;
}.

(** An engine that stores values of the declared types as they are and
    refuses everything else, with [DataError]. *)
Definition strict_string (n : nat) (old : option string) (v : pyval) : option string :=
  match v with
  | VStr s => if (String.length s <=? n)%nat then Some s else
                match old with
                | Some s' => if String.eqb s s' then Some s else None
                | None => None
                end
  | _ => None
  end.
Definition strict_numeric (old : option PyDecimal.t) (v : pyval) : option PyDecimal.t :=
  match v with VDecimal d => Some d | _ => None end.
Definition strict_boolean (old : option bool) (v : pyval) : option bool :=
  match v with VBool b => Some b | _ => None end.
Definition strict_enum (old : option Category) (v : pyval) : option Category :=
  match v with VCategory c => Some c | _ => None end.

Definition strict_engine : Engine.
Proof.
  refine {| bind_string := strict_string; bind_numeric := strict_numeric;
            bind_boolean := strict_boolean; bind_enum := strict_enum;
            refusal := fun _ => DataError |}.
  - intros n s. unfold strict_string. rewrite String.eqb_refl.
    by destruct (String.length s <=? n)%nat.
  - done.
  - done.
  - done.
Defined.

(* ================================================================= *)
(** ** The session *)

(** Where an instance stands with respect to the session
    ([_sa_instance_state]): never added, added and waiting for INSERT,
    attached to the row with a primary key, marked for DELETE, or
    detached after its row was deleted. *)
Inductive sa_state : Type :=
| Transient
| Pending
| Persistent (key : Z)
| Deleted (key : Z)
| Detached (key : Z).

Global Instance sa_state_eq_dec : EqDecision sa_state.
Proof. solve_decision. Defined.

Record instance : Type := mkInstance {
  attrs : Product;
  state : sa_state;
}.

(** What a request does to the outside, in order. *)
Inductive event : Type :=
| EvGetJson                 (* the body was parsed *)
| EvGet (key : Z)           (* lookup by primary key *)
| EvSelect                  (* a query on the table *)
| EvCommit.

(** Instances are Python objects: they live in a heap and are named by
    their address.  The session reaches the instances added to it or
    loaded through it; the table is what the session's transaction
    sees; [serial] is the next value of the primary key sequence. *)
Record world : Type := mkWorld {
  heap : list instance;
  table : gmap Z Row;
  serial : Z;
  trace : list event;
}.

Abbreviation addr := nat (only parsing).
Abbreviation M := (SE world) (only parsing).

Definition set_heap (h : list instance) (w : world) : world :=
  mkWorld h (table w) (serial w) (trace w).

Definition log (e : event) : M unit :=
  modify (fun w => mkWorld (heap w) (table w) (serial w) (trace w ++ [e])).

(** A new object. *)
Definition alloc (o : instance) : M addr :=
  fun w => (Ok (length (heap w)), set_heap (heap w ++ [o]) w).

(** [self.<attribute>] *)
Definition getattr (self : addr) (field : Product -> pyval) : M pyval :=
  fun w =>
    match heap w !! self with
    | Some o => (Ok (field (attrs o)), w)
    | None => (Raise ReferenceError, w)
    end.

(** [self.<attribute> = v] *)
Definition setattr (self : addr) (set : pyval -> Product -> Product) (v : pyval) : M unit :=
  fun w =>
    match heap w !! self with
    | Some o => (Ok tt, set_heap (<[self := mkInstance (set v (attrs o)) (state o)]> (heap w)) w)
    | None => (Raise ReferenceError, w)
    end.

Definition set_state (self : addr) (st : sa_state) : M unit :=
  fun w =>
    match heap w !! self with
    | Some o => (Ok tt, set_heap (<[self := mkInstance (attrs o) st]> (heap w)) w)
    | None => (Raise ReferenceError, w)
    end.

Definition get_state (self : addr) : M sa_state :=
  fun w =>
    match heap w !! self with
    | Some o => (Ok (state o), w)
    | None => (Raise ReferenceError, w)
    end.

(** The instance the identity map holds for a primary key. *)
Definition identity_lookup (k : Z) (h : list instance) : option addr :=
  fst <$> list_find (fun o => state o = Persistent k) h.

Section Session.
Context `{Engine}.

(** A non-nullable column: [None] violates the constraint, with
    [IntegrityError]; any other value is the storage's to accept, or to
    refuse with the error it has for it.  The columns are bound in the
    order of their declaration, so of the defects of several columns
    the first is the one reported here; which of them a given storage
    reports is not modelled. *)
Definition bind_column {T} (bind : option T -> pyval -> option T)
    (old : option T) (v : pyval) : result T :=
  match v with
  | VNone => Raise IntegrityError
  | _ =>
      match bind old v with
      | Some x => Ok x
      | None => Raise (refusal v)
      end
  end.

(** The row that INSERT creates; [available] has [default=True] and
    [category] has [server_default=Category.UNKNOWN.name]. *)
Definition insert_row (p : Product) : result Row :=
  n ← bind_column (bind_string 100) None (name p);
  d ← bind_column (bind_string 250) None (description p);
  pr ← bind_column bind_numeric None (price p);
  a ← match available p with
      | VNone => Ok true
      | v => bind_column bind_boolean None v
      end;
  c ← match category p with
      | VNone => Ok UNKNOWN
      | v => bind_column bind_enum None v
      end;
  Ok (mkRow n d pr a c).

(** The row that UPDATE leaves. *)
Definition update_row (r : Row) (p : Product) : result Row :=
  n ← bind_column (bind_string 100) (Some (row_name r)) (name p);
  d ← bind_column (bind_string 250) (Some (row_description r)) (description p);
  pr ← bind_column bind_numeric (Some (row_price r)) (price p);
  a ← bind_column bind_boolean (Some (row_available r)) (available p);
  c ← bind_column bind_enum (Some (row_category r)) (category p);
  Ok (mkRow n d pr a c).

(** The unit of work for one instance.
    - A pending instance is inserted: the sequence gives the key when
      [id] is [None], an [id] that is set is the key; a key already in
      the table is refused.
    - A persistent instance is updated in the row of its key, located by
      the value [id] had when loaded.  A changed [id] is sent with the
      other columns: an integer moves the row to that key if it is free;
      [None] is [UPDATE ... SET id=NULL], which the primary key refuses.
    - An instance marked deleted has its row deleted and leaves the
      session. *)
Definition flush_one (o : instance) (tbl : gmap Z Row) (ser : Z)
    : result (instance * gmap Z Row * Z) :=
  match state o with
  | Transient | Detached _ => Ok (o, tbl, ser)
  | Pending =>
      r ← insert_row (attrs o);
      '(k, ser') ← match id (attrs o) with
                   | VNone => Ok (ser, ser + 1)
                   | VInt k => Ok (k, ser)
                   | _ => Raise IntegrityError
                   end;
      match tbl !! k with
      | Some _ => Raise IntegrityError
      | None =>
          Ok (mkInstance (set_id (VInt k) (attrs o)) (Persistent k),
              <[k := r]> tbl, ser')
      end
  | Persistent k =>
      match tbl !! k with
      | None => Raise StaleDataError
      | Some r =>
          r' ← update_row r (attrs o);
          match id (attrs o) with
          | VInt k' =>
              if k' =? k then Ok (o, <[k := r']> tbl, ser)
              else
                match tbl !! k' with
                | Some _ => Raise IntegrityError
                | None =>
                    Ok (mkInstance (attrs o) (Persistent k'),
                        <[k' := r']> (delete k tbl), ser)
                end
          | _ => Raise IntegrityError
          end
      end
  | Deleted k => Ok (mkInstance (attrs o) (Detached k), delete k tbl, ser)
  end.

Fixpoint flush_all (objs : list instance) (tbl : gmap Z Row) (ser : Z)
    : result (list instance * gmap Z Row * Z) :=
  match objs with
  | [] => Ok ([], tbl, ser)
  | o :: rest =>
      '(o', tbl', ser') ← flush_one o tbl ser;
      '(rest', tbl'', ser'') ← flush_all rest tbl' ser';
      Ok (o' :: rest', tbl'', ser'')
  end.

(** [session.flush()], also run before every query (autoflush).  A
    flush that fails raises; the transaction is rolled back and the
    world is left as it was. *)
Definition session_flush : M unit :=
  fun w =>
    match flush_all (heap w) (table w) (serial w) with
    | Ok (h, tbl, ser) => (Ok tt, mkWorld h tbl ser (trace w))
    | Raise e => (Raise e, w)
    end.

(** After a commit every persistent instance is expired: its
    attributes are read again from its row when next used. *)
Definition expire (tbl : gmap Z Row) (o : instance) : instance :=
  match state o with
  | Persistent k =>
      match tbl !! k with
      | Some r => mkInstance (loaded k r) (Persistent k)
      | None => o
      end
  | _ => o
  end.

(** [db.session.commit()] *)
Definition session_commit : M unit :=
  log EvCommit;;
  session_flush;;
  modify (fun w => set_heap (expire (table w) <$> heap w) w).

(** [db.session.add(self)]: a new instance becomes pending; for an
    instance that is already in the session this does nothing; an
    instance whose row was deleted cannot be added again. *)
Definition session_add (self : addr) : M unit :=
  st ← get_state self;
  match st with
  | Transient => set_state self Pending
  | Pending | Persistent _ => mret tt
  | Deleted k => set_state self (Persistent k)
  | Detached _ => raise InvalidRequestError
  end.

(** [db.session.delete(self)]: only an instance that has a row can be
    marked for deletion. *)
Definition session_delete (self : addr) : M unit :=
  st ← get_state self;
  match st with
  | Persistent k | Detached k => set_state self (Deleted k)
  | Deleted _ => mret tt
  | Transient | Pending => raise InvalidRequestError
  end.

(** The instance for a row of a result: the one the identity map
    holds for its key, or a new one. *)
Definition materialize (kr : Z * Row) : M addr :=
  h ← gets heap;
  match identity_lookup kr.1 h with
  | Some a => mret a
  | None => alloc (mkInstance (loaded kr.1 kr.2) (Persistent kr.1))
  end.

(** [cls.query.filter(...).all()] *)
Definition query_filter (keep : Row -> bool) : M (list addr) :=
  log EvSelect;;
  session_flush;;
  tbl ← gets table;
  mapM materialize (filter (fun kr => keep kr.2 = true) (map_to_list tbl)).

(** [cls.query.get(key)]: the identity map answers first; otherwise
    the row is looked up, after a flush, and loaded into a new
    instance. *)
Definition query_get (k : Z) : M (option addr) :=
  log (EvGet k);;
  h ← gets heap;
  match identity_lookup k h with
  | Some a => mret (Some a)
  | None =>
      session_flush;;
      tbl ← gets table;
      match tbl !! k with
      | Some r => a ← alloc (mkInstance (loaded k r) (Persistent k)); mret (Some a)
      | None => mret None
      end
  end.

End Session.

(* ================================================================= *)
(** ** service/models.py: class Product *)

Module Product.
Section Methods.
Context `{Engine}.

(** [str(v)].  The text of a [float] and of a container is the
    interpreter's business and is left open. *)
Context (repr_other : pyval -> string).

Definition str (v : pyval) : string :=
  match v with
  | VNone => "None"
  | VBool b => if b then "True" else "False"
  | VInt z => PyStr.str_of_Z z
  | VStr s => s
  | VDecimal d => PyDecimal.to_str d
  | VCategory c => "Category." ++ CategoryEnum.name c
  | VFloat _ | VList _ | VDict _ => repr_other v
  end.

(** [v.name], which only a member of the enumeration has. *)
Definition getattr_name (v : pyval) : result string :=
  match v with
  | VCategory c => Ok (CategoryEnum.name c)
  | _ => Raise AttributeError
  end.

(** [Product()] *)
Definition new : M addr :=
  alloc (mkInstance (mkProduct VNone VNone VNone VNone VNone VNone) Transient).

Definition create (self : addr) : M unit :=
  setattr self set_id VNone;;
  session_add self;;
  session_commit.

Definition update (self : addr) : M unit :=
  i ← getattr self id;
  if negb (truthy i)
  then raise (DataValidationError (Text "Update called with empty ID"))
  else session_commit.

Definition delete (self : addr) : M unit :=
  session_delete self;;
  session_commit.

Definition serialize (self : addr) : M pyval :=
  v_id ← getattr self id;
  v_name ← getattr self name;
  v_description ← getattr self description;
  v_price ← getattr self price;
  v_available ← getattr self available;
  v_category ← getattr self category;
  category_name ← lift (getattr_name v_category);
  mret (VDict [("id", v_id);
               ("name", v_name);
               ("description", v_description);
               ("price", VStr (str v_price));
               ("available", v_available);
               ("category", VStr category_name)]).

Definition deserialize (self : addr) (data : pyval) : M addr :=
  (if negb (truthy data)
   then raise (DataValidationError (Text "No data provided"))
   else mret tt);;
  try_except
    (v ← lift (getitem data "name");
     setattr self set_name v;;
     v ← lift (getitem data "description");
     setattr self set_description v;;
     v ← lift (getitem data "price");
     d ← lift (DecimalNew.Decimal v);
     setattr self set_price (VDecimal d);;
     v ← lift (getitem data "available");
     (if negb (isinstance_bool v)
      then raise (DataValidationError (Text "Invalid type for available"))
      else mret tt);;
     v ← lift (getitem data "available");
     setattr self set_available v;;
     v ← lift (getitem data "category");
     c ← lift (CategoryEnum.getitem v);
     setattr self set_category (VCategory c))
    (fun error =>
       match error with
       | KeyError key => Some (raise (DataValidationError (MissingField key)))
       | _ => Some (raise (DataValidationError (str_of_exn error)))
       end);;
  mret self.

Definition all : M (list addr) :=
  query_filter (fun _ => true).

Definition find (product_id : Z) : M (option addr) :=
  query_get product_id.

Definition find_by_name (name : string) : M (list addr) :=
  query_filter (fun r => String.eqb (row_name r) name).

Definition find_by_availability (available : bool) : M (list addr) :=
  query_filter (fun r => Bool.eqb (row_available r) available).

Definition category_is (c : Category) (r : Row) : bool :=
  bool_decide (row_category r = c).

(** [None] is the return value [None]; [Some l] is the list [l]. *)
Definition find_by_category (category : pyval) : M (option (list addr)) :=
  category_enum ←
    match category with
    | VCategory c => mret (Some c)
    | _ =>
        match CategoryEnum.getitem category with
        | Ok c => mret (Some c)
        | Raise (KeyError _) => mret None
        | Raise e => raise e
        end
    end;
  match category_enum with
  | None => mret None
  | Some c => l ← query_filter (category_is c); mret (Some l)
  end.

End Methods.
End Product.

(* ================================================================= *)
(** ** service/models.py: the rest of class Product *)

Section ByPrice.
Context `{Engine}.

(** How the storage compares the [Numeric] column with a value bound to
    a query: the test it applies to the price of a row, or the error of
    a value that cannot be bound. *)
Context (numeric_eq : pyval -> result (PyDecimal.t -> bool)).

(** [cls.query.filter(criterion).all()] for a criterion that binds a
    value: the value is bound when the query runs, after the flush. *)
Definition query_where (criterion : result (Row -> bool)) : M (list addr) :=
  log EvSelect;;
  session_flush;;
  keep ← lift criterion;
  tbl ← gets table;
  mapM materialize (filter (fun kr => keep kr.2 = true) (map_to_list tbl)).

Definition find_by_price (price : pyval) : M (list addr) :=
  value ←
    match price with
    | VStr _ => d ← lift (DecimalNew.Decimal price); mret (VDecimal d)
    | _ => mret price
    end;
  query_where (test ← numeric_eq value; Ok (fun r => test (row_price r))).

End ByPrice.

Section Repr.

(** The text of a value inside an f-string is its [str]. *)
Context (repr_other : pyval -> string).

Definition __repr__ (self : addr) : M string :=
  v_name ← getattr self name;
  v_id ← getattr self id;
  mret ("<Product " ++ Product.str repr_other v_name
          ++ " id=[" ++ Product.str repr_other v_id ++ "]>").

End Repr.

(* ================================================================= *)
(** ** service/routes.py *)

(** A request as the handlers see it; header names are spelled as
    werkzeug looks them up ([Content-Type]). *)
Record request : Type := mkRequest {
  headers : list (string * string);   (* request.headers *)
  args : list (string * string);      (* request.args *)
  body : option pyval;                (* the body as JSON, if it is JSON *)
  url_root : string;
}.

Inductive content : Type :=
| Json (v : pyval)      (* jsonify(v) *)
| Plain (s : string).

Record response : Type := mkResponse {
  response_content : content;
  response_status : Z;
  response_headers : list (string * string);
}.

(** Modelled from the spec: [service/common/status.py] is not among the
    sources; these are the codes the spec lists for the names the
    handlers use. *)
Module status.
Definition HTTP_200_OK : Z := 200.
Definition HTTP_201_CREATED : Z := 201.
Definition HTTP_204_NO_CONTENT : Z := 204.
Definition HTTP_400_BAD_REQUEST : Z := 400.
Definition HTTP_404_NOT_FOUND : Z := 404.
Definition HTTP_415_UNSUPPORTED_MEDIA_TYPE : Z := 415.
End status.

(** Modelled from the spec: [service/common/error_handlers.py] is not
    among the sources; by the spec an aborted request is answered with
    the status code given to [abort], and any other error is a server
    error. *)
Definition status_code (r : result response) : Z :=
  match r with
  | Ok resp => response_status resp
  | Raise (HTTPException code _) => code
  | Raise _ => 500
  end.

Section Routes.
Context `{Engine}.
Context (repr_other : pyval -> string).

(** [flask.abort] *)
Definition abort {A} (code : Z) (description : string) : M A :=
  raise (HTTPException code description).

(** [request.get_json()]; a body that is not JSON is a bad request.
    The handlers call it once the content type is known to be JSON. *)
Definition get_json (req : request) : M pyval :=
  log EvGetJson;;
  match body req with
  | Some v => mret v
  | None => abort status.HTTP_400_BAD_REQUEST ""
  end.

(** [url_for("get_product", product_id=v, _external=True)] *)
Definition url_for_get_product (req : request) (v : pyval) : M string :=
  match v with
  | VInt k => mret (url_root req ++ "products/" ++ PyStr.str_of_Z k)
  | _ => raise ValueError
  end.

Definition healthcheck : M response :=
  mret (mkResponse (Json (VDict [("status", VInt 200); ("message", VStr "OK")]))
                   status.HTTP_200_OK []).

Definition check_content_type (req : request) (content_type : string) : M unit :=
  (if negb (bool_decide (is_Some (assoc "Content-Type" (headers req))))
   then abort status.HTTP_415_UNSUPPORTED_MEDIA_TYPE ""
   else mret tt);;
  (if negb (bool_decide (assoc "Content-Type" (headers req) = Some content_type))
   then abort status.HTTP_415_UNSUPPORTED_MEDIA_TYPE ""
   else mret tt).

Definition create_products (req : request) : M response :=
  check_content_type req "application/json";;
  product ←
    try_except
      (product ← Product.new;
       data ← get_json req;
       Product.deserialize product data;;
       Product.create product;;
       mret product)
      (fun error =>
         match error with
         | DataValidationError _ =>
             Some (abort status.HTTP_400_BAD_REQUEST "Invalid product data")
         | _ => None
         end);
  product_id ← getattr product id;
  location_url ← url_for_get_product req product_id;
  data ← Product.serialize repr_other product;
  mret (mkResponse (Json data) status.HTTP_201_CREATED [("Location", location_url)]).

(** [if s:] for an optional text. *)
Definition given (s : option string) : bool :=
  match s with
  | Some s => negb (String.eqb s "")
  | None => false
  end.

Definition list_products (req : request) : M response :=
  let name := assoc "name" (args req) in
  let category := assoc "category" (args req) in
  let available := assoc "available" (args req) in
  products ←
    (if given name then
       Product.find_by_name (default "" name)
     else if given category then
       products ← Product.find_by_category (VStr (default "" category));
       match products with
       | None => abort status.HTTP_400_BAD_REQUEST "Invalid category"
       | Some products => mret products
       end
     else
       match available with
       | Some available =>
           (if negb (bool_decide (PyStr.lower available ∈ ["true"; "false"]))
            then abort status.HTTP_400_BAD_REQUEST "Invalid availability"
            else mret tt);;
           Product.find_by_availability (String.eqb (PyStr.lower available) "true")
       | None => Product.all
       end);
  data ← mapM (Product.serialize repr_other) products;
  mret (mkResponse (Json (VList data)) status.HTTP_200_OK []).

Definition get_product (product_id : Z) : M response :=
  product ← Product.find product_id;
  match product with
  | None => abort status.HTTP_404_NOT_FOUND "Product not found"
  | Some product =>
      data ← Product.serialize repr_other product;
      mret (mkResponse (Json data) status.HTTP_200_OK [])
  end.

Definition update_product (product_id : Z) (req : request) : M response :=
  check_content_type req "application/json";;
  product ← Product.find product_id;
  match product with
  | None => abort status.HTTP_404_NOT_FOUND "Product not found"
  | Some product =>
      try_except
        (data ← get_json req;
         Product.deserialize product data;;
         Product.update product)
        (fun error =>
           match error with
           | DataValidationError _ =>
               Some (abort status.HTTP_400_BAD_REQUEST "Invalid product data")
           | _ => None
           end);;
      data ← Product.serialize repr_other product;
      mret (mkResponse (Json data) status.HTTP_200_OK [])
  end.

Definition delete_products (product_id : Z) : M response :=
  product ← Product.find product_id;
  match product with
  | None => abort status.HTTP_404_NOT_FOUND "Product not found"
  | Some product =>
      Product.delete product;;
      mret (mkResponse (Plain "") status.HTTP_204_NO_CONTENT [])
  end.

End Routes.


(* ================================================================= *)
(** ** Worlds between two calls *)

Definition put (a : addr) (o : instance) (w : world) : world :=
  set_heap (<[a := o]> (heap w)) w.

(** An instance with nothing to flush: it is outside the session, or it
    is as its row was loaded. *)
Definition clean (tbl : gmap Z Row) (o : instance) : Prop :=
  match state o with
  | Transient | Detached _ => True
  | Persistent k => exists r, tbl !! k = Some r /\ attrs o = loaded k r
  | Pending | Deleted _ => False
  end.

(** No instance but the one at [a] has anything to flush. *)
Definition clean_but (a : addr) (w : world) : Prop :=
  forall b o, b <> a -> heap w !! b = Some o -> clean (table w) o.

Definition session_clean (w : world) : Prop :=
  Forall (clean (table w)) (heap w).

(** The identity map has one instance for a key. *)
Definition identity_unique (h : list instance) : Prop :=
  forall a b oa ob k,
    h !! a = Some oa -> h !! b = Some ob ->
    state oa = Persistent k -> state ob = Persistent k -> a = b.

(** The sequence is ahead of the keys in the table. *)
Definition keys_fresh (w : world) : Prop :=
  forall k, is_Some (table w !! k) -> k < serial w.

(** A world between two calls of a service that works: nothing is left
    to flush, the identity map has one instance for a key, the sequence
    is ahead of the keys. *)
Definition good (w : world) : Prop :=
  session_clean w /\ identity_unique (heap w) /\ keys_fresh w.

(** The world of a service that starts on an empty table. *)
Definition initial_world : world := mkWorld [] ∅ 1 [].

(** What [serialize] gives for an instance loaded from a row. *)
Definition row_json (kr : Z * Row) : pyval :=
  VDict [("id", VInt kr.1);
         ("name", VStr (row_name kr.2));
         ("description", VStr (row_description kr.2));
         ("price", VStr (PyDecimal.to_str (row_price kr.2)));
         ("available", VBool (row_available kr.2));
         ("category", VStr (CategoryEnum.name (row_category kr.2)))].

(** The rows of a table that a predicate keeps, in the order of the
    storage. *)
Definition select (keep : Row -> bool) (tbl : gmap Z Row) : list (Z * Row) :=
  filter (fun kr => keep kr.2 = true) (map_to_list tbl).

(** The instance at an address is the one loaded from a row. *)
Definition represents (h : list instance) (a : addr) (kr : Z * Row) : Prop :=
  h !! a = Some (mkInstance (loaded kr.1 kr.2) (Persistent kr.1)).

(** The world after a query that loaded the instances [ext]. *)
Definition queried (ext : list instance) (e : event) (w : world) : world :=
  mkWorld (heap w ++ ext) (table w) (serial w) (trace w ++ [e]).



(** What [deserialize] does to the attributes of its receiver and how
    it ends, as a function of the attributes alone ([deserialize_run]
    below shows that the method computes it). *)
Definition wrap_error (e : exn) : exn :=
  match e with
  | KeyError key => DataValidationError (MissingField key)
  | _ => DataValidationError (str_of_exn e)
  end.

Definition deserialize_attrs (data : pyval) (p : Product) : result unit * Product :=
  if negb (truthy data) then (Raise (DataValidationError (Text "No data provided")), p)
  else
    match getitem data "name" with
    | Raise e => (Raise (wrap_error e), p)
    | Ok v_name =>
    let p := set_name v_name p in
    match getitem data "description" with
    | Raise e => (Raise (wrap_error e), p)
    | Ok v_description =>
    let p := set_description v_description p in
    match getitem data "price" ≫= DecimalNew.Decimal with
    | Raise e => (Raise (wrap_error e), p)
    | Ok d =>
    let p := set_price (VDecimal d) p in
    match getitem data "available" with
    | Raise e => (Raise (wrap_error e), p)
    | Ok v_available =>
    if negb (isinstance_bool v_available)
    then (Raise (DataValidationError (Text "Invalid type for available")), p)
    else
    let p := set_available v_available p in
    match getitem data "category" ≫= CategoryEnum.getitem with
    | Raise e => (Raise (wrap_error e), p)
    | Ok c => (Ok tt, set_category (VCategory c) p)
    end end end end end.

(** The keys [deserialize] reads, in the order it reads them. *)
Definition required_keys : list string :=
  ["name"; "description"; "price"; "available"; "category"].

(** What [deserialize] refuses: no data, data that is not a mapping, or
    a mapping that lacks a required key, or whose [available] is not a
    boolean, or whose [category] is not the name of a member, or whose
    [price] the [Decimal] constructor refuses. *)
Definition invalid_payload (data : pyval) : Prop :=
  truthy data = false
  \/ (forall items, data <> VDict items)
  \/ exists items, data = VDict items /\
       ((exists key, key ∈ required_keys /\ assoc key items = None)
        \/ (exists v, assoc "available" items = Some v /\ isinstance_bool v = false)
        \/ (exists v, assoc "category" items = Some v /\
                      forall c, v <> VStr (CategoryEnum.name c))
        \/ (exists v e, assoc "price" items = Some v /\ DecimalNew.Decimal v = Raise e)).

(** The required keys that [deserialize] reads before a given one. *)
Fixpoint keys_before (key : string) (keys : list string) : list string :=
  match keys with
  | [] => []
  | k :: rest => if String.eqb k key then [] else k :: keys_before key rest
  end.

(** A required key can be read from a mapping: it is there, and its
    value passes what [deserialize] asks of it before it goes on to the
    next key, a price that [Decimal] accepts and an availability that is
    a boolean. *)
Definition readable (items : list (string * pyval)) (key : string) : Prop :=
  exists v,
    assoc key items = Some v /\
    (key = "price" -> exists d, DecimalNew.Decimal v = Ok d) /\
    (key = "available" -> isinstance_bool v = true).

(** A mapping that [deserialize] accepts, and what it gives: a name, a
    description, a price that [Decimal] turns into [d], a boolean and
    the name of a member of the enumeration. *)
Definition describes (data : pyval) (v_name v_description : pyval)
    (d : PyDecimal.t) (b : bool) (c : Category) : Prop :=
  exists items v_price,
    data = VDict items /\
    assoc "name" items = Some v_name /\
    assoc "description" items = Some v_description /\
    assoc "price" items = Some v_price /\
    DecimalNew.Decimal v_price = Ok d /\
    assoc "available" items = Some (VBool b) /\
    assoc "category" items = Some (VStr (CategoryEnum.name c)).

(** The values of an instance that are set are values that the storage
    accepts for a new row: each attribute is [None] or is accepted for
    its column. *)
Definition null_or_accepted `{Engine} (p : Product) : Prop :=
  (name p = VNone \/ is_Some (bind_string 100 None (name p)))
  /\ (description p = VNone \/ is_Some (bind_string 250 None (description p)))
  /\ (price p = VNone \/ is_Some (bind_numeric None (price p)))
  /\ (available p = VNone \/ is_Some (bind_boolean None (available p)))
  /\ (category p = VNone \/ is_Some (bind_enum None (category p))).

(* ================================================================= *)
(** ** Examples *)

Definition fedora : pyval :=
  VDict [("name", VStr "Fedora"); ("description", VStr "A red hat");
         ("price", VStr "12.50"); ("available", VBool true);
         ("category", VStr "CLOTHS")].

Definition fedora_row : Row :=
  mkRow "Fedora" "A red hat" (PyDecimal.Finite false 1250 (-2)) true CLOTHS.

Definition json_request (b : pyval) : request :=
  mkRequest [("Content-Type", "application/json")] [] (Some b) "http://localhost/".

Definition query_request (a : list (string * string)) : request :=
  mkRequest [] a None "http://localhost/".

(** The world once the service has created the Fedora: one persistent
    instance, at address 0, for the row with key 1. *)
Definition fedora_world : world :=
  mkWorld [mkInstance (loaded 1 fedora_row) (Persistent 1)]
          {[1 := fedora_row]} 2 [EvGetJson; EvCommit].

(** The same, the instance renamed in place and not yet updated. *)
Definition renamed_world : world :=
  mkWorld [mkInstance (set_name (VStr "Trilby") (loaded 1 fedora_row)) (Persistent 1)]
          {[1 := fedora_row]} 2 [].

(** A new instance that carries an id and was never added to the session. *)
Definition transient_world : world :=
  mkWorld [mkInstance (set_id (VInt 7) (loaded 1 fedora_row)) Transient] ∅ 1 [].

(** An instance attached to the row with key 0. *)
Definition zero_world : world :=
  mkWorld [mkInstance (set_name (VStr "Trilby") (loaded 0 fedora_row)) (Persistent 0)]
          {[0 := fedora_row]} 1 [].

(** What the tests of the repository use.  [construct p] is
    [Product(...)] with keyword arguments; a test starts on an empty
    table; the test client sends JSON or a query. *)
Definition construct (p : Product) : M addr := alloc (mkInstance p Transient).

Definition hat : Product :=
  mkProduct (VInt 0) (VStr "Fedora") (VStr "A red hat")
            (VDecimal (PyDecimal.Finite false 1250 (-2))) (VBool true) (VCategory CLOTHS).

Definition laptop : Product :=
  mkProduct (VInt 1) (VStr "Laptop") (VStr "A computer")
            (VDecimal (PyDecimal.Finite false 99900 (-2))) (VBool false) (VCategory TOOLS).

Definition test {A} (m : M A) : result A := (m initial_world).1.

Definition no_repr (v : pyval) : string := "".

Definition post_product (p : Product) : M response :=
  product ← construct p;
  data ← Product.serialize no_repr product;
  create_products (H:=strict_engine) no_repr (json_request data).

Definition body_length (resp : response) : nat :=
  match response_content resp with
  | Json (VList l) => length l
  | _ => 0%nat
  end.

(** The world after [Product()]: one new instance, nothing assigned. *)
Definition blank_world : world :=
  mkWorld [mkInstance (mkProduct VNone VNone VNone VNone VNone VNone) Transient] ∅ 1 [].

(** A new instance with a name, a description and a price only. *)
Definition bare_hat : Product :=
  mkProduct VNone (VStr "Fedora") (VStr "A red hat")
            (VDecimal (PyDecimal.Finite false 1250 (-2))) VNone VNone.

Definition bare_world : world := mkWorld [mkInstance bare_hat Transient] ∅ 1 [].

Definition bare_row : Row :=
  mkRow "Fedora" "A red hat" (PyDecimal.Finite false 1250 (-2)) true UNKNOWN.

(** A new hat without a name. *)
Definition nameless_world : world :=
  mkWorld [mkInstance (set_name VNone hat) Transient] ∅ 1 [].

(** The Fedora at 12.5 where the other is at 12.50, and its world. *)
Definition short_row : Row :=
  mkRow "Fedora" "A red hat" (PyDecimal.Finite false 125 (-1)) true CLOTHS.

Definition short_world : world :=
  mkWorld [mkInstance (loaded 1 short_row) (Persistent 1)] {[1 := short_row]} 2 [].

(** The Fedora with [null] for a name. *)
Definition nameless : pyval :=
  VDict [("name", VNone); ("description", VStr "A red hat");
         ("price", VStr "12.50"); ("available", VBool true);
         ("category", VStr "CLOTHS")].





(** Another hat, sent with an id of its own. *)
Definition trilby : pyval :=
  VDict [("id", VInt 99); ("name", VStr "Trilby"); ("description", VStr "A felt hat");
         ("price", VInt 30); ("available", VBool false);
         ("category", VStr "CLOTHS")].

Definition trilby_row : Row :=
  mkRow "Trilby" "A felt hat" (PyDecimal.Finite false 30 0) false CLOTHS.

(** A storage that compares a decimal with the price of a row by their
    numerical values and refuses any other value. *)
Definition same_number (d p : PyDecimal.t) : bool :=
  match d, p with
  | PyDecimal.Finite s c e, PyDecimal.Finite s' c' e' =>
      let m := Z.min e e' in
      ((if s then -1 else 1) * Z.of_N c * 10 ^ (e - m)
       =? (if s' then -1 else 1) * Z.of_N c' * 10 ^ (e' - m))
  | PyDecimal.Infinity s, PyDecimal.Infinity s' => Bool.eqb s s'
  | _, _ => false
  end.

Definition strict_numeric_eq (v : pyval) : result (PyDecimal.t -> bool) :=
  match v with
  | VDecimal d => Ok (same_number d)
  | _ => Raise TypeError
  end.

(* ================================================================= *)
(** * Properties *)

(** ** Text and digits *)

Module PyStrFacts.
Import PyStr.

Lemma digit_class c :
  is_digit c = true ->
  Ascii.eqb c "-" = false /\ Ascii.eqb c "+" = false /\
  Ascii.eqb c "." = false /\ Ascii.eqb c "_" = false /\
  is_space c = false /\ lower_char c = c.
Proof.
  destruct c as [[] [] [] [] [] [] [] []]; vm_compute; intros Hd;
    first [discriminate Hd | repeat split].
Qed.

Lemma all_chars_app P a b :
  all_chars P (a ++ b) = all_chars P a && all_chars P b.
Proof. induction a as [|c a IH]; simpl; [done|]. by rewrite IH, andb_assoc. Qed.

Lemma all_chars_impl (P Q : ascii -> bool) s :
  (forall c, P c = true -> Q c = true) ->
  all_chars P s = true -> all_chars Q s = true.
Proof.
  intros HPQ. induction s as [|c s IH]; simpl; [done|].
  intros [Hc Hs]%andb_true_iff. rewrite (HPQ _ Hc). simpl. auto.
Qed.

Lemma append_nil_r s : s ++ "" = s.
Proof. induction s; simpl; congruence. Qed.

Lemma append_assoc (a b c : string) : (a ++ b) ++ c = a ++ b ++ c.
Proof. induction a; simpl; congruence. Qed.

Lemma length_append (a b : string) :
  String.length (a ++ b) = (String.length a + String.length b)%nat.
Proof. induction a; simpl; congruence. Qed.

(** *** Slices *)

Lemma take_drop n s : take n s ++ drop n s = s.
Proof.
  revert s; induction n as [|n IH]; intros [|c s]; simpl; try done.
  by rewrite IH.
Qed.

Lemma all_chars_take P n s : all_chars P s = true -> all_chars P (take n s) = true.
Proof.
  revert s; induction n as [|n IH]; intros [|c s]; simpl; try done.
  intros [Hc Hs]%andb_true_iff. rewrite Hc. simpl. auto.
Qed.

Lemma all_chars_drop P n s : all_chars P s = true -> all_chars P (drop n s) = true.
Proof.
  revert s; induction n as [|n IH]; intros [|c s]; simpl; try done.
  intros [Hc Hs]%andb_true_iff. auto.
Qed.

Lemma length_drop n s : String.length (drop n s) = (String.length s - n)%nat.
Proof. revert s; induction n as [|n IH]; intros [|c s]; simpl; auto. Qed.

Lemma take_nonempty n s : (0 < n)%nat -> s <> "" -> take n s <> "".
Proof. destruct n, s; simpl; try done; lia. Qed.

(** *** Digits *)

Lemma all_digits_zeros n : all_chars is_digit (zeros n) = true.
Proof. induction n; simpl; auto. Qed.

Lemma length_zeros n : String.length (zeros n) = n.
Proof. induction n; simpl; auto. Qed.

Lemma all_digits_uint u : all_chars is_digit (NilEmpty.string_of_uint u) = true.
Proof. induction u; simpl; auto. Qed.

Lemma all_digits_str_of_N n : all_chars is_digit (str_of_N n) = true.
Proof. apply all_digits_uint. Qed.

Lemma str_of_N_nonempty n : str_of_N n <> "".
Proof.
  unfold str_of_N. destruct n as [|p]; simpl; [done|].
  pose proof (Unsigned.to_uint_nonnil p) as Hp.
  destruct (Pos.to_uint p); simpl; try done.
Qed.

Lemma int_of_digits_app acc a b :
  int_of_digits acc (a ++ b) = int_of_digits (int_of_digits acc a) b.
Proof. revert acc; induction a as [|c a IH]; intros acc; simpl; [done|]. apply IH. Qed.

Lemma int_of_digits_zeros n : int_of_digits 0 (zeros n) = 0%N.
Proof. induction n; simpl; auto. Qed.

Lemma int_of_digits_uint u acc :
  int_of_digits acc (NilEmpty.string_of_uint u)
  = (Unsigned.of_lu (Decimal.rev u) + acc * 10 ^ Unsigned.usize u)%N.
Proof.
  revert acc. induction u; intros acc; simpl NilEmpty.string_of_uint;
    simpl int_of_digits; simpl Unsigned.usize;
    [ simpl; lia | .. ];
    rewrite IHu; unfold Decimal.rev; simpl Decimal.revapp;
    rewrite (Unsigned.of_lu_revapp u (_ Decimal.Nil));
    rewrite N.pow_succ_r'; unfold digit_value; simpl Unsigned.of_lu;
    simpl N_of_ascii; unfold Decimal.rev; lia.
Qed.

Lemma int_of_str_of_N n : int_of_digits 0 (str_of_N n) = n.
Proof.
  unfold str_of_N. rewrite int_of_digits_uint, N.mul_0_l, N.add_0_r.
  rewrite <- Unsigned.of_uint_alt. apply DecimalN.Unsigned.of_to.
Qed.

(** *** The longest prefix of digits *)

Lemma span_digits_app ds rest :
  all_chars is_digit ds = true -> no_digit_ahead rest = true ->
  span_digits (ds ++ rest) = (ds, rest).
Proof.
  intros Hds Hrest. induction ds as [|c ds IH]; simpl.
  - destruct rest as [|c rest]; simpl in *; [done|].
    by destruct (is_digit c).
  - simpl in Hds. apply andb_true_iff in Hds as [-> Hds]. by rewrite IH.
Qed.

Lemma span_digits_all ds :
  all_chars is_digit ds = true -> span_digits ds = (ds, "").
Proof.
  intros Hds. rewrite <- (append_nil_r ds) at 1. by apply span_digits_app.
Qed.

(** *** Text without white space, underscores or capitals *)

Lemma digit_plain c : is_digit c = true -> plain c = true.
Proof.
  intros (_ & _ & _ & Hu & Hs & _)%digit_class. unfold plain. by rewrite Hu, Hs.
Qed.

Lemma lstrip_plain s : all_chars plain s = true -> lstrip s = s.
Proof.
  destruct s as [|c s]; simpl; [done|].
  unfold plain at 1. intros [[Hc _]%andb_true_iff _]%andb_true_iff.
  by apply negb_true_iff in Hc as ->.
Qed.

Lemma rstrip_plain s : all_chars plain s = true -> rstrip s = s.
Proof.
  induction s as [|c s IH]; simpl; [done|].
  unfold plain at 1. intros [[Hc _]%andb_true_iff Hs]%andb_true_iff.
  rewrite (IH Hs). apply negb_true_iff in Hc as ->. by destruct s.
Qed.

Lemma strip_plain s : all_chars plain s = true -> strip s = s.
Proof.
  intros Hs. unfold strip. rewrite (lstrip_plain _ Hs). by apply rstrip_plain.
Qed.

Lemma remove_underscores_plain s :
  all_chars plain s = true -> remove_underscores s = s.
Proof.
  induction s as [|c s IH]; simpl; [done|].
  unfold plain at 1. intros [[_ Hc]%andb_true_iff Hs]%andb_true_iff.
  apply negb_true_iff in Hc as ->. by rewrite (IH Hs).
Qed.

Lemma lower_app a b : lower (a ++ b) = lower a ++ lower b.
Proof. induction a as [|c a IH]; simpl; [done|]. by rewrite IH. Qed.

Lemma lower_digits s : all_chars is_digit s = true -> lower s = s.
Proof.
  induction s as [|c s IH]; simpl; [done|].
  intros [Hc Hs]%andb_true_iff. rewrite (IH Hs).
  by destruct (digit_class c Hc) as (_ & _ & _ & _ & _ & ->).
Qed.

End PyStrFacts.

(** ** Decimal: what [str] writes, the constructor reads back *)

Module PyDecimalFacts.
Import PyStr PyStrFacts PyDecimal.

Lemma parse_exponent_signed z : parse_exponent (signed_str z) = Some z.
Proof.
  unfold parse_exponent, signed_str.
  pose proof (all_digits_str_of_N (Z.abs_N z)) as Hd.
  pose proof (str_of_N_nonempty (Z.abs_N z)) as Hne.
  pose proof (int_of_str_of_N (Z.abs_N z)) as Hint.
  destruct (Z.ltb_spec z 0) as [Hz|Hz]; simpl;
    rewrite (span_digits_all _ Hd);
    destruct (str_of_N (Z.abs_N z)) as [|c s] eqn:E; try done;
    rewrite Hint; f_equal; lia.
Qed.

Lemma all_plain_signed z : all_chars plain (signed_str z) = true.
Proof.
  unfold signed_str. rewrite all_chars_app.
  rewrite (all_chars_impl is_digit plain _ digit_plain (all_digits_str_of_N _)).
  by destruct (z <? 0).
Qed.

Lemma lower_signed z : lower (signed_str z) = signed_str z.
Proof.
  unfold signed_str. rewrite lower_app, (lower_digits _ (all_digits_str_of_N _)).
  by destruct (z <? 0).
Qed.

(** A sign, digits, a fraction and an exponent read back as written. *)
Lemma of_str_number sign I dot F x :
  all_chars is_digit I = true -> all_chars is_digit F = true -> I <> "" ->
  of_str (sign_str sign ++ I ++ frac_str dot F ++ exp_str x)
  = Some (Finite sign (int_of_digits 0 (I ++ (if dot then F else "")))
                 (default 0 x - (if dot then Z.of_nat (String.length F) else 0))).
Proof.
  intros HI HF Hne. unfold of_str.
  assert (Hplain : all_chars plain (sign_str sign ++ I ++ frac_str dot F ++ exp_str x) = true).
  { rewrite !all_chars_app.
    rewrite (all_chars_impl is_digit plain _ digit_plain HI).
    assert (all_chars plain (frac_str dot F) = true) as ->.
    { destruct dot; simpl; [|done].
      by rewrite (all_chars_impl is_digit plain _ digit_plain HF). }
    assert (all_chars plain (exp_str x) = true) as ->.
    { destruct x; simpl; [|done]. by rewrite all_plain_signed. }
    by destruct sign. }
  rewrite (strip_plain _ Hplain), (remove_underscores_plain _ Hplain).
  rewrite !lower_app, (lower_digits _ HI).
  assert (lower (sign_str sign) = sign_str sign) as -> by (by destruct sign).
  assert (lower (frac_str dot F) = frac_str dot F) as ->.
  { destruct dot; simpl; [|done]. by rewrite (lower_digits _ HF). }
  set (e := lower (exp_str x)).
  assert (He : e = match x with Some z => "e" ++ signed_str z | None => "" end).
  { subst e. destruct x; simpl; [|done]. by rewrite lower_signed. }
  assert (Hsplit : split_sign (sign_str sign ++ I ++ frac_str dot F ++ e)
                   = (sign, I ++ frac_str dot F ++ e)).
  { destruct sign; simpl; [done|].
    destruct I as [|c I']; [done|]. simpl. simpl in HI.
    apply andb_true_iff in HI as [Hc _].
    destruct (digit_class c Hc) as (-> & -> & _). done. }
  rewrite Hsplit. unfold parse_finite.
  assert (Hahead : no_digit_ahead (frac_str dot F ++ e) = true).
  { destruct dot; simpl; [done|]. rewrite He. by destruct x. }
  rewrite (span_digits_app _ _ HI Hahead).
  destruct dot; simpl frac_str.
  - simpl. assert (Hahead' : no_digit_ahead e = true) by (rewrite He; by destruct x).
    rewrite (span_digits_app _ _ HF Hahead').
    destruct I as [|c I']; [done|].
    rewrite He. destruct x as [z|]; simpl.
    + rewrite parse_exponent_signed. done.
    + done.
  - simpl. rewrite He.
    destruct I as [|c I']; [done|].
    destruct x as [z|]; simpl.
    + rewrite parse_exponent_signed, append_nil_r. repeat f_equal; lia.
    + rewrite append_nil_r. done.
Qed.

Lemma of_str_to_str d : of_str (to_str d) = Some d.
Proof.
  destruct d as [s c e|s|s sg p].
  - (* finite *)
    unfold to_str.
    pose proof (all_digits_str_of_N c) as Hd.
    pose proof (str_of_N_nonempty c) as Hne.
    pose proof (int_of_str_of_N c) as Hint.
    set (ds := str_of_N c) in *.
    assert (Hlen : (0 < String.length ds)%nat) by (destruct ds; simpl; [done|lia]).
    set (len := Z.of_nat (String.length ds)).
    set (left := e + len).
    set (dp := if (e <=? 0) && (-6 <? left) then left else 1).
    set (x := if left =? dp then None else Some (left - dp)).
    assert (Hx : (if left =? dp then "" else "E" ++ signed_str (left - dp)) = exp_str x).
    { subst x. by destruct (left =? dp). }
    rewrite Hx.
    assert (Hdp : dp = left /\ e <= 0 \/ dp = 1).
    { subst dp. destruct (Z.leb_spec e 0); simpl; [|by right].
      destruct (-6 <? left); [left|right]; done. }
    assert (Hxv : default 0 x = left - dp).
    { subst x. destruct (Z.eqb_spec left dp); simpl; lia. }
    clearbody x. clear Hx.
    destruct (Z.leb_spec dp 0) as [Hle|Hgt].
    + (* 0.000ddd *)
      change ("." ++ zeros (Z.to_nat (- dp)) ++ ds)
        with (frac_str true (zeros (Z.to_nat (- dp)) ++ ds)).
      rewrite of_str_number; [| done | | done].
      * f_equal. f_equal.
        -- change ("0" ++ zeros (Z.to_nat (- dp)) ++ ds)
             with (zeros (S (Z.to_nat (- dp))) ++ ds).
           by rewrite int_of_digits_app, int_of_digits_zeros.
        -- rewrite length_append, length_zeros. lia.
      * by rewrite all_chars_app, all_digits_zeros.
    + destruct (Z.leb_spec len dp) as [Hle'|Hgt'].
      * (* ddd *)
        assert (dp = len) as Hdl by lia.
        replace (Z.to_nat (dp - len)) with O by lia. simpl zeros.
        rewrite append_nil_r.
        change (ds ++ "" ++ exp_str x) with (ds ++ frac_str false "" ++ exp_str x).
        rewrite of_str_number by done.
        rewrite append_nil_r, Hint. do 2 f_equal. lia.
      * (* d.dd *)
        change ("." ++ drop (Z.to_nat dp) ds)
          with (frac_str true (drop (Z.to_nat dp) ds)).
        rewrite of_str_number.
        -- rewrite take_drop, Hint, length_drop. do 2 f_equal. lia.
        -- by apply all_chars_take.
        -- by apply all_chars_drop.
        -- apply take_nonempty; [lia|done].
  - (* infinity *)
    by destruct s.
  - (* not a number *)
    unfold to_str, of_str.
    set (payload := if (p =? 0)%N then "" else str_of_N p).
    assert (Hd : all_chars is_digit payload = true).
    { subst payload. destruct (p =? 0)%N; [done|apply all_digits_str_of_N]. }
    assert (Hint : int_of_digits 0 payload = p).
    { subst payload. destruct (N.eqb_spec p 0); [done|apply int_of_str_of_N]. }
    clearbody payload.
    assert (Hplain : all_chars plain
              (sign_str s ++ (if sg then "sNaN" else "NaN") ++ payload) = true).
    { rewrite !all_chars_app, (all_chars_impl is_digit plain _ digit_plain Hd).
      by destruct s, sg. }
    rewrite (strip_plain _ Hplain), (remove_underscores_plain _ Hplain).
    rewrite !lower_app, (lower_digits _ Hd).
    replace (lower (sign_str s)) with (sign_str s) by (by destruct s).
    replace (lower (if sg then "sNaN" else "NaN"))
      with (if sg then "snan" else "nan") by (by destruct sg).
    destruct s, sg; simpl; unfold parse_special; simpl; rewrite Hd, Hint; done.
Qed.

End PyDecimalFacts.

(** ** The heap *)

Lemma put_same a o w : heap w !! a = Some o -> put a o w = w.
Proof.
  intros Ha. destruct w as [h t s tr]. unfold put, set_heap. simpl in *.
  by rewrite list_insert_id.
Qed.

Lemma heap_put a o o' w :
  heap w !! a = Some o -> heap (put a o' w) !! a = Some o'.
Proof.
  intros Ha. unfold put. simpl. apply list_lookup_insert_eq.
  by apply lookup_lt_Some in Ha.
Qed.

Lemma heap_put_ne a b o' w : a <> b -> heap (put a o' w) !! b = heap w !! b.
Proof. intros Hab. unfold put. simpl. by apply list_lookup_insert_ne. Qed.

Lemma put_put a o1 o2 w : put a o2 (put a o1 w) = put a o2 w.
Proof. unfold put, set_heap. simpl. by rewrite list_insert_insert_eq. Qed.

Lemma table_put a o w : table (put a o w) = table w.
Proof. done. Qed.

Lemma setattr_at a o set v w :
  heap w !! a = Some o ->
  setattr a set v w = (Ok tt, put a (mkInstance (set v (attrs o)) (state o)) w).
Proof. intros Ha. unfold setattr. by rewrite Ha. Qed.

Lemma getattr_at a o field w :
  heap w !! a = Some o -> getattr a field w = (Ok (field (attrs o)), w).
Proof. intros Ha. unfold getattr. by rewrite Ha. Qed.

(** ** deserialize *)

Ltac step_setattr :=
  match goal with
  | |- context [setattr ?a ?set ?v (put ?a ?o ?w)] =>
      erewrite (setattr_at a o set v (put a o w)) by (eapply heap_put; eassumption);
      rewrite put_put; simpl attrs; simpl state
  | H : heap ?w !! ?a = Some ?o |- context [setattr ?a ?set ?v ?w] =>
      rewrite (setattr_at a o set v w H); simpl attrs; simpl state
  end.

Ltac run := cbv [mbind SE_bind mret SE_ret lift raise try_except result_bind].

(** [deserialize] runs on the attributes of its receiver alone. *)
Lemma deserialize_run self o data w :
  heap w !! self = Some o ->
  Product.deserialize self data w
  = ((deserialize_attrs data (attrs o)).1 ≫= (fun _ => Ok self),
     put self (mkInstance (deserialize_attrs data (attrs o)).2 (state o)) w).
Proof.
  intros Hself.
  assert (Hid : put self (mkInstance (attrs o) (state o)) w = w).
  { apply put_same. by destruct o. }
  unfold Product.deserialize, deserialize_attrs. run.
  destruct (truthy data); cbn [negb fst snd]; cbv iota; [|by rewrite Hid].
  destruct (getitem data "name") as [v_name|e]; [|cbn [fst snd]; rewrite Hid; by destruct e].
  step_setattr.
  destruct (getitem data "description") as [v_description|e]; [|cbn [fst snd]; by destruct e].
  step_setattr.
  destruct (getitem data "price") as [v_price|e]; [|cbn [fst snd]; by destruct e].
  destruct (DecimalNew.Decimal v_price) as [d|e]; [|cbn [fst snd]; by destruct e].
  step_setattr.
  destruct (getitem data "available") as [v_available|e]; [|cbn [fst snd]; by destruct e].
  destruct (isinstance_bool v_available); cbn [negb]; cbv iota; [|done].
  step_setattr.
  destruct (getitem data "category") as [v_category|e]; [|cbn [fst snd]; by destruct e].
  destruct (CategoryEnum.getitem v_category) as [c|e]; [|cbn [fst snd]; by destruct e].
  step_setattr. done.
Qed.

(** ** The unit of work *)

Section Flush.
Context `{Engine}.

Lemma bind_column_string_loaded n s :
  bind_column (bind_string n) (Some s) (VStr s) = Ok s.
Proof. unfold bind_column. by rewrite bind_string_loaded. Qed.

Lemma update_row_loaded k r : update_row r (loaded k r) = Ok r.
Proof.
  unfold update_row, loaded, bind_column; simpl.
  rewrite !bind_string_loaded, bind_numeric_loaded, bind_boolean_loaded,
    bind_enum_loaded. by destruct r.
Qed.

Lemma insert_row_set_id v p : insert_row (set_id v p) = insert_row p.
Proof. done. Qed.

Lemma flush_one_clean o tbl ser :
  clean tbl o -> flush_one o tbl ser = Ok (o, tbl, ser).
Proof.
  unfold clean, flush_one. destruct (state o) as [| |k|k|k]; try done.
  intros (r & Hr & Ho). rewrite Hr, Ho, update_row_loaded. simpl.
  rewrite Z.eqb_refl. by rewrite insert_id.
Qed.

Lemma flush_all_clean objs tbl ser :
  Forall (clean tbl) objs -> flush_all objs tbl ser = Ok (objs, tbl, ser).
Proof.
  induction 1 as [|o objs Ho _ IH]; simpl; [done|].
  rewrite (flush_one_clean _ _ _ Ho). simpl. by rewrite IH.
Qed.

(** One instance has something to flush, the others have nothing,
    before and after. *)
Lemma flush_all_target h a o o' tbl ser tbl' ser' :
  h !! a = Some o ->
  (forall b x, b <> a -> h !! b = Some x -> clean tbl x /\ clean tbl' x) ->
  flush_one o tbl ser = Ok (o', tbl', ser') ->
  flush_all h tbl ser = Ok (<[a := o']> h, tbl', ser').
Proof.
  revert a. induction h as [|x h IH]; intros a Ha Hothers Hone; [done|].
  destruct a as [|a]; simpl in *.
  - injection Ha as ->. rewrite Hone. simpl.
    rewrite flush_all_clean; [done|].
    apply Forall_lookup. intros i y Hy.
    by apply (Hothers (S i) y).
  - destruct (Hothers O x) as [Hx _]; [lia|done|].
    rewrite (flush_one_clean _ _ _ Hx). simpl.
    rewrite (IH a Ha); [done| |done].
    intros b y Hb Hy. apply (Hothers (S b) y); [lia|done].
Qed.

(** One instance has something to flush that the storage refuses. *)
Lemma flush_all_fail h a o e tbl ser :
  h !! a = Some o ->
  (forall b x, b <> a -> h !! b = Some x -> clean tbl x) ->
  flush_one o tbl ser = Raise e ->
  flush_all h tbl ser = Raise e.
Proof.
  revert a. induction h as [|x h IH]; intros a Ha Hothers Hone; [done|].
  destruct a as [|a]; simpl in *.
  - injection Ha as ->. by rewrite Hone.
  - rewrite (flush_one_clean x tbl ser) by (apply (Hothers O x); [lia|done]).
    simpl. rewrite (IH a Ha); [done| |done].
    intros b y Hb Hy. apply (Hothers (S b) y); [lia|done].
Qed.

Lemma expire_clean tbl o : clean tbl o -> expire tbl o = o.
Proof.
  unfold clean, expire. destruct (state o) as [| |k|k|k] eqn:Hst; try done.
  intros (r & -> & Ho). destruct o as [p st]. simpl in *. by subst.
Qed.

Lemma expire_heap tbl h a o' :
  (a < length h)%nat ->
  (forall b x, b <> a -> h !! b = Some x -> clean tbl x) ->
  expire tbl <$> <[a := o']> h = <[a := expire tbl o']> h.
Proof.
  intros Ha Hothers. apply list_eq. intros i.
  rewrite list_lookup_fmap. destruct (decide (i = a)) as [->|Hne].
  - by rewrite !list_lookup_insert_eq.
  - rewrite !list_lookup_insert_ne by done.
    destruct (h !! i) as [x|] eqn:Hx; simpl; [|done].
    by rewrite (expire_clean _ _ (Hothers i x Hne Hx)).
Qed.

Lemma clean_agree tbl tbl' x :
  clean tbl x ->
  (forall k, state x = Persistent k -> tbl' !! k = tbl !! k) ->
  clean tbl' x.
Proof.
  unfold clean. destruct (state x) as [| |k|k|k]; try done.
  intros (r & Hr & Hx) Hk. exists r. by rewrite Hk.
Qed.

(** [commit] when one instance has something to flush. *)
Lemma commit_target w a o o' tbl' ser' :
  heap w !! a = Some o ->
  (forall b x, b <> a -> heap w !! b = Some x ->
               clean (table w) x /\ clean tbl' x) ->
  flush_one o (table w) (serial w) = Ok (o', tbl', ser') ->
  session_commit w
  = (Ok tt, mkWorld (<[a := expire tbl' o']> (heap w)) tbl' ser'
                    (trace w ++ [EvCommit])).
Proof.
  intros Ha Hothers Hone.
  unfold session_commit, session_flush, log, modify. run. simpl.
  rewrite (flush_all_target _ _ _ _ _ _ _ _ Ha Hothers Hone).
  unfold set_heap. simpl. f_equal. f_equal.
  apply expire_heap; [by apply lookup_lt_Some in Ha|].
  intros b x Hb Hx. by apply (Hothers b x).
Qed.

Lemma flush_clean w : session_clean w -> session_flush w = (Ok tt, w).
Proof.
  intros Hw. unfold session_flush. rewrite (flush_all_clean _ _ _ Hw).
  by destruct w.
Qed.

End Flush.

(** ** Persistence *)

Lemma get_state_at a o w : heap w !! a = Some o -> get_state a w = (Ok (state o), w).
Proof. intros Ha. unfold get_state. by rewrite Ha. Qed.

Lemma set_state_at a o st w :
  heap w !! a = Some o -> set_state a st w = (Ok tt, put a (mkInstance (attrs o) st) w).
Proof. intros Ha. unfold set_state. by rewrite Ha. Qed.

Lemma clean_but_put a o w :
  clean_but a w -> clean_but a (put a o w).
Proof.
  intros Hw b x Hb Hx. rewrite heap_put_ne in Hx by done. by apply (Hw b x).
Qed.

Section Persistence.
Context `{Engine}.

(** *** create *)

Lemma create_transient w self o r :
  heap w !! self = Some o ->
  state o = Transient ->
  clean_but self w ->
  keys_fresh w ->
  insert_row (attrs o) = Ok r ->
  Product.create self w
  = (Ok tt,
     mkWorld (<[self := mkInstance (loaded (serial w) r) (Persistent (serial w))]> (heap w))
             (<[serial w := r]> (table w)) (serial w + 1) (trace w ++ [EvCommit])).
Proof.
  intros Hself Hst Hothers Hfresh Hrow.
  assert (Hnew : table w !! serial w = None).
  { destruct (table w !! serial w) eqn:E; [|done].
    specialize (Hfresh (serial w)). rewrite E in Hfresh.
    specialize (Hfresh (mk_is_Some _ _ eq_refl)). lia. }
  unfold Product.create. run.
  rewrite (setattr_at _ _ _ _ _ Hself).
  set (w1 := put self _ w).
  assert (H1 : heap w1 !! self = Some (mkInstance (set_id VNone (attrs o)) (state o)))
    by (eapply heap_put; eassumption).
  unfold session_add. run.
  rewrite (get_state_at _ _ _ H1). rewrite Hst. cbn [state]. cbv beta iota.
  rewrite (set_state_at _ _ _ _ H1). subst w1. rewrite put_put. simpl attrs.
  set (o2 := mkInstance (set_id VNone (attrs o)) Pending).
  set (w2 := put self o2 w).
  assert (H2 : heap w2 !! self = Some o2) by (eapply heap_put; eassumption).
  rewrite (commit_target w2 self o2
             (mkInstance (set_id (VInt (serial w)) (attrs o2)) (Persistent (serial w)))
             (<[serial w := r]> (table w)) (serial w + 1) H2).
  - unfold w2, put, set_heap. simpl. rewrite list_insert_insert_eq.
    unfold expire. simpl. rewrite lookup_insert_eq. done.
  - intros b x Hb Hx. unfold w2 in Hx. rewrite heap_put_ne in Hx by done.
    pose proof (Hothers b x Hb Hx) as Hc. split; [done|].
    apply (clean_agree _ _ _ Hc). intros k Hk.
    apply lookup_insert_ne. intros <-.
    unfold clean in Hc. rewrite Hk in Hc. destruct Hc as (r' & Hr' & _).
    simpl in Hr'. congruence.
  - unfold flush_one, o2. cbn [state attrs].
    change (insert_row (set_id VNone (attrs o))) with (insert_row (attrs o)).
    rewrite Hrow. simpl. by rewrite Hnew.
Qed.

(** *** update *)

Lemma update_empty_id w self o :
  heap w !! self = Some o ->
  truthy (id (attrs o)) = false ->
  Product.update self w
  = (Raise (DataValidationError (Text "Update called with empty ID")), w).
Proof.
  intros Hself Hid. unfold Product.update. run.
  by rewrite (getattr_at _ _ _ _ Hself), Hid.
Qed.

Lemma clean_others_insert w self o k r' :
  heap w !! self = Some o -> state o = Persistent k ->
  clean_but self w -> identity_unique (heap w) ->
  forall b x, b <> self -> heap w !! b = Some x ->
              clean (table w) x /\ clean (<[k := r']> (table w)) x.
Proof.
  intros Hself Hst Hothers Huniq b x Hb Hx.
  pose proof (Hothers b x Hb Hx) as Hc. split; [done|].
  apply (clean_agree _ _ _ Hc). intros k' Hk'.
  apply lookup_insert_ne. intros <-.
  apply Hb. by apply (Huniq b self x o k).
Qed.

Lemma clean_others_delete w self o k :
  heap w !! self = Some o -> state o = Persistent k ->
  clean_but self w -> identity_unique (heap w) ->
  forall b x, b <> self -> heap w !! b = Some x ->
              clean (table w) x /\ clean (delete k (table w)) x.
Proof.
  intros Hself Hst Hothers Huniq b x Hb Hx.
  pose proof (Hothers b x Hb Hx) as Hc. split; [done|].
  apply (clean_agree _ _ _ Hc). intros k' Hk'.
  apply lookup_delete_ne. intros <-.
  apply Hb. by apply (Huniq b self x o k).
Qed.

Lemma update_persistent w self o k r r' :
  heap w !! self = Some o ->
  state o = Persistent k ->
  id (attrs o) = VInt k ->
  k <> 0 ->
  table w !! k = Some r ->
  update_row r (attrs o) = Ok r' ->
  clean_but self w ->
  identity_unique (heap w) ->
  Product.update self w
  = (Ok tt,
     mkWorld (<[self := mkInstance (loaded k r') (Persistent k)]> (heap w))
             (<[k := r']> (table w)) (serial w) (trace w ++ [EvCommit])).
Proof.
  intros Hself Hst Hid Hk Hr Hr' Hothers Huniq.
  unfold Product.update. run.
  rewrite (getattr_at _ _ _ _ Hself), Hid. simpl.
  destruct (Z.eqb_spec k 0) as [|_]; [done|]. simpl.
  rewrite (commit_target w self o o (<[k := r']> (table w)) (serial w) Hself).
  - unfold expire. rewrite Hst, lookup_insert_eq. done.
  - by apply (clean_others_insert w self o k r').
  - unfold flush_one. rewrite Hst, Hr, Hr'. simpl. rewrite Hid, Z.eqb_refl. done.
Qed.

(** *** delete *)

Lemma delete_persistent w self o k :
  heap w !! self = Some o ->
  state o = Persistent k ->
  clean_but self w ->
  identity_unique (heap w) ->
  Product.delete self w
  = (Ok tt,
     mkWorld (<[self := mkInstance (attrs o) (Detached k)]> (heap w))
             (delete k (table w)) (serial w) (trace w ++ [EvCommit])).
Proof.
  intros Hself Hst Hothers Huniq.
  unfold Product.delete, session_delete. run.
  rewrite (get_state_at _ _ _ Hself), Hst. cbv beta iota.
  rewrite (set_state_at _ _ _ _ Hself).
  set (o1 := mkInstance (attrs o) (Deleted k)).
  set (w1 := put self o1 w).
  assert (H1 : heap w1 !! self = Some o1) by (eapply heap_put; eassumption).
  rewrite (commit_target w1 self o1 (mkInstance (attrs o) (Detached k))
             (delete k (table w)) (serial w) H1).
  - unfold w1, put, set_heap. simpl. by rewrite list_insert_insert_eq.
  - intros b x Hb Hx. unfold w1 in Hx. rewrite heap_put_ne in Hx by done.
    by apply (clean_others_delete w self o k Hself Hst Hothers Huniq b x).
  - done.
Qed.

(** *** find *)

Lemma identity_lookup_Some k h a :
  identity_lookup k h = Some a ->
  exists o, h !! a = Some o /\ state o = Persistent k.
Proof.
  unfold identity_lookup. intros Hl.
  destruct (list_find _ h) as [[i o]|] eqn:E; simpl in Hl; [|done].
  injection Hl as <-. apply list_find_Some in E as (Hi & Ho & _). eauto.
Qed.

Lemma identity_lookup_None k h :
  identity_lookup k h = None <->
  forall a o, h !! a = Some o -> state o <> Persistent k.
Proof.
  unfold identity_lookup. rewrite fmap_None, list_find_None, Forall_lookup. done.
Qed.

Lemma identity_unique_alloc h k p :
  identity_lookup k h = None ->
  identity_unique h ->
  identity_unique (h ++ [mkInstance p (Persistent k)]).
Proof.
  intros Hl Huniq a b oa ob k' Ha Hb Hsa Hsb.
  pose proof (proj1 (identity_lookup_None _ _) Hl) as Hnone.
  apply lookup_app_Some in Ha as [Ha|[Hla Ha]];
    apply lookup_app_Some in Hb as [Hb|[Hlb Hb]].
  - by apply (Huniq a b oa ob k').
  - apply list_lookup_singleton_Some in Hb as [_ <-]. simpl in Hsb.
    injection Hsb as <-. by destruct (Hnone a oa Ha).
  - apply list_lookup_singleton_Some in Ha as [_ <-]. simpl in Hsa.
    injection Hsa as <-. by destruct (Hnone b ob Hb).
  - apply list_lookup_singleton_Some in Ha as [Ha _].
    apply list_lookup_singleton_Some in Hb as [Hb _]. lia.
Qed.

Lemma find_absent w k :
  session_clean w ->
  table w !! k = None ->
  Product.find k w
  = (Ok None, mkWorld (heap w) (table w) (serial w) (trace w ++ [EvGet k])).
Proof.
  intros Hw Hk. unfold Product.find, query_get, log, modify, gets. run. simpl.
  assert (Hl : identity_lookup k (heap w) = None).
  { apply identity_lookup_None. intros a o Ha Hst.
    pose proof (proj1 (Forall_lookup _ _) Hw a o Ha) as Hc.
    unfold clean in Hc. rewrite Hst in Hc. destruct Hc as (r & Hr & _). congruence. }
  rewrite Hl.
  rewrite (flush_clean (mkWorld (heap w) (table w) (serial w) (trace w ++ [EvGet k])))
    by done.
  simpl. by rewrite Hk.
Qed.

Lemma find_present w k r :
  session_clean w ->
  identity_unique (heap w) ->
  table w !! k = Some r ->
  exists a o w',
    Product.find k w = (Ok (Some a), w') /\
    table w' = table w /\ serial w' = serial w /\
    heap w' !! a = Some o /\ state o = Persistent k /\
    session_clean w' /\ identity_unique (heap w').
Proof.
  intros Hw Huniq Hk. unfold Product.find, query_get, log, modify, gets. run. simpl.
  destruct (identity_lookup k (heap w)) as [a|] eqn:Hl.
  - destruct (identity_lookup_Some _ _ _ Hl) as (o & Ha & Hst).
    eexists a, o, _. split; [done|]. simpl. done.
  - rewrite (flush_clean (mkWorld (heap w) (table w) (serial w) (trace w ++ [EvGet k])))
      by done.
    simpl. rewrite Hk. unfold alloc. simpl.
    eexists _, _, _. split; [done|]. simpl.
    split; [done|]. split; [done|].
    split; [by rewrite lookup_app_r, Nat.sub_diag|].
    split; [done|]. split.
    + unfold session_clean. simpl. apply Forall_app. split; [done|].
      apply Forall_singleton. unfold clean. simpl. eauto.
    + by apply identity_unique_alloc.
Qed.

End Persistence.

(** ** Queries *)

Section Queries.
Context `{Engine}.
Context (repr_other : pyval -> string).

Lemma represents_app h ext a kr : represents h a kr -> represents (h ++ ext) a kr.
Proof. unfold represents. intros Ha. by apply lookup_app_l_Some. Qed.

Lemma materialize_hit k r a w :
  identity_lookup k (heap w) = Some a -> materialize (k, r) w = (Ok a, w).
Proof. intros Hl. unfold materialize, gets. run. cbn [fst snd]. by rewrite Hl. Qed.

Lemma materialize_miss k r w :
  identity_lookup k (heap w) = None ->
  materialize (k, r) w
  = (Ok (length (heap w)),
     set_heap (heap w ++ [mkInstance (loaded k r) (Persistent k)]) w).
Proof. intros Hl. unfold materialize, gets. run. cbn [fst snd]. by rewrite Hl. Qed.

Lemma materialize_all rows w :
  session_clean w ->
  (forall kr, kr ∈ rows -> table w !! kr.1 = Some kr.2) ->
  exists addrs ext,
    mapM materialize rows w = (Ok addrs, set_heap (heap w ++ ext) w) /\
    Forall (clean (table w)) ext /\
    Forall2 (represents (heap w ++ ext)) addrs rows /\
    (identity_unique (heap w) -> identity_unique (heap w ++ ext)).
Proof.
  revert w. induction rows as [|[k r] rows IH]; intros w Hw Hrows.
  - exists [], []. simpl. run. rewrite app_nil_r. destruct w.
    split; [done|]. split; [constructor|]. split; [constructor|done].
  - assert (Hk : table w !! k = Some r) by (apply (Hrows (k, r)); left).
    assert (Hrest : forall kr, kr ∈ rows -> table w !! kr.1 = Some kr.2)
      by (intros kr Hkr; apply Hrows; by right).
    simpl mapM. run.
    destruct (identity_lookup k (heap w)) as [a|] eqn:Hl.
    + rewrite (materialize_hit _ _ _ _ Hl).
      destruct (identity_lookup_Some _ _ _ Hl) as (o & Ha & Hst).
      pose proof (proj1 (Forall_lookup _ _) Hw a o Ha) as Hc.
      unfold clean in Hc. rewrite Hst in Hc. destruct Hc as (r' & Hr' & Ho).
      assert (r' = r) as -> by congruence.
      destruct (IH w Hw Hrest) as (addrs & ext & -> & Hext & Hrep & Huq).
      exists (a :: addrs), ext. split; [done|]. split; [done|]. split; [|done].
      constructor; [|done]. apply represents_app. unfold represents.
      rewrite Ha. f_equal. destruct o as [p st]. simpl in *. by subst.
    + rewrite (materialize_miss _ _ _ Hl).
      set (o := mkInstance (loaded k r) (Persistent k)).
      set (w1 := set_heap (heap w ++ [o]) w).
      assert (Hw1 : session_clean w1).
      { unfold session_clean, w1. simpl. apply Forall_app. split; [done|].
        apply Forall_singleton. unfold clean. simpl. eauto. }
      destruct (IH w1 Hw1 Hrest) as (addrs & ext & -> & Hext & Hrep & Huq).
      exists (length (heap w) :: addrs), (o :: ext).
      unfold w1 in *. simpl in *. rewrite <- app_assoc in *. simpl in *.
      split; [done|].
      split; [apply Forall_cons; split; [unfold clean; simpl; eauto|done]|].
      split.
      * constructor; [|done]. unfold represents.
        by rewrite lookup_app_r, Nat.sub_diag.
      * intros Huniq. apply Huq. by apply identity_unique_alloc.
Qed.

Lemma query_filter_clean keep w :
  session_clean w ->
  exists addrs ext,
    query_filter keep w = (Ok addrs, queried ext EvSelect w) /\
    Forall (clean (table w)) ext /\
    Forall2 (represents (heap w ++ ext)) addrs (select keep (table w)) /\
    (identity_unique (heap w) -> identity_unique (heap w ++ ext)).
Proof.
  intros Hw. unfold query_filter, log, modify, gets. run.
  set (w0 := mkWorld (heap w) (table w) (serial w) (trace w ++ [EvSelect])).
  assert (Hw0 : session_clean w0) by done.
  rewrite (flush_clean w0 Hw0).
  destruct (materialize_all (select keep (table w)) w0 Hw0)
    as (addrs & ext & Hm & Hext & Hrep & Huq).
  { intros [k r] Hkr. apply list_elem_of_filter in Hkr as [_ Hkr].
    by apply elem_of_map_to_list in Hkr. }
  exists addrs, ext. unfold select in Hm. simpl table. rewrite Hm. done.
Qed.

Lemma serialize_loaded w a kr :
  represents (heap w) a kr ->
  Product.serialize repr_other a w = (Ok (row_json kr), w).
Proof.
  unfold represents. intros Ha. unfold Product.serialize. run.
  rewrite !(getattr_at _ _ _ _ Ha). done.
Qed.

Lemma serialize_all w addrs rows :
  Forall2 (represents (heap w)) addrs rows ->
  mapM (Product.serialize repr_other) addrs w = (Ok (row_json <$> rows), w).
Proof.
  induction 1 as [|a kr addrs rows Ha _ IH]; [done|].
  simpl mapM. run. rewrite (serialize_loaded _ _ _ Ha), IH. done.
Qed.

(** A query on a clean session, then the JSON of what it found. *)
Lemma listing (m : SE world (list addr)) rows w addrs ext :
  m w = (Ok addrs, queried ext EvSelect w) ->
  Forall2 (represents (heap w ++ ext)) addrs rows ->
  (products ← m;
   data ← mapM (Product.serialize repr_other) products;
   mret (mkResponse (Json (VList data)) status.HTTP_200_OK [])) w
  = (Ok (mkResponse (Json (VList (row_json <$> rows))) 200 []),
     queried ext EvSelect w).
Proof.
  intros Hm Hrep. run. rewrite Hm.
  rewrite (serialize_all (queried ext EvSelect w) addrs rows) by done. done.
Qed.

End Queries.

(** ** The enumeration *)

Lemma Category_getitem_name c : CategoryEnum.getitem (VStr (CategoryEnum.name c)) = Ok c.
Proof. by destruct c. Qed.

Lemma Category_of_name_Some s c : CategoryEnum.of_name s = Some c -> s = CategoryEnum.name c.
Proof.
  unfold CategoryEnum.of_name. intros Hf.
  apply List.find_some in Hf as [_ Hc]. apply String.eqb_eq in Hc. done.
Qed.

Lemma Category_getitem_Ok v c : CategoryEnum.getitem v = Ok c -> v = VStr (CategoryEnum.name c).
Proof.
  destruct v as [| | | |s| | |d|]; simpl; try done.
  - destruct (CategoryEnum.of_name s) as [c'|] eqn:E; [|done].
    intros [= <-]. by rewrite (Category_of_name_Some _ _ E).
  - by destruct d as [| |? []].
Qed.

Lemma Category_getitem_Raise v e :
  CategoryEnum.getitem v = Raise e -> forall c, v <> VStr (CategoryEnum.name c).
Proof. intros Hv c ->. by rewrite Category_getitem_name in Hv. Qed.

Lemma Category_of_name_name c : CategoryEnum.of_name (CategoryEnum.name c) = Some c.
Proof. by destruct c. Qed.

(** ** deserialize: when it raises *)

Lemma wrap_error_validation e : exists msg, wrap_error e = DataValidationError msg.
Proof. destruct e; simpl; eauto. Qed.

Lemma getitem_dict items key :
  getitem (VDict items) key
  = match assoc key items with Some v => Ok v | None => Raise (KeyError (VStr key)) end.
Proof. done. Qed.

Lemma deserialize_attrs_outcome data p :
  (invalid_payload data /\
   exists msg, (deserialize_attrs data p).1 = Raise (DataValidationError msg))
  \/ (~ invalid_payload data /\ (deserialize_attrs data p).1 = Ok tt).
Proof.
  unfold deserialize_attrs.
  destruct (truthy data) eqn:Htruthy; cbn [negb]; cbv iota;
    [|left; split; [by left|simpl; eauto]].
  destruct data as [| | | | | |items| |];
    try (left; split; [right; left; intros items' [=]|simpl; eauto]; fail).
  assert (Hmissing : forall key, key ∈ required_keys -> assoc key items = None ->
                                 invalid_payload (VDict items)).
  { intros key Hin Hnone. right; right. exists items. split; [done|]. left. eauto. }
  rewrite !getitem_dict.
  destruct (assoc "name" items) as [v_name|] eqn:Hname.
  2: { left. split; [apply (Hmissing "name"); [set_solver|done]|simpl; eauto]. }
  destruct (assoc "description" items) as [v_description|] eqn:Hdescription.
  2: { left. split; [apply (Hmissing "description"); [set_solver|done]|simpl; eauto]. }
  destruct (assoc "price" items) as [v_price|] eqn:Hprice.
  2: { left. split; [apply (Hmissing "price"); [set_solver|done]|simpl; eauto]. }
  cbn [mbind result_bind].
  destruct (DecimalNew.Decimal v_price) as [d|e] eqn:Hd.
  2: { left. split; [|cbn [fst]; destruct (wrap_error_validation e) as [msg ->]; eauto].
       right; right. exists items. split; [done|]. do 3 right. eauto. }
  destruct (assoc "available" items) as [v_available|] eqn:Havailable.
  2: { left. split; [apply (Hmissing "available"); [set_solver|done]|simpl; eauto]. }
  destruct (isinstance_bool v_available) eqn:Hbool; cbn [negb]; cbv iota.
  2: { left. split; [|simpl; eauto].
       right; right. exists items. split; [done|]. right; left. eauto. }
  destruct (assoc "category" items) as [v_category|] eqn:Hcategory.
  2: { left. split; [apply (Hmissing "category"); [set_solver|done]|simpl; eauto]. }
  cbn [mbind result_bind].
  destruct (CategoryEnum.getitem v_category) as [c|e] eqn:Hc.
  2: { left. split; [|cbn [fst]; destruct (wrap_error_validation e) as [msg ->]; eauto].
       right; right. exists items. split; [done|]. right; right; left.
       exists v_category. split; [done|]. by apply (Category_getitem_Raise _ e). }
  right. split; [|done].
  intros [Hf|[Hnd|(items' & [= <-] & Hbad)]]; [congruence|by apply (Hnd items)|].
  destruct Hbad as [(key & Hin & Hnone)|[(v & Hv & Hb)|[(v & Hv & Hn)|(v & e & Hv & He)]]].
  - unfold required_keys in Hin.
    repeat (apply elem_of_cons in Hin as [->|Hin]; [congruence|]).
    by apply elem_of_nil in Hin.
  - congruence.
  - apply (Hn c). apply Category_getitem_Ok. congruence.
  - congruence.
Qed.

Lemma deserialize_attrs_first_missing items key p :
  items <> [] ->
  key ∈ required_keys ->
  assoc key items = None ->
  (forall k, k ∈ keys_before key required_keys -> readable items k) ->
  (deserialize_attrs (VDict items) p).1
  = Raise (DataValidationError (MissingField (VStr key))).
Proof.
  intros Hne Hin Hnone Hread.
  unfold deserialize_attrs. destruct items as [|item items]; [done|].
  cbn [truthy negb]. cbv iota.
  remember (item :: items) as its eqn:Hits. clear Hits Hne.
  rewrite !getitem_dict.
  unfold required_keys in Hin.
  apply elem_of_cons in Hin as [->|Hin]; [by rewrite Hnone|].
  destruct (Hread "name") as (v_name & -> & _ & _);
    [clear Hread; repeat (apply elem_of_cons in Hin as [->|Hin];
       [simpl; repeat constructor|]); by apply elem_of_nil in Hin|].
  apply elem_of_cons in Hin as [->|Hin]; [by rewrite Hnone|].
  destruct (Hread "description") as (v_description & -> & _ & _);
    [clear Hread; repeat (apply elem_of_cons in Hin as [->|Hin];
       [simpl; repeat constructor|]); by apply elem_of_nil in Hin|].
  apply elem_of_cons in Hin as [->|Hin]; [by rewrite Hnone|].
  destruct (Hread "price") as (v_price & -> & Hprice & _);
    [clear Hread; repeat (apply elem_of_cons in Hin as [->|Hin];
       [simpl; repeat constructor|]); by apply elem_of_nil in Hin|].
  destruct (Hprice eq_refl) as [d Hd]. cbn [mbind result_bind]. rewrite Hd.
  apply elem_of_cons in Hin as [->|Hin]; [by rewrite Hnone|].
  destruct (Hread "available") as (v_available & -> & _ & Havailable);
    [clear Hread; repeat (apply elem_of_cons in Hin as [->|Hin];
       [simpl; repeat constructor|]); by apply elem_of_nil in Hin|].
  rewrite (Havailable eq_refl). cbn [negb]. cbv iota.
  apply elem_of_cons in Hin as [->|Hin]; [by rewrite Hnone|].
  by apply elem_of_nil in Hin.
Qed.

(** ** serialize *)

Lemma serialize_at repr_other w a o c :
  heap w !! a = Some o ->
  category (attrs o) = VCategory c ->
  Product.serialize repr_other a w
  = (Ok (VDict [("id", id (attrs o));
                ("name", name (attrs o));
                ("description", description (attrs o));
                ("price", VStr (Product.str repr_other (price (attrs o))));
                ("available", available (attrs o));
                ("category", VStr (CategoryEnum.name c))]), w).
Proof.
  intros Ha Hc. unfold Product.serialize. run.
  rewrite !(getattr_at _ _ _ _ Ha), Hc. done.
Qed.

Lemma deserialize_attrs_serialized repr_other v_id v_name v_description d b c p :
  deserialize_attrs
    (VDict [("id", v_id);
            ("name", v_name);
            ("description", v_description);
            ("price", VStr (Product.str repr_other (VDecimal d)));
            ("available", VBool b);
            ("category", VStr (CategoryEnum.name c))]) p
  = (Ok tt, mkProduct (id p) v_name v_description (VDecimal d) (VBool b) (VCategory c)).
Proof.
  unfold deserialize_attrs. cbn [truthy negb]. cbv iota.
  rewrite !getitem_dict. cbn [assoc String.eqb Ascii.eqb Bool.eqb].
  cbn [mbind result_bind DecimalNew.Decimal Product.str].
  rewrite PyDecimalFacts.of_str_to_str.
  cbn [isinstance_bool negb]. cbv iota.
  by rewrite Category_getitem_name.
Qed.

(** ** Handlers *)



Section IdKept.
Context `{Engine}.

(** *** update never assigns [id] *)

Lemma flush_one_id o tbl ser o' tbl' ser' :
  flush_one o tbl ser = Ok (o', tbl', ser') ->
  id (attrs o) <> VNone ->
  id (attrs o') = id (attrs o) /\
  (forall k, state o' = Persistent k -> id (attrs o') = VInt k).
Proof.
  unfold flush_one. intros Hf Hid.
  destruct (state o) as [| |k|k|k] eqn:Hst.
  - injection Hf as <- _ _. split; [done|]. intros k. by rewrite Hst.
  - destruct (insert_row (attrs o)) as [r|]; [|done]. simpl in Hf.
    destruct (id (attrs o)) eqn:Ei; try done. simpl in Hf.
    destruct (tbl !! z); [done|]. injection Hf as <- _ _. simpl.
    split; [done|]. by intros k [= <-].
  - destruct (tbl !! k) as [r|]; [|done].
    destruct (update_row r (attrs o)) as [r'|]; [|done]. simpl in Hf.
    destruct (id (attrs o)) eqn:Ei; try done.
    destruct (Z.eqb_spec z k) as [->|Hne].
    + injection Hf as <- _ _. split; [done|]. rewrite Hst. by intros k' [= <-].
    + destruct (tbl !! z); [done|]. injection Hf as <- _ _. simpl.
      split; [done|]. by intros k' [= <-].
  - injection Hf as <- _ _. simpl. split; [done|]. done.
  - injection Hf as <- _ _. split; [done|]. intros k'. by rewrite Hst.
Qed.

Lemma flush_all_lookup h tbl ser h' tbl' ser' a o :
  flush_all h tbl ser = Ok (h', tbl', ser') ->
  h !! a = Some o ->
  exists o' t1 s1 t2 s2,
    h' !! a = Some o' /\ flush_one o t1 s1 = Ok (o', t2, s2).
Proof.
  revert tbl ser h' a. induction h as [|x h IH]; intros tbl ser h' a Hf Ha; [done|].
  simpl in Hf.
  destruct (flush_one x tbl ser) as [[[x' t1] s1]|] eqn:Hx; [|done]. simpl in Hf.
  destruct (flush_all h t1 s1) as [[[h1 t2] s2]|] eqn:Hh; [|done]. simpl in Hf.
  injection Hf as <- <- <-.
  destruct a as [|a]; simpl in *.
  - injection Ha as <-. eauto 10.
  - by apply (IH _ _ _ _ Hh).
Qed.

Lemma expire_id tbl o :
  (forall k, state o = Persistent k -> id (attrs o) = VInt k) ->
  id (attrs (expire tbl o)) = id (attrs o).
Proof.
  unfold expire. intros Hk. destruct (state o) as [| |k|k|k] eqn:Hst; try done.
  destruct (tbl !! k); [|done]. simpl. by rewrite (Hk k).
Qed.

Lemma update_keeps_id w self o res w' :
  heap w !! self = Some o ->
  Product.update self w = (res, w') ->
  exists o', heap w' !! self = Some o' /\ id (attrs o') = id (attrs o).
Proof.
  intros Hself. unfold Product.update. run.
  rewrite (getattr_at _ _ _ _ Hself).
  destruct (truthy (id (attrs o))) eqn:Hid; cbn [negb]; cbv iota.
  2: { intros [= <- <-]. eauto. }
  assert (Hnone : id (attrs o) <> VNone) by (intros E; by rewrite E in Hid).
  unfold session_commit, session_flush, log, modify. run. simpl.
  destruct (flush_all (heap w) (table w) (serial w)) as [[[h' tbl'] ser']|e] eqn:Hf.
  - intros [= <- <-]. simpl.
    destruct (flush_all_lookup _ _ _ _ _ _ _ _ Hf Hself)
      as (o1 & t1 & s1 & t2 & s2 & Ho1 & Hone).
    destruct (flush_one_id _ _ _ _ _ _ Hone Hnone) as [Hsame Hkey].
    exists (expire tbl' o1). rewrite list_lookup_fmap, Ho1. simpl.
    split; [done|]. by rewrite expire_id.
  - intros [= <- <-]. simpl. eauto.
Qed.

End IdKept.

Section Handlers.
Context `{Engine}.
Context (repr_other : pyval -> string).

Lemma check_content_type_mismatch req w :
  assoc "Content-Type" (headers req) <> Some "application/json" ->
  check_content_type req "application/json" w = (Raise (HTTPException 415 ""), w).
Proof.
  intros Hne. unfold check_content_type, abort. run.
  destruct (assoc "Content-Type" (headers req)) as [v|] eqn:E.
  - rewrite bool_decide_eq_true_2 by eauto. cbn [negb]. cbv iota.
    by rewrite bool_decide_eq_false_2.
  - rewrite bool_decide_eq_false_2; [done|]. by intros [x Hx].
Qed.

Lemma find_by_category_unknown s w :
  (forall c, s <> CategoryEnum.name c) ->
  Product.find_by_category (VStr s) w = (Ok None, w).
Proof.
  intros Hs. unfold Product.find_by_category. simpl.
  destruct (CategoryEnum.of_name s) as [c|] eqn:E.
  - by destruct (Hs c (Category_of_name_Some _ _ E)).
  - done.
Qed.

Lemma find_by_category_known c arg w :
  arg = VCategory c \/ arg = VStr (CategoryEnum.name c) ->
  session_clean w ->
  exists products ext,
    Product.find_by_category arg w = (Ok (Some products), queried ext EvSelect w) /\
    Forall2 (represents (heap w ++ ext)) products
            (select (fun r => bool_decide (row_category r = c)) (table w)).
Proof.
  intros Harg Hw.
  destruct (query_filter_clean (Product.category_is c) w Hw)
    as (products & ext & Hq & _ & Hrep & _).
  exists products, ext. split; [|done].
  unfold Product.find_by_category.
  destruct Harg as [-> | ->]; [|rewrite Category_getitem_name]; run; by rewrite Hq.
Qed.

End Handlers.

(** ** DELETE /products/{id} *)

Section Deleting.
Context `{Engine}.

Lemma delete_leaves_clean w self o k :
  heap w !! self = Some o ->
  state o = Persistent k ->
  clean_but self w ->
  identity_unique (heap w) ->
  session_clean
    (mkWorld (<[self := mkInstance (attrs o) (Detached k)]> (heap w))
             (delete k (table w)) (serial w) (trace w ++ [EvCommit])).
Proof.
  intros Hself Hst Hothers Huniq. unfold session_clean. simpl.
  apply Forall_lookup. intros b x Hx.
  destruct (decide (b = self)) as [->|Hb].
  - rewrite list_lookup_insert_eq in Hx by (by apply lookup_lt_Some in Hself).
    by injection Hx as <-.
  - rewrite list_lookup_insert_ne in Hx by done.
    by apply (clean_others_delete w self o k Hself Hst Hothers Huniq b x).
Qed.

Lemma session_clean_but a w : session_clean w -> clean_but a w.
Proof. intros Hw b x _ Hx. by apply (proj1 (Forall_lookup _ _) Hw b x). Qed.


Lemma delete_products_absent w k :
  session_clean w ->
  table w !! k = None ->
  delete_products k w
  = (Raise (HTTPException 404 "Product not found"),
     mkWorld (heap w) (table w) (serial w) (trace w ++ [EvGet k])).
Proof.
  intros Hw Hk. unfold delete_products. run.
  by rewrite (find_absent w k Hw Hk).
Qed.

End Deleting.

(** ** The invariant of the session *)

Section Invariant.
Context `{Engine}.

Lemma good_initial : good initial_world.
Proof.
  split; [constructor|split].
  - intros a b oa ob k Ha. done.
  - intros k [r Hr]. simpl in Hr. by rewrite lookup_empty in Hr.
Qed.

(** Changing the state of one instance to a state that is not
    persistent, or keeping its key, keeps the identity map. *)
Lemma identity_unique_insert h a o o' :
  h !! a = Some o ->
  (forall k, state o' = Persistent k -> state o = Persistent k) ->
  identity_unique h ->
  identity_unique (<[a := o']> h).
Proof.
  intros Ha Hst Huniq b c ob oc k Hb Hc Hsb Hsc.
  assert (Hlen : (a < length h)%nat) by (by apply lookup_lt_Some in Ha).
  destruct (decide (b = a)) as [->|Hba]; destruct (decide (c = a)) as [->|Hca];
    try done.
  - rewrite list_lookup_insert_eq in Hb by done. injection Hb as <-.
    rewrite list_lookup_insert_ne in Hc by done.
    by apply (Huniq a c o oc k Ha Hc (Hst k Hsb)).
  - rewrite list_lookup_insert_eq in Hc by done. injection Hc as <-.
    rewrite list_lookup_insert_ne in Hb by done.
    by apply (Huniq b a ob o k Hb Ha Hsb (Hst k Hsc)).
  - rewrite list_lookup_insert_ne in Hb by done.
    rewrite list_lookup_insert_ne in Hc by done.
    by apply (Huniq b c ob oc k).
Qed.

Lemma session_clean_insert w a o' tbl' ser' tr' :
  (a < length (heap w))%nat ->
  (forall b x, b <> a -> heap w !! b = Some x -> clean tbl' x) ->
  clean tbl' o' ->
  session_clean (mkWorld (<[a := o']> (heap w)) tbl' ser' tr').
Proof.
  intros Ha Hothers Ho'. unfold session_clean. simpl.
  apply Forall_lookup. intros b x Hx.
  destruct (decide (b = a)) as [->|Hb].
  - rewrite list_lookup_insert_eq in Hx by done. by injection Hx as <-.
  - rewrite list_lookup_insert_ne in Hx by done. by apply (Hothers b x).
Qed.

(** [create] of a new instance keeps the invariant. *)
Lemma create_good w self o r :
  heap w !! self = Some o ->
  state o = Transient ->
  good w ->
  insert_row (attrs o) = Ok r ->
  exists w', Product.create self w = (Ok tt, w') /\ good w'.
Proof.
  intros Hself Hst (Hclean & Huniq & Hfresh) Hrow.
  assert (Hnew : table w !! serial w = None).
  { destruct (table w !! serial w) eqn:E; [|done].
    pose proof (Hfresh (serial w) (mk_is_Some _ _ E)). lia. }
  rewrite (create_transient w self o r Hself Hst (session_clean_but self w Hclean) Hfresh Hrow).
  eexists. split; [done|]. split; [|split].
  - apply session_clean_insert.
    + by apply lookup_lt_Some in Hself.
    + intros b x Hb Hx.
      pose proof (proj1 (Forall_lookup _ _) Hclean b x Hx) as Hc.
      apply (clean_agree _ _ _ Hc). intros k Hk.
      apply lookup_insert_ne. intros <-.
      unfold clean in Hc. rewrite Hk in Hc. destruct Hc as (r' & Hr' & _). congruence.
    + exists r. split; [apply lookup_insert_eq|done].
  - simpl. intros a b oa ob k Ha Hb Hsa Hsb.
    assert (Hlen : (self < length (heap w))%nat) by (by apply lookup_lt_Some in Hself).
    assert (Hold : forall c oc, c <> self -> heap w !! c = Some oc ->
                                state oc = Persistent k -> k <> serial w).
    { intros c oc Hc Hoc Hsc ->.
      pose proof (proj1 (Forall_lookup _ _) Hclean c oc Hoc) as Hcl.
      unfold clean in Hcl. rewrite Hsc in Hcl. destruct Hcl as (r' & Hr' & _). congruence. }
    destruct (decide (a = self)) as [->|Hna]; destruct (decide (b = self)) as [->|Hnb];
      try done.
    + rewrite list_lookup_insert_eq in Ha by done. injection Ha as <-.
      rewrite list_lookup_insert_ne in Hb by done. simpl in Hsa. injection Hsa as <-.
      by destruct (Hold b ob Hnb Hb Hsb).
    + rewrite list_lookup_insert_eq in Hb by done. injection Hb as <-.
      rewrite list_lookup_insert_ne in Ha by done. simpl in Hsb. injection Hsb as <-.
      by destruct (Hold a oa Hna Ha Hsa).
    + rewrite list_lookup_insert_ne in Ha by done.
      rewrite list_lookup_insert_ne in Hb by done.
      by apply (Huniq a b oa ob k).
  - intros k [x Hx]. simpl in *.
    destruct (decide (k = serial w)) as [->|Hk]; [lia|].
    rewrite lookup_insert_ne in Hx by done.
    pose proof (Hfresh k (mk_is_Some _ _ Hx)). lia.
Qed.

(** [update] of a persisted instance, changed in place, restores the
    invariant. *)
Lemma update_good w self o k r r' :
  heap w !! self = Some o ->
  state o = Persistent k -> id (attrs o) = VInt k -> k <> 0 ->
  table w !! k = Some r -> update_row r (attrs o) = Ok r' ->
  clean_but self w -> identity_unique (heap w) -> keys_fresh w ->
  exists w', Product.update self w = (Ok tt, w') /\ good w'.
Proof.
  intros Hself Hst Hid Hk Hr Hr' Hothers Huniq Hfresh.
  rewrite (update_persistent w self o k r r' Hself Hst Hid Hk Hr Hr' Hothers Huniq).
  eexists. split; [done|]. split; [|split].
  - apply session_clean_insert.
    + by apply lookup_lt_Some in Hself.
    + intros b x Hb Hx.
      by apply (clean_others_insert w self o k r' Hself Hst Hothers Huniq b x).
    + exists r'. split; [apply lookup_insert_eq|done].
  - simpl. apply (identity_unique_insert _ _ o); [done| |done].
    simpl. intros k' [= <-]. done.
  - intros k' [x Hx]. simpl in *.
    destruct (decide (k' = k)) as [->|Hne].
    + apply Hfresh. eauto.
    + rewrite lookup_insert_ne in Hx by done. apply Hfresh. eauto.
Qed.

(** [delete] of a persisted instance restores the invariant. *)
Lemma delete_good w self o k :
  heap w !! self = Some o ->
  state o = Persistent k ->
  clean_but self w -> identity_unique (heap w) -> keys_fresh w ->
  exists w', Product.delete self w = (Ok tt, w') /\ good w'.
Proof.
  intros Hself Hst Hothers Huniq Hfresh.
  rewrite (delete_persistent w self o k Hself Hst Hothers Huniq).
  eexists. split; [done|]. split; [|split].
  - by apply delete_leaves_clean.
  - simpl. apply (identity_unique_insert _ _ o); [done| |done]. done.
  - intros k' [x Hx]. simpl in *.
    destruct (decide (k' = k)) as [->|Hne].
    + by rewrite lookup_delete_eq in Hx.
    + rewrite lookup_delete_ne in Hx by done. apply Hfresh. eauto.
Qed.

(** A query keeps the invariant. *)
Lemma query_filter_good keep w :
  good w -> exists addrs w', query_filter keep w = (Ok addrs, w') /\ good w'.
Proof.
  intros (Hclean & Huniq & Hfresh).
  destruct (query_filter_clean keep w Hclean) as (addrs & ext & Hq & Hext & _ & Huq).
  exists addrs, (queried ext EvSelect w). split; [done|]. split; [|split].
  - unfold session_clean. simpl. by apply Forall_app.
  - simpl. by apply Huq.
  - done.
Qed.

(** [find] keeps the invariant. *)
Lemma find_good w k :
  good w -> exists found w', Product.find k w = (Ok found, w') /\ good w'.
Proof.
  intros (Hclean & Huniq & Hfresh).
  destruct (table w !! k) as [r|] eqn:Hk.
  - destruct (find_present w k r Hclean Huniq Hk)
      as (a & o & w' & Hfind & Htbl & Hser & _ & _ & Hclean' & Huniq').
    exists (Some a), w'. split; [done|]. split; [done|]. split; [done|].
    intros k'. rewrite Htbl, Hser. apply Hfresh.
  - rewrite (find_absent w k Hclean Hk). eexists _, _. split; [done|]. done.
Qed.

End Invariant.

(** ** The examples *)

Example post_fedora :
  create_products (H:=strict_engine) (fun _ => "") (json_request fedora) initial_world
  = (Ok (mkResponse
           (Json (VDict [("id", VInt 1); ("name", VStr "Fedora");
                         ("description", VStr "A red hat");
                         ("price", VStr "12.50"); ("available", VBool true);
                         ("category", VStr "CLOTHS")]))
           201 [("Location", "http://localhost/products/1")]),
     fedora_world).
Proof. vm_compute. reflexivity. Qed.

Lemma singleton_clean_but o tbl ser tr : clean_but 0 (mkWorld [o] tbl ser tr).
Proof. intros [|b] x Hb Hx; [done|]. simpl in Hx. by rewrite lookup_nil in Hx. Qed.

Lemma singleton_identity_unique o : identity_unique [o].
Proof.
  intros a b oa ob k Ha Hb _ _.
  apply lookup_lt_Some in Ha. apply lookup_lt_Some in Hb. simpl in *. lia.
Qed.

Lemma fedora_world_clean : session_clean fedora_world.
Proof.
  apply Forall_singleton. exists fedora_row. split; [|done].
  apply lookup_singleton_eq.
Qed.

Lemma initial_world_clean : session_clean initial_world.
Proof. constructor. Qed.

(** ** tests/test_models.py and tests/test_routes.py, on the model *)

Example test_add_a_product :
  test (products ← Product.all (H:=strict_engine);
        product ← construct hat;
        setattr product set_id VNone;;
        Product.create (H:=strict_engine) product;;
        product_id ← getattr product id;
        found ← Product.all (H:=strict_engine);
        data ← mapM (Product.serialize no_repr) found;
        mret (products, product_id, data))
  = Ok ([], VInt 1, [row_json (1, fedora_row)]).
Proof. vm_compute. reflexivity. Qed.

Example test_update_a_product :
  test (product ← construct hat;
        setattr product set_id VNone;;
        Product.create (H:=strict_engine) product;;
        setattr product set_name (VStr "Updated Name");;
        setattr product set_available (VBool false);;
        Product.update (H:=strict_engine) product;;
        product_id ← getattr product id;
        updated ← Product.find (H:=strict_engine) 1;
        name ← getattr (default 0%nat updated) name;
        available ← getattr (default 0%nat updated) available;
        mret (product_id, name, available))
  = Ok (VInt 1, VStr "Updated Name", VBool false).
Proof. vm_compute. reflexivity. Qed.

Example test_delete_a_product :
  test (product ← construct hat;
        setattr product set_id VNone;;
        Product.create (H:=strict_engine) product;;
        Product.delete (H:=strict_engine) product;;
        Product.find (H:=strict_engine) 1)
  = Ok None.
Proof. vm_compute. reflexivity. Qed.

Example test_list_all_products :
  test (product ← construct hat; Product.create (H:=strict_engine) product;;
        product ← construct laptop; Product.create (H:=strict_engine) product;;
        products ← Product.all (H:=strict_engine);
        mret (length products))
  = Ok 2%nat.
Proof. vm_compute. reflexivity. Qed.

Example test_find_product_by_name :
  test (product ← construct laptop;
        setattr product set_id VNone;;
        Product.create (H:=strict_engine) product;;
        results ← Product.find_by_name (H:=strict_engine) "Laptop";
        names ← mapM (fun p => getattr p name) results;
        mret names)
  = Ok [VStr "Laptop"].
Proof. vm_compute. reflexivity. Qed.

Example test_find_product_by_availability :
  test (product ← construct hat; Product.create (H:=strict_engine) product;;
        product ← construct laptop; Product.create (H:=strict_engine) product;;
        results ← Product.find_by_availability (H:=strict_engine) true;
        mapM (fun p => getattr p available) results)
  = Ok [VBool true].
Proof. vm_compute. reflexivity. Qed.

Example test_create_product :
  status_code (test (post_product hat)) = 201.
Proof. vm_compute. reflexivity. Qed.

Example test_get_product :
  test (post_product hat;; resp ← get_product (H:=strict_engine) no_repr 1; mret (response_content resp))
  = Ok (Json (row_json (1, fedora_row))).
Proof. vm_compute. reflexivity. Qed.

Example test_update_product :
  test (resp ← post_product hat;
        match response_content resp with
        | Json (VDict (i :: _ :: rest)) =>
            update_product (H:=strict_engine) no_repr 1
              (json_request (VDict (i :: ("name", VStr "Updated Product") :: rest)))
        | _ => raise ValueError
        end)
  = Ok (mkResponse
          (Json (row_json (1, mkRow "Updated Product" "A red hat"
                                    (PyDecimal.Finite false 1250 (-2)) true CLOTHS)))
          200 []).
Proof. vm_compute. reflexivity. Qed.

Example test_delete_product :
  test (post_product hat;; delete_products (H:=strict_engine) 1)
  = Ok (mkResponse (Plain "") 204 []).
Proof. vm_compute. reflexivity. Qed.

Example test_list_products :
  test (post_product hat;; post_product laptop;; post_product hat;;
        all ← list_products (H:=strict_engine) no_repr (query_request []);
        by_name ← list_products (H:=strict_engine) no_repr (query_request [("name", "Laptop")]);
        by_category ← list_products (H:=strict_engine) no_repr (query_request [("category", "CLOTHS")]);
        by_availability ← list_products (H:=strict_engine) no_repr (query_request [("available", "true")]);
        mret (body_length all, body_length by_name, body_length by_category,
              body_length by_availability))
  = Ok (3, 1, 2, 2)%nat.
Proof. vm_compute. reflexivity. Qed.

Example test_not_found :
  status_code (test (get_product (H:=strict_engine) no_repr 9999)) = 404
  /\ status_code (test (update_product (H:=strict_engine) no_repr 9999
                        (json_request (VDict [("name", VStr "Ghost Product")])))) = 404
  /\ status_code (test (delete_products (H:=strict_engine) 9999)) = 404.
Proof. vm_compute. auto. Qed.

Example test_bad_requests :
  status_code (test (create_products (H:=strict_engine) no_repr (json_request (VDict [])))) = 400
  /\ status_code (test (list_products (H:=strict_engine) no_repr (query_request [("category", "INVALID")]))) = 400
  /\ status_code (test (list_products (H:=strict_engine) no_repr (query_request [("available", "maybe")]))) = 400.
Proof. vm_compute. auto. Qed.

(** * The specification, claim by claim *)

(** ** C1 *)

Section ListProducts.
Context `{Engine}.
Context (repr_other : pyval -> string).

Lemma list_products_by_name req w n :
  session_clean w ->
  assoc "name" (args req) = Some n -> n <> "" ->
  exists ext,
    list_products repr_other req w
    = (Ok (mkResponse
             (Json (VList (row_json <$> select (fun r => String.eqb (row_name r) n) (table w))))
             200 []),
       queried ext EvSelect w).
Proof.
  intros Hw Hname Hn.
  destruct (query_filter_clean (fun r => String.eqb (row_name r) n) w Hw)
    as (addrs & ext & Hq & _ & Hrep & _).
  exists ext. unfold list_products. rewrite Hname. cbn [given default from_option Datatypes.id].
  destruct (String.eqb_spec n "") as [|_]; [done|]. cbn [negb]. cbv iota.
  by apply (listing repr_other _ _ w addrs ext).
Qed.

Lemma list_products_by_category req w s c :
  session_clean w ->
  given (assoc "name" (args req)) = false ->
  assoc "category" (args req) = Some s -> s <> "" ->
  s = CategoryEnum.name c ->
  exists ext,
    list_products repr_other req w
    = (Ok (mkResponse
             (Json (VList (row_json <$> select (fun r => bool_decide (row_category r = c)) (table w))))
             200 []),
       queried ext EvSelect w).
Proof.
  intros Hw Hname Hcategory Hs ->.
  destruct (find_by_category_known c (VStr (CategoryEnum.name c)) w (or_intror eq_refl) Hw)
    as (addrs & ext & Hq & Hrep).
  exists ext. unfold list_products. rewrite Hname, Hcategory. cbn [given default from_option Datatypes.id].
  destruct (String.eqb_spec (CategoryEnum.name c) "") as [|_]; [done|].
  cbn [negb]. cbv iota.
  apply (listing repr_other _ _ w addrs ext); [|done].
  run. by rewrite Hq.
Qed.

Lemma list_products_bad_category req w s :
  given (assoc "name" (args req)) = false ->
  assoc "category" (args req) = Some s -> s <> "" ->
  (forall c, s <> CategoryEnum.name c) ->
  list_products repr_other req w = (Raise (HTTPException 400 "Invalid category"), w).
Proof.
  intros Hname Hcategory Hs Hbad.
  unfold list_products. rewrite Hname, Hcategory. cbn [given default from_option Datatypes.id].
  destruct (String.eqb_spec s "") as [|_]; [done|]. cbn [negb]. cbv iota.
  run. by rewrite (find_by_category_unknown s w Hbad).
Qed.

Lemma list_products_by_availability req w a (b : bool) :
  session_clean w ->
  given (assoc "name" (args req)) = false ->
  given (assoc "category" (args req)) = false ->
  assoc "available" (args req) = Some a ->
  PyStr.lower a = (if b then "true" else "false") ->
  exists ext,
    list_products repr_other req w
    = (Ok (mkResponse
             (Json (VList (row_json <$> select (fun r => Bool.eqb (row_available r) b) (table w))))
             200 []),
       queried ext EvSelect w).
Proof.
  intros Hw Hname Hcategory Havailable Ha.
  destruct (query_filter_clean (fun r => Bool.eqb (row_available r) b) w Hw)
    as (addrs & ext & Hq & _ & Hrep & _).
  exists ext. unfold list_products. rewrite Hname, Hcategory, Havailable, Ha.
  apply (listing repr_other _ _ w addrs ext); [|done].
  run. unfold Product.find_by_availability.
  destruct b; (rewrite bool_decide_eq_true_2 by (repeat constructor)); cbn [negb]; cbv iota;
    simpl String.eqb; exact Hq.
Qed.

Lemma list_products_bad_availability req w a :
  given (assoc "name" (args req)) = false ->
  given (assoc "category" (args req)) = false ->
  assoc "available" (args req) = Some a ->
  PyStr.lower a <> "true" -> PyStr.lower a <> "false" ->
  list_products repr_other req w = (Raise (HTTPException 400 "Invalid availability"), w).
Proof.
  intros Hname Hcategory Havailable Ht Hf.
  unfold list_products. rewrite Hname, Hcategory, Havailable.
  run. rewrite bool_decide_eq_false_2; [done|].
  intros Hin. apply elem_of_cons in Hin as [Hin|Hin]; [done|].
  by apply list_elem_of_singleton in Hin.
Qed.

Lemma list_products_all req w :
  session_clean w ->
  given (assoc "name" (args req)) = false ->
  given (assoc "category" (args req)) = false ->
  assoc "available" (args req) = None ->
  exists ext,
    list_products repr_other req w
    = (Ok (mkResponse (Json (VList (row_json <$> select (fun _ => true) (table w)))) 200 []),
       queried ext EvSelect w).
Proof.
  intros Hw Hname Hcategory Havailable.
  destruct (query_filter_clean (fun _ => true) w Hw) as (addrs & ext & Hq & _ & Hrep & _).
  exists ext. unfold list_products. rewrite Hname, Hcategory, Havailable.
  by apply (listing repr_other _ _ w addrs ext).
Qed.

(** The filter that answers, whatever the session holds. *)







End ListProducts.




(** ** C2 *)

(** C2. For a product [Q] whose price is a decimal, whose availability
    is a boolean and whose category is a member of the enumeration
    (whatever its name and description are), [serialize] succeeds and
    [deserialize] of its result, on any receiver, succeeds, returns the
    receiver, and leaves it with the attributes of [Q], except for
    [id], which stays as the receiver had it. *)
Theorem deserialize_serialize_roundtrip
    (repr_other : pyval -> string) (w : world) (q recv : addr) (Q R : instance)
    (d : PyDecimal.t) (b : bool) (c : Category) :
  heap w !! q = Some Q ->
  price (attrs Q) = VDecimal d ->
  available (attrs Q) = VBool b ->
  category (attrs Q) = VCategory c ->
  heap w !! recv = Some R ->
  exists data,
    Product.serialize repr_other q w = (Ok data, w) /\
    Product.deserialize recv data w
    = (Ok recv, put recv (mkInstance (set_id (id (attrs R)) (attrs Q)) (state R)) w).
Proof.
  intros HQ Hprice Havailable Hcategory HR.
  eexists. split; [by apply (serialize_at repr_other w q Q c)|].
  rewrite (deserialize_run recv R _ w HR).
  rewrite Hprice, Havailable, deserialize_attrs_serialized. simpl.
  do 3 f_equal. destruct Q as [[i n de p a ca] st]. simpl in *. by subst.
Qed.

Lemma deserialize_serialize_roundtrip_witness :
  exists data,
    Product.serialize (fun _ => "") 0%nat fedora_world = (Ok data, fedora_world) /\
    Product.deserialize 0%nat data fedora_world
    = (Ok 0%nat,
       put 0%nat (mkInstance (set_id (VInt 1) (loaded 1 fedora_row)) (Persistent 1))
           fedora_world).
Proof.
  apply (deserialize_serialize_roundtrip (fun _ => "") fedora_world 0 0
           (mkInstance (loaded 1 fedora_row) (Persistent 1))
           (mkInstance (loaded 1 fedora_row) (Persistent 1))
           (PyDecimal.Finite false 1250 (-2)) true CLOTHS);
    reflexivity.
Defined.

(** ** C3 *)

Section CategoryQuery.
Context `{Engine}.




End CategoryQuery.




(** ** C4 *)

(** C4, as the code has it.  [deserialize] raises a validation error
    exactly when the data is empty or absent, or is not a mapping, or
    lacks a required key, or has an [available] that is not a boolean, a
    [category] that is not the name of a member, or a [price] that
    [Decimal] refuses; otherwise it returns the receiver.  It reads the
    keys in the order name, description, price, available, category, and
    the error is that of the first it cannot read: for a non-empty
    mapping, a missing key is the one reported when every key before it
    can be read, that is, is there, with a price that [Decimal] accepts
    and an availability that is a boolean. *)
Theorem deserialize_raises_iff (w : world) (self : addr) (o : instance) (data : pyval) :
  heap w !! self = Some o ->
  ((exists msg w', Product.deserialize self data w = (Raise (DataValidationError msg), w'))
     <-> invalid_payload data)
  /\ (~ invalid_payload data ->
      exists w', Product.deserialize self data w = (Ok self, w'))
  /\ (forall items key,
        data = VDict items -> items <> [] ->
        key ∈ required_keys -> assoc key items = None ->
        (forall k, k ∈ keys_before key required_keys -> readable items k) ->
        exists w', Product.deserialize self data w
                   = (Raise (DataValidationError (MissingField (VStr key))), w')).
Proof.
  intros Hself. rewrite (deserialize_run self o data w Hself).
  split; [|split].
  - destruct (deserialize_attrs_outcome data (attrs o)) as [[Hbad [msg Hm]]|[Hgood Hok]].
    + split; [done|]. intros _. rewrite Hm. simpl. eauto.
    + split; [|done]. intros (msg & w' & Hr). rewrite Hok in Hr. done.
  - intros Hgood.
    destruct (deserialize_attrs_outcome data (attrs o)) as [[Hbad _]|[_ Hok]]; [done|].
    rewrite Hok. simpl. eauto.
  - intros items key -> Hne Hin Hnone Hread.
    rewrite (deserialize_attrs_first_missing items key (attrs o) Hne Hin Hnone Hread).
    simpl. eauto.
Qed.

Lemma deserialize_raises_iff_witness :
  exists w',
    Product.deserialize 0%nat (VDict [("name", VStr "Fedora")]) fedora_world
    = (Raise (DataValidationError (MissingField (VStr "description"))), w').
Proof.
  destruct (deserialize_raises_iff fedora_world 0%nat
              (mkInstance (loaded 1 fedora_row) (Persistent 1))
              (VDict [("name", VStr "Fedora")]) eq_refl) as (_ & _ & Hmissing).
  apply (Hmissing [("name", VStr "Fedora")] "description").
  - reflexivity.
  - discriminate.
  - apply elem_of_cons. right. apply elem_of_cons. left. reflexivity.
  - reflexivity.
  - intros k Hk. simpl in Hk.
    apply elem_of_cons in Hk as [->|Hk]; [|by apply elem_of_nil in Hk].
    exists (VStr "Fedora"). split; [reflexivity|]. split; discriminate.
Defined.

(** C4 as stated fails: in a mapping with a name, a description and a
    price that [Decimal] refuses, the key [available] is missing, and
    the error that [deserialize] raises is the one of the price, not a
    report of the missing key.  Likewise, with an [available] that is
    not a boolean and no category, the error is the one of the
    availability. *)
Lemma deserialize_reports_price_first :
  (assoc "available"
         [("name", VStr "Fedora"); ("description", VStr "A red hat");
          ("price", VStr "bad")] = None
   /\ Product.deserialize 0%nat
        (VDict [("name", VStr "Fedora"); ("description", VStr "A red hat");
                ("price", VStr "bad")]) fedora_world
      = (Raise (DataValidationError (StrOf InvalidOperation)),
         put 0%nat
             (mkInstance (set_description (VStr "A red hat")
                            (set_name (VStr "Fedora") (loaded 1 fedora_row)))
                         (Persistent 1))
             fedora_world))
  /\ (assoc "category"
            [("name", VStr "Fedora"); ("description", VStr "A red hat");
             ("price", VStr "12.50"); ("available", VStr "yes")] = None
      /\ (Product.deserialize 0%nat
            (VDict [("name", VStr "Fedora"); ("description", VStr "A red hat");
                    ("price", VStr "12.50"); ("available", VStr "yes")]) fedora_world).1
         = Raise (DataValidationError (Text "Invalid type for available"))).
Proof. split; split; reflexivity. Qed.

(** ** C5 *)

(** C5. On POST /products and on PUT /products/{id}, a request whose
    Content-Type header is absent or is not exactly [application/json]
    is aborted with 415, and nothing has happened by then: the world is
    as it was, no lookup was made and the body was not parsed (the
    trace has no new event). *)
Theorem content_type_guard `{Engine}
    (repr_other : pyval -> string) (req : request) (product_id : Z) (w : world) :
  assoc "Content-Type" (headers req) <> Some "application/json" ->
  create_products repr_other req w = (Raise (HTTPException 415 ""), w)
  /\ update_product repr_other product_id req w = (Raise (HTTPException 415 ""), w).
Proof.
  intros Hne. unfold create_products, update_product.
  split; run; by rewrite (check_content_type_mismatch req w Hne).
Qed.

Lemma content_type_guard_witness :
  let req := mkRequest [("Content-Type", "text/plain")] [] (Some fedora) "" in
  create_products (H:=strict_engine) (fun _ => "") req fedora_world
  = (Raise (HTTPException 415 ""), fedora_world)
  /\ update_product (H:=strict_engine) (fun _ => "") 1 req fedora_world
     = (Raise (HTTPException 415 ""), fedora_world).
Proof.
  apply (content_type_guard (H:=strict_engine)). simpl. discriminate.
Defined.

(** ** C6 *)

(** C6, as the code has it.  [update] fails with the validation error
    "Update called with empty ID", and touches nothing, whenever the id
    of the instance is [None] or 0 (or any other false value).  When the
    instance is attached to a row, carries the key of that row as its
    id, and that key is not 0, [update] commits: the changes made in
    place are written to that row, as the storage binds them, and no
    other row changes (the rest of the session having nothing to
    flush).  However it ends, [update] leaves the id of the instance as
    it was. *)
Theorem update_requires_id `{Engine} (w : world) (self : addr) (o : instance) :
  heap w !! self = Some o ->
  (truthy (id (attrs o)) = false ->
   Product.update self w
   = (Raise (DataValidationError (Text "Update called with empty ID")), w))
  /\ (forall k r r',
        state o = Persistent k -> id (attrs o) = VInt k -> k <> 0 ->
        table w !! k = Some r -> update_row r (attrs o) = Ok r' ->
        clean_but self w -> identity_unique (heap w) ->
        Product.update self w
        = (Ok tt,
           mkWorld (<[self := mkInstance (loaded k r') (Persistent k)]> (heap w))
                   (<[k := r']> (table w)) (serial w) (trace w ++ [EvCommit])))
  /\ (forall res w',
        Product.update self w = (res, w') ->
        exists o', heap w' !! self = Some o' /\ id (attrs o') = id (attrs o)).
Proof.
  intros Hself. split; [|split].
  - by apply (update_empty_id w self o Hself).
  - intros k r r'. by apply (update_persistent w self o k r r' Hself).
  - intros res w'. by apply (update_keeps_id w self o res w' Hself).
Qed.

Lemma update_requires_id_witness :
  Product.update (H:=strict_engine) 0%nat renamed_world
  = (Ok tt,
     mkWorld [mkInstance (loaded 1 (mkRow "Trilby" "A red hat"
                                          (PyDecimal.Finite false 1250 (-2)) true CLOTHS))
                         (Persistent 1)]
             {[1 := mkRow "Trilby" "A red hat" (PyDecimal.Finite false 1250 (-2)) true CLOTHS]}
             2 [EvCommit]).
Proof.
  destruct (update_requires_id (H:=strict_engine) renamed_world 0%nat _ eq_refl)
    as (_ & Hcommit & _).
  rewrite (Hcommit 1 fedora_row
             (mkRow "Trilby" "A red hat" (PyDecimal.Finite false 1250 (-2)) true CLOTHS)
             eq_refl eq_refl);
    [ vm_compute; reflexivity | lia | reflexivity | reflexivity
    | apply singleton_clean_but | apply singleton_identity_unique ].
Defined.

(** C6 as stated fails: an instance attached to the row with key 0 has
    its id set, yet [update] raises and the row keeps its old name. *)
Lemma update_rejects_id_zero :
  (exists o, heap zero_world !! 0%nat = Some o /\ id (attrs o) = VInt 0
             /\ state o = Persistent 0 /\ name (attrs o) = VStr "Trilby")
  /\ Product.update (H:=strict_engine) 0%nat zero_world
     = (Raise (DataValidationError (Text "Update called with empty ID")), zero_world)
  /\ row_name <$> table zero_world !! 0 = Some "Fedora".
Proof.
  split; [eexists; repeat split|split]; reflexivity.
Qed.

(** ** C7 *)




(** ** C8 *)

(** C8. [deserialize] is not atomic: when the data is a mapping with a
    name, a description and a price that [Decimal] accepts, and
    [deserialize] raises because [available] is not a boolean or because
    [category] is not the name of a member, the receiver already has the
    name, the description and the price of the data (and its [id]
    still). *)
Theorem deserialize_not_atomic
    (w : world) (self : addr) (o : instance) (items : list (string * pyval))
    (v_name v_description v_price : pyval) (d : PyDecimal.t) :
  heap w !! self = Some o ->
  assoc "name" items = Some v_name ->
  assoc "description" items = Some v_description ->
  assoc "price" items = Some v_price ->
  DecimalNew.Decimal v_price = Ok d ->
  (exists v, assoc "available" items = Some v /\ isinstance_bool v = false)
  \/ (exists b v, assoc "available" items = Some (VBool b) /\
                  assoc "category" items = Some v /\
                  forall c, v <> VStr (CategoryEnum.name c)) ->
  exists msg o',
    Product.deserialize self (VDict items) w
    = (Raise (DataValidationError msg), put self o' w) /\
    heap (put self o' w) !! self = Some o' /\
    name (attrs o') = v_name /\
    description (attrs o') = v_description /\
    price (attrs o') = VDecimal d /\
    id (attrs o') = id (attrs o).
Proof.
  intros Hself Hname Hdescription Hprice Hd Hbad.
  rewrite (deserialize_run self o _ w Hself).
  assert (Hput : forall o', heap (put self o' w) !! self = Some o')
    by (intros o'; eapply heap_put; eassumption).
  unfold deserialize_attrs.
  assert (Htruthy : truthy (VDict items) = true) by (by destruct items).
  rewrite Htruthy, !getitem_dict, Hname, Hdescription, Hprice.
  cbn [negb mbind result_bind]. cbv iota. rewrite Hd.
  destruct Hbad as [(v & -> & Hv)|(b & v & -> & -> & Hv)].
  - rewrite Hv. cbn [negb fst snd]. cbv iota. eexists _, _.
    split; [done|]. split; [done|]. done.
  - cbn [isinstance_bool negb mbind result_bind]. cbv iota.
    destruct (CategoryEnum.getitem v) as [c|e] eqn:Hc.
    + by destruct (Hv c (Category_getitem_Ok _ _ Hc)).
    + cbn [fst snd]. destruct (wrap_error_validation e) as [msg ->].
      eexists _, _. split; [done|]. split; [done|]. done.
Qed.

Lemma deserialize_not_atomic_witness :
  exists msg o',
    let data :=
      [("name", VStr "Trilby"); ("description", VStr "A felt hat");
       ("price", VInt 30); ("available", VStr "yes")] in
    Product.deserialize 0%nat (VDict data) fedora_world
    = (Raise (DataValidationError msg), put 0%nat o' fedora_world) /\
    heap (put 0%nat o' fedora_world) !! 0%nat = Some o' /\
    name (attrs o') = VStr "Trilby" /\
    description (attrs o') = VStr "A felt hat" /\
    price (attrs o') = VDecimal (PyDecimal.Finite false 30 0) /\
    id (attrs o') = VInt 1.
Proof.
  apply (deserialize_not_atomic fedora_world 0
           (mkInstance (loaded 1 fedora_row) (Persistent 1))
           [("name", VStr "Trilby"); ("description", VStr "A felt hat");
            ("price", VInt 30); ("available", VStr "yes")]
           (VStr "Trilby") (VStr "A felt hat") (VInt 30)
           (PyDecimal.Finite false 30 0));
    try reflexivity.
  left. exists (VStr "yes"). split; reflexivity.
Defined.

(** ** C9 *)

Section Creating.
Context `{Engine}.



End Creating.




(** ** C10 *)



(* ================================================================= *)
(** * Further properties of the code *)

(** What the methods and the handlers do besides what the specification
    says of them: the frame of [deserialize], the way back from
    [deserialize] to [serialize], the constraints and defaults of the
    columns as [create] meets them, how [create], [find] and [delete]
    compose, what the queries return, and the answers of the handlers
    to requests that succeed and to requests that do not. *)

(** ** One step of a computation *)

Lemma bind_at {A B} (m : SE world A) (f : A -> SE world B) w :
  (m ≫= f) w
  = match m w with
    | (Ok a, w') => f a w'
    | (Raise e, w') => (Raise e, w')
    end.
Proof. done. Qed.

Lemma try_except_at {A} (m : SE world A) h w :
  try_except m h w
  = match m w with
    | (Raise e, w') =>
        match h e with
        | Some k => k w'
        | None => (Raise e, w')
        end
    | ok => ok
    end.
Proof. done. Qed.

(** ** Payloads *)

Lemma deserialize_attrs_id data p : id (deserialize_attrs data p).2 = id p.
Proof.
  unfold deserialize_attrs.
  destruct (negb (truthy data)); [done|].
  destruct (getitem data "name"); [|done].
  destruct (getitem data "description"); [|done].
  destruct (getitem data "price" ≫= DecimalNew.Decimal); [|done].
  destruct (getitem data "available"); [|done].
  destruct (negb (isinstance_bool _)); [done|].
  destruct (getitem data "category" ≫= CategoryEnum.getitem); done.
Qed.

Lemma deserialize_attrs_describes data v_name v_description d b c p :
  describes data v_name v_description d b c ->
  deserialize_attrs data p
  = (Ok tt, mkProduct (id p) v_name v_description (VDecimal d) (VBool b) (VCategory c)).
Proof.
  intros (items & v_price & -> & Hn & Hd & Hp & Hdec & Ha & Hc).
  unfold deserialize_attrs.
  assert (Htruthy : truthy (VDict items) = true) by (by destruct items).
  rewrite Htruthy, !getitem_dict, Hn, Hd, Hp, Ha, Hc.
  cbn [negb mbind result_bind isinstance_bool]. cbv iota. rewrite Hdec.
  by rewrite Category_getitem_name.
Qed.

Lemma to_str_inj d d' : PyDecimal.to_str d = PyDecimal.to_str d' -> d = d'.
Proof.
  intros Heq. pose proof (PyDecimalFacts.of_str_to_str d) as Hd.
  rewrite Heq, PyDecimalFacts.of_str_to_str in Hd. by injection Hd.
Qed.

Lemma Category_name_inj c c' : CategoryEnum.name c = CategoryEnum.name c' -> c = c'.
Proof.
  intros Heq. pose proof (Category_of_name_name c) as Hc.
  rewrite Heq, Category_of_name_name in Hc. by injection Hc.
Qed.

Lemma row_json_inj kr kr' : row_json kr = row_json kr' -> kr = kr'.
Proof.
  destruct kr as [k [n de p a c]], kr' as [k' [n' de' p' a' c']].
  unfold row_json. simpl. intros [= -> -> -> Hp -> Hc].
  by rewrite (to_str_inj _ _ Hp), (Category_name_inj _ _ Hc).
Qed.

(** ** The session, once more *)

Section Committing.
Context `{Engine}.

Lemma commit_clean w :
  session_clean w ->
  session_commit w
  = (Ok tt, mkWorld (heap w) (table w) (serial w) (trace w ++ [EvCommit])).
Proof.
  intros Hw. unfold session_commit, log, modify. run. simpl.
  rewrite (flush_clean (mkWorld (heap w) (table w) (serial w) (trace w ++ [EvCommit])))
    by done.
  unfold set_heap. simpl. f_equal. f_equal.
  apply list_eq. intros i. rewrite list_lookup_fmap.
  destruct (heap w !! i) as [x|] eqn:Hx; simpl; [|done].
  by rewrite (expire_clean _ _ (proj1 (Forall_lookup _ _) Hw i x Hx)).
Qed.

(** [find] of a key that has a row, with the instance it returns. *)
Lemma find_loaded w k r :
  session_clean w ->
  table w !! k = Some r ->
  exists a ext,
    Product.find k w = (Ok (Some a), queried ext (EvGet k) w) /\
    represents (heap w ++ ext) a (k, r) /\
    Forall (clean (table w)) ext /\
    (identity_unique (heap w) -> identity_unique (heap w ++ ext)).
Proof.
  intros Hw Hk. unfold Product.find, query_get, log, modify, gets. run. simpl.
  destruct (identity_lookup k (heap w)) as [a|] eqn:Hl.
  - destruct (identity_lookup_Some _ _ _ Hl) as (o & Ha & Hst).
    pose proof (proj1 (Forall_lookup _ _) Hw a o Ha) as Hc.
    unfold clean in Hc. rewrite Hst in Hc. destruct Hc as (r' & Hr' & Ho).
    assert (r' = r) as -> by congruence.
    exists a, []. unfold queried. rewrite app_nil_r.
    split; [done|]. split; [|split; [constructor|done]].
    unfold represents. rewrite Ha. f_equal. destruct o as [p st]. simpl in *. by subst.
  - rewrite (flush_clean (mkWorld (heap w) (table w) (serial w) (trace w ++ [EvGet k])))
      by done.
    simpl. rewrite Hk. unfold alloc. simpl.
    exists (length (heap w)), [mkInstance (loaded k r) (Persistent k)].
    split; [done|]. split; [|split].
    + unfold represents. by rewrite lookup_app_r, Nat.sub_diag.
    + apply Forall_singleton. unfold clean. simpl. eauto.
    + by apply identity_unique_alloc.
Qed.

Lemma queried_clean ext e w :
  session_clean w -> Forall (clean (table w)) ext -> session_clean (queried ext e w).
Proof. intros Hw Hext. unfold session_clean. simpl. by apply Forall_app. Qed.

(** *** INSERT and its constraints *)

Lemma bind_column_cases {T} (bind : option T -> pyval -> option T) v :
  v = VNone \/ is_Some (bind None v) ->
  (v = VNone /\ bind_column bind None v = Raise IntegrityError)
  \/ (v <> VNone /\ exists x, bind_column bind None v = Ok x).
Proof.
  intros [->|[x Hx]]; [by left|].
  destruct v; [by left|right; split; [done|]; exists x; unfold bind_column; by rewrite Hx ..].
Qed.

(** A new row needs a name, a description and a price: with [None] for
    one of them, and values that the storage accepts for the others,
    INSERT violates the constraint of the column. *)
Lemma insert_row_null p :
  name p = VNone \/ description p = VNone \/ price p = VNone ->
  null_or_accepted p ->
  insert_row p = Raise IntegrityError.
Proof.
  intros Hnull (Hn & Hd & Hp & _ & _). unfold insert_row.
  destruct (bind_column_cases (bind_string 100) (name p) Hn)
    as [[_ ->]|[Hn' [n ->]]]; [done|].
  destruct (bind_column_cases (bind_string 250) (description p) Hd)
    as [[_ ->]|[Hd' [d ->]]]; [done|].
  destruct (bind_column_cases bind_numeric (price p) Hp)
    as [[_ ->]|[Hp' [pr ->]]]; [done|].
  by destruct Hnull as [?|[?|?]].
Qed.

Lemma insert_row_defaults p r :
  insert_row p = Ok r ->
  (available p = VNone -> row_available r = true)
  /\ (category p = VNone -> row_category r = UNKNOWN).
Proof.
  unfold insert_row. intros Hr.
  destruct (bind_column (bind_string 100) None (name p));
    cbn [mbind result_bind] in Hr; [|done].
  destruct (bind_column (bind_string 250) None (description p));
    cbn [mbind result_bind] in Hr; [|done].
  destruct (bind_column bind_numeric None (price p));
    cbn [mbind result_bind] in Hr; [|done].
  split; intros Hnone; rewrite Hnone in Hr; cbn [mbind result_bind] in Hr.
  - destruct (match category p with VNone => _ | _ => _ end);
      cbn [mbind result_bind] in Hr; [|done]. by injection Hr as <-.
  - destruct (match available p with VNone => _ | _ => _ end);
      cbn [mbind result_bind] in Hr; [|done]. by injection Hr as <-.
Qed.

Lemma create_rejected w self o e :
  heap w !! self = Some o ->
  state o = Transient ->
  clean_but self w ->
  insert_row (attrs o) = Raise e ->
  Product.create self w
  = (Raise e,
     mkWorld (<[self := mkInstance (set_id VNone (attrs o)) Pending]> (heap w))
             (table w) (serial w) (trace w ++ [EvCommit])).
Proof.
  intros Hself Hst Hothers Hrow.
  unfold Product.create. run.
  rewrite (setattr_at _ _ _ _ _ Hself).
  set (w1 := put self _ w).
  assert (H1 : heap w1 !! self = Some (mkInstance (set_id VNone (attrs o)) (state o)))
    by (eapply heap_put; eassumption).
  unfold session_add. run.
  rewrite (get_state_at _ _ _ H1). rewrite Hst. cbn [state]. cbv beta iota.
  rewrite (set_state_at _ _ _ _ H1). subst w1. rewrite put_put. simpl attrs.
  set (o2 := mkInstance (set_id VNone (attrs o)) Pending).
  unfold session_commit, session_flush, log, modify. run. simpl.
  rewrite (flush_all_fail _ self o2 e); [done| | |].
  - apply list_lookup_insert_eq. by apply lookup_lt_Some in Hself.
  - intros b x Hb Hx. rewrite list_lookup_insert_ne in Hx by done.
    by apply (Hothers b x).
  - unfold flush_one, o2. cbn [state attrs].
    change (insert_row (set_id VNone (attrs o))) with (insert_row (attrs o)).
    by rewrite Hrow.
Qed.

(** *** The key that the sequence gives next *)

Lemma fresh_key_absent w : keys_fresh w -> table w !! serial w = None.
Proof.
  intros Hfresh. destruct (table w !! serial w) eqn:E; [|done].
  pose proof (Hfresh (serial w) (mk_is_Some _ _ E)). lia.
Qed.

Lemma fresh_key_unused w a x :
  session_clean w -> keys_fresh w ->
  heap w !! a = Some x -> state x <> Persistent (serial w).
Proof.
  intros Hw Hfresh Hx Hst.
  pose proof (proj1 (Forall_lookup _ _) Hw a x Hx) as Hc.
  unfold clean in Hc. rewrite Hst in Hc. destruct Hc as (r & Hr & _).
  by rewrite (fresh_key_absent w Hfresh) in Hr.
Qed.

Lemma clean_fresh_insert w x r :
  keys_fresh w -> clean (table w) x -> clean (<[serial w := r]> (table w)) x.
Proof.
  intros Hfresh Hc. apply (clean_agree _ _ _ Hc). intros k Hk.
  apply lookup_insert_ne. intros <-.
  unfold clean in Hc. rewrite Hk in Hc. destruct Hc as (r' & Hr' & _).
  by rewrite (fresh_key_absent w Hfresh) in Hr'.
Qed.

Lemma created_world_clean w self o r :
  heap w !! self = Some o ->
  session_clean w ->
  keys_fresh w ->
  session_clean
    (mkWorld (<[self := mkInstance (loaded (serial w) r) (Persistent (serial w))]> (heap w))
             (<[serial w := r]> (table w)) (serial w + 1) (trace w ++ [EvCommit])).
Proof.
  intros Hself Hw Hfresh. apply session_clean_insert.
  - by apply lookup_lt_Some in Hself.
  - intros b x _ Hx. apply clean_fresh_insert; [done|].
    by apply (proj1 (Forall_lookup _ _) Hw b x).
  - exists r. split; [apply lookup_insert_eq|done].
Qed.

Lemma created_world_unique w self o r :
  heap w !! self = Some o ->
  session_clean w ->
  keys_fresh w ->
  identity_unique (heap w) ->
  identity_unique
    (<[self := mkInstance (loaded (serial w) r) (Persistent (serial w))]> (heap w)).
Proof.
  intros Hself Hw Hfresh Huniq a b oa ob k Ha Hb Hsa Hsb.
  assert (Hlen : (self < length (heap w))%nat) by (by apply lookup_lt_Some in Hself).
  destruct (decide (a = self)) as [->|Hna]; destruct (decide (b = self)) as [->|Hnb];
    try done.
  - rewrite list_lookup_insert_eq in Ha by done. injection Ha as <-.
    rewrite list_lookup_insert_ne in Hb by done. simpl in Hsa. injection Hsa as <-.
    by destruct (fresh_key_unused w b ob Hw Hfresh Hb).
  - rewrite list_lookup_insert_eq in Hb by done. injection Hb as <-.
    rewrite list_lookup_insert_ne in Ha by done. simpl in Hsb. injection Hsb as <-.
    by destruct (fresh_key_unused w a oa Hw Hfresh Ha).
  - rewrite list_lookup_insert_ne in Ha by done.
    rewrite list_lookup_insert_ne in Hb by done.
    by apply (Huniq a b oa ob k).
Qed.

Lemma posted_world_clean w r tr :
  session_clean w ->
  keys_fresh w ->
  session_clean
    (mkWorld (heap w ++ [mkInstance (loaded (serial w) r) (Persistent (serial w))])
             (<[serial w := r]> (table w)) (serial w + 1) tr).
Proof.
  intros Hw Hfresh. unfold session_clean. simpl. apply Forall_app. split.
  - apply Forall_lookup. intros a x Hx. apply clean_fresh_insert; [done|].
    by apply (proj1 (Forall_lookup _ _) Hw a x).
  - apply Forall_singleton. exists r. split; [apply lookup_insert_eq|done].
Qed.

Lemma posted_world_fresh w r hp tr :
  keys_fresh w ->
  keys_fresh (mkWorld hp (<[serial w := r]> (table w)) (serial w + 1) tr).
Proof.
  intros Hfresh k [x Hx]. simpl in *.
  destruct (decide (k = serial w)) as [->|Hk]; [lia|].
  rewrite lookup_insert_ne in Hx by done.
  pose proof (Hfresh k (mk_is_Some _ _ Hx)). lia.
Qed.

(** The identity map holds the one instance of a key. *)
Lemma identity_lookup_only k h a o :
  h !! a = Some o ->
  state o = Persistent k ->
  (forall b x, b <> a -> h !! b = Some x -> state x <> Persistent k) ->
  identity_lookup k h = Some a.
Proof.
  intros Ha Hst Hothers. unfold identity_lookup.
  destruct (list_find (fun x => state x = Persistent k) h) as [[i x]|] eqn:E.
  - apply list_find_Some in E as (Hi & Hx & _). simpl. f_equal.
    destruct (decide (i = a)) as [->|Hne]; [done|].
    by destruct (Hothers i x Hne Hi).
  - apply list_find_None in E.
    by destruct (proj1 (Forall_lookup _ _) E a o Ha).
Qed.

(** *** Queries *)

Lemma query_filter_exact keep w :
  session_clean w ->
  exists products ext,
    query_filter keep w = (Ok products, queried ext EvSelect w) /\
    length products = length (select keep (table w)) /\
    (forall a, a ∈ products ->
       exists k r, table w !! k = Some r /\ keep r = true /\
                   represents (heap w ++ ext) a (k, r)) /\
    (forall k r, table w !! k = Some r -> keep r = true ->
       exists a, a ∈ products /\ represents (heap w ++ ext) a (k, r)).
Proof.
  intros Hw.
  destruct (query_filter_clean keep w Hw) as (products & ext & Hq & _ & Hrep & _).
  exists products, ext. split; [done|]. split; [by apply Forall2_length in Hrep|]. split.
  - intros a Ha. apply list_elem_of_lookup in Ha as [i Hi].
    destruct (Forall2_lookup_l _ _ _ _ _ Hrep Hi) as ([k r] & Hkr & Hr).
    apply list_elem_of_lookup_2 in Hkr. apply list_elem_of_filter in Hkr as [Hkeep Hin].
    apply elem_of_map_to_list in Hin. eauto.
  - intros k r Hk Hkeep.
    assert (Hin : (k, r) ∈ select keep (table w)).
    { apply list_elem_of_filter. split; [done|]. by apply elem_of_map_to_list. }
    apply list_elem_of_lookup in Hin as [i Hi].
    destruct (Forall2_lookup_r _ _ _ _ _ Hrep Hi) as (a & Ha & Hr).
    exists a. split; [by apply list_elem_of_lookup_2 in Ha|done].
Qed.

Lemma select_all (tbl : gmap Z Row) : select (fun _ => true) tbl = map_to_list tbl.
Proof.
  unfold select. induction (map_to_list tbl) as [|kr l IH]; [done|].
  rewrite filter_cons_True by done. by rewrite IH.
Qed.

End Committing.

(** ** The handlers, step by step *)

Section Answering.
Context `{Engine}.
Context (repr_other : pyval -> string).

Lemma check_content_type_ok req w :
  assoc "Content-Type" (headers req) = Some "application/json" ->
  check_content_type req "application/json" w = (Ok tt, w).
Proof.
  intros Hh. unfold check_content_type, abort. run. rewrite Hh.
  rewrite bool_decide_eq_true_2 by eauto. cbn [negb]. cbv iota.
  by rewrite bool_decide_eq_true_2.
Qed.

Lemma get_json_some req data w :
  body req = Some data ->
  get_json req w
  = (Ok data, mkWorld (heap w) (table w) (serial w) (trace w ++ [EvGetJson])).
Proof. intros Hb. unfold get_json, log, modify. run. simpl. by rewrite Hb. Qed.

Lemma get_json_none req w :
  body req = None ->
  get_json req w
  = (Raise (HTTPException 400 ""),
     mkWorld (heap w) (table w) (serial w) (trace w ++ [EvGetJson])).
Proof. intros Hb. unfold get_json, log, modify, abort. run. simpl. by rewrite Hb. Qed.

Lemma new_at w :
  Product.new w
  = (Ok (length (heap w)),
     set_heap (heap w ++ [mkInstance (mkProduct VNone VNone VNone VNone VNone VNone)
                                     Transient]) w).
Proof. done. Qed.

(** *** GET /products/{id} *)

Lemma get_product_found w k r :
  session_clean w ->
  table w !! k = Some r ->
  exists ext,
    get_product repr_other k w
    = (Ok (mkResponse (Json (row_json (k, r))) 200 []), queried ext (EvGet k) w).
Proof.
  intros Hw Hk. destruct (find_loaded w k r Hw Hk) as (a & ext & Hf & Hrep & _).
  exists ext. unfold get_product. run. rewrite Hf.
  by rewrite (serialize_loaded repr_other (queried ext (EvGet k) w) a (k, r)).
Qed.

Lemma get_product_missing w k :
  session_clean w ->
  table w !! k = None ->
  get_product repr_other k w
  = (Raise (HTTPException 404 "Product not found"),
     mkWorld (heap w) (table w) (serial w) (trace w ++ [EvGet k])).
Proof.
  intros Hw Hk. unfold get_product. run. by rewrite (find_absent w k Hw Hk).
Qed.

(** *** POST /products *)

(** What the handler does up to [create]: the new instance is at the
    end of the heap, with what [deserialize] made of the payload. *)
Lemma create_products_run req w data p res :
  body req = Some data ->
  deserialize_attrs data (mkProduct VNone VNone VNone VNone VNone VNone) = (res, p) ->
  let w3 := mkWorld (heap w ++ [mkInstance p Transient]) (table w) (serial w)
                    (trace w ++ [EvGetJson]) in
  (product ← Product.new;
   data ← get_json req;
   Product.deserialize product data;;
   Product.create product;;
   mret product) w
  = match res with
    | Ok _ => (Product.create (length (heap w));; mret (length (heap w))) w3
    | Raise e => (Raise e, w3)
    end.
Proof.
  intros Hb Hd w3. run. rewrite new_at.
  set (w1 := set_heap _ w).
  rewrite (get_json_some req data w1 Hb).
  set (w2 := mkWorld _ _ _ _).
  assert (H2 : heap w2 !! length (heap w)
               = Some (mkInstance (mkProduct VNone VNone VNone VNone VNone VNone) Transient)).
  { unfold w2, w1. simpl. by rewrite lookup_app_r, Nat.sub_diag. }
  rewrite (deserialize_run _ _ data w2 H2). cbn [attrs state]. rewrite Hd. cbn [fst snd].
  assert (Hw3 : put (length (heap w)) (mkInstance p Transient) w2 = w3).
  { unfold put, set_heap, w2, w1, w3. simpl. f_equal.
    rewrite insert_app_r_alt, Nat.sub_diag by done. done. }
  rewrite Hw3. destruct res as [[]|e]; done.
Qed.

Lemma posted_clean_but w p :
  session_clean w ->
  clean_but (length (heap w))
    (mkWorld (heap w ++ [mkInstance p Transient]) (table w) (serial w)
             (trace w ++ [EvGetJson])).
Proof.
  intros Hw a x Ha Hx. simpl in Hx.
  apply lookup_app_Some in Hx as [Hx|[Hlen Hx]].
  - by apply (proj1 (Forall_lookup _ _) Hw a x).
  - apply list_lookup_singleton_Some in Hx as [Hx _]. lia.
Qed.

Lemma create_products_ok req w data v_name v_description d b c r :
  assoc "Content-Type" (headers req) = Some "application/json" ->
  body req = Some data ->
  describes data v_name v_description d b c ->
  insert_row (mkProduct VNone v_name v_description (VDecimal d) (VBool b) (VCategory c))
  = Ok r ->
  session_clean w ->
  keys_fresh w ->
  create_products repr_other req w
  = (Ok (mkResponse (Json (row_json (serial w, r))) 201
           [("Location", url_root req ++ "products/" ++ PyStr.str_of_Z (serial w))]),
     mkWorld (heap w ++ [mkInstance (loaded (serial w) r) (Persistent (serial w))])
             (<[serial w := r]> (table w)) (serial w + 1)
             (trace w ++ [EvGetJson; EvCommit])).
Proof.
  intros Hh Hb Hd Hr Hw Hfresh.
  unfold create_products.
  rewrite bind_at, (check_content_type_ok req w Hh), bind_at, try_except_at.
  rewrite (create_products_run req w data _ _ Hb
             (deserialize_attrs_describes _ _ _ _ _ _ _ Hd)).
  cbn [id]. rewrite bind_at.
  set (p := mkProduct VNone v_name v_description (VDecimal d) (VBool b) (VCategory c)) in *.
  set (w3 := mkWorld _ _ _ _).
  assert (H3 : heap w3 !! length (heap w) = Some (mkInstance p Transient)).
  { unfold w3. simpl. by rewrite lookup_app_r, Nat.sub_diag. }
  rewrite (create_transient w3 _ _ r H3 eq_refl (posted_clean_but w p Hw) Hfresh Hr).
  cbn [mret SE_ret]. unfold w3. cbn [heap table serial trace].
  rewrite insert_app_r_alt, Nat.sub_diag by done. cbn [insert list_insert].
  rewrite <- app_assoc. cbn [app].
  set (w4 := mkWorld _ _ _ _).
  assert (H4 : represents (heap w4) (length (heap w)) (serial w, r)).
  { unfold represents, w4. simpl. by rewrite lookup_app_r, Nat.sub_diag. }
  rewrite bind_at, (getattr_at _ _ _ _ H4). cbn [attrs loaded id fst snd].
  rewrite bind_at. cbn [url_for_get_product mret SE_ret].
  rewrite bind_at, (serialize_loaded repr_other w4 _ _ H4). done.
Qed.

(** *** PUT /products/{id} *)

(** What the handler does with the instance it found, up to [update]. *)
Lemma update_product_run req w a o data p res :
  heap w !! a = Some o ->
  body req = Some data ->
  deserialize_attrs data (attrs o) = (res, p) ->
  let w3 := mkWorld (<[a := mkInstance p (state o)]> (heap w)) (table w) (serial w)
                    (trace w ++ [EvGetJson]) in
  (data ← get_json req;
   Product.deserialize a data;;
   Product.update a) w
  = match res with
    | Ok _ => Product.update a w3
    | Raise e => (Raise e, w3)
    end.
Proof.
  intros Ha Hb Hd w3. rewrite bind_at, (get_json_some req data w Hb).
  rewrite bind_at.
  set (w2 := mkWorld _ _ _ _).
  assert (H2 : heap w2 !! a = Some o) by done.
  rewrite (deserialize_run a o data w2 H2), Hd. cbn [fst snd].
  destruct res as [[]|e]; done.
Qed.

Lemma update_product_ok k req w data v_name v_description d b c r r' :
  assoc "Content-Type" (headers req) = Some "application/json" ->
  body req = Some data ->
  describes data v_name v_description d b c ->
  session_clean w ->
  identity_unique (heap w) ->
  table w !! k = Some r ->
  k <> 0 ->
  update_row r (mkProduct (VInt k) v_name v_description (VDecimal d) (VBool b) (VCategory c))
  = Ok r' ->
  exists w',
    update_product repr_other k req w
    = (Ok (mkResponse (Json (row_json (k, r'))) 200 []), w') /\
    table w' = <[k := r']> (table w) /\
    serial w' = serial w /\
    trace w' = (trace w ++ [EvGet k; EvGetJson; EvCommit])%list /\
    session_clean w'.
Proof.
  intros Hh Hb Hd Hw Huniq Hk Hk0 Hr'.
  destruct (find_loaded w k r Hw Hk) as (a & ext & Hf & Hrep & Hext & Huq).
  unfold update_product.
  rewrite bind_at, (check_content_type_ok req w Hh), bind_at, Hf.
  rewrite bind_at, try_except_at.
  set (w1 := queried ext (EvGet k) w).
  rewrite (update_product_run req w1 a _ data _ _ Hrep Hb
             (deserialize_attrs_describes _ _ _ _ _ _ _ Hd)).
  cbn [attrs state loaded id fst snd].
  set (p := mkProduct (VInt k) v_name v_description (VDecimal d) (VBool b) (VCategory c)) in *.
  set (w3 := mkWorld _ _ _ _).
  assert (Hlen : (a < length (heap w ++ ext))%nat) by (by apply lookup_lt_Some in Hrep).
  assert (H3 : heap w3 !! a = Some (mkInstance p (Persistent k))).
  { unfold w3. simpl. by apply list_lookup_insert_eq. }
  assert (Hothers : clean_but a w3).
  { intros x y Hx Hy. unfold w3 in Hy. simpl in Hy.
    rewrite list_lookup_insert_ne in Hy by done.
    apply (proj1 (Forall_lookup _ _ ) (queried_clean ext (EvGet k) w Hw Hext) x y Hy). }
  assert (Huniq3 : identity_unique (heap w3)).
  { unfold w3. simpl.
    apply (identity_unique_insert _ _ _ _ Hrep); [by intros k' [= <-]|by apply Huq]. }
  rewrite (update_persistent w3 a _ k r r' H3 eq_refl eq_refl Hk0 Hk Hr' Hothers Huniq3).
  set (w4 := mkWorld _ _ _ _).
  assert (H4 : represents (heap w4) a (k, r')).
  { unfold represents, w4, w3. simpl. apply list_lookup_insert_eq.
    by rewrite length_insert. }
  rewrite bind_at, (serialize_loaded repr_other w4 a _ H4).
  eexists. split; [done|]. unfold w4. cbn [table serial trace].
  split; [done|]. split; [done|]. split; [unfold w3; simpl; by rewrite <- !app_assoc|].
  apply session_clean_insert.
  - by apply lookup_lt_Some in H3.
  - intros x y Hx Hy.
    by apply (clean_others_insert w3 a _ k r' H3 eq_refl Hothers Huniq3 x y).
  - exists r'. split; [apply lookup_insert_eq|done].
Qed.

(** *** DELETE /products/{id} *)

Lemma delete_products_done w k r :
  session_clean w ->
  identity_unique (heap w) ->
  table w !! k = Some r ->
  exists w',
    delete_products k w = (Ok (mkResponse (Plain "") 204 []), w') /\
    table w' = delete k (table w) /\ serial w' = serial w /\
    session_clean w' /\ identity_unique (heap w').
Proof.
  intros Hw Huniq Hk.
  destruct (find_present w k r Hw Huniq Hk)
    as (a & o & w1 & Hfind & Htbl & Hser & Ha & Hst & Hw1 & Huniq1).
  unfold delete_products. run. rewrite Hfind.
  rewrite (delete_persistent w1 a o k Ha Hst (session_clean_but a w1 Hw1) Huniq1).
  eexists. split; [done|]. simpl. rewrite Htbl, Hser.
  split; [done|]. split; [done|]. split.
  - rewrite <- Htbl.
    apply (delete_leaves_clean w1 a o k Ha Hst (session_clean_but a w1 Hw1) Huniq1).
  - by apply (identity_unique_insert _ _ o).
Qed.

(** *** GET /products *)

Lemma list_products_reads req w :
  session_clean w ->
  exists ext events,
    (list_products repr_other req w).2
    = mkWorld (heap w ++ ext) (table w) (serial w) (trace w ++ events) /\
    EvCommit ∉ events.
Proof.
  intros Hw.
  assert (Hsame : exists ext events,
             w = mkWorld (heap w ++ ext) (table w) (serial w) (trace w ++ events) /\
             EvCommit ∉ events).
  { exists [], []. rewrite !app_nil_r. split; [by destruct w|]. apply not_elem_of_nil. }
  assert (Hselect : forall ext res,
             list_products repr_other req w = (res, queried ext EvSelect w) ->
             exists ext events,
               (list_products repr_other req w).2
               = mkWorld (heap w ++ ext) (table w) (serial w) (trace w ++ events) /\
               EvCommit ∉ events).
  { intros ext res ->. exists ext, [EvSelect]. split; [done|].
    intros Hin. apply list_elem_of_singleton in Hin. done. }
  destruct (given (assoc "name" (args req))) eqn:Hname.
  { destruct (assoc "name" (args req)) as [n|] eqn:Hn; [|done].
    destruct (list_products_by_name repr_other req w n Hw Hn) as [ext Hl].
    - intros ->. done.
    - by apply (Hselect ext _ Hl). }
  destruct (given (assoc "category" (args req))) eqn:Hcategory.
  { destruct (assoc "category" (args req)) as [s|] eqn:Hs; [|done].
    assert (Hne : s <> "") by (intros ->; done).
    destruct (CategoryEnum.of_name s) as [c|] eqn:Hc.
    - destruct (list_products_by_category repr_other req w s c Hw Hname Hs Hne
                  (Category_of_name_Some s c Hc)) as [ext Hl].
      by apply (Hselect ext _ Hl).
    - rewrite (list_products_bad_category repr_other req w s Hname Hs Hne); [done|].
      intros c ->. by rewrite Category_of_name_name in Hc. }
  destruct (assoc "available" (args req)) as [a|] eqn:Ha.
  - destruct (decide (PyStr.lower a = "true")) as [Ht|Ht].
    { destruct (list_products_by_availability repr_other req w a true
                  Hw Hname Hcategory Ha Ht) as [ext Hl].
      by apply (Hselect ext _ Hl). }
    destruct (decide (PyStr.lower a = "false")) as [Hf|Hf].
    { destruct (list_products_by_availability repr_other req w a false
                  Hw Hname Hcategory Ha Hf) as [ext Hl].
      by apply (Hselect ext _ Hl). }
    by rewrite (list_products_bad_availability repr_other req w a Hname Hcategory Ha Ht Hf).
  - destruct (list_products_all repr_other req w Hw Hname Hcategory Ha) as [ext Hl].
    by apply (Hselect ext _ Hl).
Qed.

End Answering.

(** ** More examples *)

Lemma fedora_world_unique : identity_unique (heap fedora_world).
Proof. apply singleton_identity_unique. Qed.

Lemma fedora_world_fresh : keys_fresh fedora_world.
Proof.
  intros k [r Hr]. simpl in *.
  destruct (decide (k = 1)) as [->|Hne]; [done|].
  by rewrite lookup_singleton_ne in Hr.
Qed.

Lemma initial_world_fresh : keys_fresh initial_world.
Proof. intros k [r Hr]. simpl in Hr. by rewrite lookup_empty in Hr. Qed.

Lemma transient_world_good : good transient_world.
Proof.
  split; [|split].
  - by apply Forall_singleton.
  - apply singleton_identity_unique.
  - intros k [r Hr]. simpl in Hr. by rewrite lookup_empty in Hr.
Qed.

Lemma fedora_describes :
  describes fedora (VStr "Fedora") (VStr "A red hat")
            (PyDecimal.Finite false 1250 (-2)) true CLOTHS.
Proof. eexists _, _. repeat split; reflexivity. Qed.

Lemma trilby_describes :
  describes trilby (VStr "Trilby") (VStr "A felt hat")
            (PyDecimal.Finite false 30 0) false CLOTHS.
Proof. eexists _, _. repeat split; reflexivity. Qed.

Lemma nameless_describes :
  describes nameless VNone (VStr "A red hat")
            (PyDecimal.Finite false 1250 (-2)) true CLOTHS.
Proof. eexists _, _. repeat split; reflexivity. Qed.

(** [test_create_a_product] of tests/test_models.py, for the text of the
    instance. *)
Example test_create_a_product :
  test (product ← construct (set_id VNone hat); __repr__ no_repr product)
  = Ok "<Product Fedora id=[None]>".
Proof. vm_compute. reflexivity. Qed.

(** A search by price: the text of a number finds the rows of that
    value, however the number is written. *)
Example find_fedora_by_price :
  test (post_product hat;;
        by_text ← find_by_price (H:=strict_engine) strict_numeric_eq (VStr " 12.5 ");
        by_value ← find_by_price (H:=strict_engine) strict_numeric_eq
                     (VDecimal (PyDecimal.Finite false 1250 (-2)));
        others ← find_by_price (H:=strict_engine) strict_numeric_eq (VStr "12.51");
        mret (by_text, by_value, others))
  = Ok ([1%nat], [1%nat], []).
Proof. vm_compute. reflexivity. Qed.

(** ** service/models.py *)

(** X1. [deserialize] assigns nothing but the five attributes of its
    receiver that it reads from the data: whatever the data is and
    however the call ends, the table, the key sequence and the trace of
    what was done to the storage are as they were, every other instance
    is as it was, and the receiver keeps its place in the session and
    its [id]. *)
Theorem deserialize_frame (w w' : world) (self : addr) (o : instance) (data : pyval)
    (res : result addr) :
  heap w !! self = Some o ->
  Product.deserialize self data w = (res, w') ->
  table w' = table w /\ serial w' = serial w /\ trace w' = trace w
  /\ (forall other, other <> self -> heap w' !! other = heap w !! other)
  /\ exists o', heap w' !! self = Some o' /\
                state o' = state o /\ id (attrs o') = id (attrs o).
Proof.
  intros Hself. rewrite (deserialize_run self o data w Hself). intros [= _ <-].
  split; [done|]. split; [done|]. split; [done|]. split.
  - intros other Hne. by apply heap_put_ne.
  - eexists. split; [by eapply heap_put|]. split; [done|]. apply deserialize_attrs_id.
Qed.

Lemma deserialize_frame_witness :
  let w' := (Product.deserialize 0%nat trilby fedora_world).2 in
  table w' = table fedora_world /\ serial w' = serial fedora_world
  /\ trace w' = trace fedora_world
  /\ (forall other, other <> 0%nat -> heap w' !! other = heap fedora_world !! other)
  /\ exists o', heap w' !! 0%nat = Some o' /\
                state o' = Persistent 1 /\ id (attrs o') = VInt 1.
Proof.
  apply (deserialize_frame fedora_world _ 0%nat
           (mkInstance (loaded 1 fedora_row) (Persistent 1)) trilby
           (Product.deserialize 0%nat trilby fedora_world).1).
  - reflexivity.
  - reflexivity.
Defined.

(** X2. The way back: once [deserialize] has accepted a mapping,
    [serialize] of the receiver gives the name, the description, the
    availability and the category of the mapping as they were sent, the
    price as the text of the decimal that [Decimal] made of it, and the
    [id] that the receiver had before, whatever the mapping says. *)
Theorem serialize_after_deserialize (repr_other : pyval -> string)
    (w : world) (self : addr) (o : instance) (data : pyval)
    (v_name v_description : pyval) (d : PyDecimal.t) (b : bool) (c : Category) :
  heap w !! self = Some o ->
  describes data v_name v_description d b c ->
  exists w',
    Product.deserialize self data w = (Ok self, w') /\
    Product.serialize repr_other self w'
    = (Ok (VDict [("id", id (attrs o));
                  ("name", v_name);
                  ("description", v_description);
                  ("price", VStr (PyDecimal.to_str d));
                  ("available", VBool b);
                  ("category", VStr (CategoryEnum.name c))]), w').
Proof.
  intros Hself Hd. rewrite (deserialize_run self o data w Hself).
  rewrite (deserialize_attrs_describes _ _ _ _ _ _ _ Hd). cbn [fst snd mbind result_bind].
  set (o' := mkInstance _ (state o)).
  exists (put self o' w). split; [done|].
  by rewrite (serialize_at repr_other (put self o' w) self o' c
                (heap_put _ _ _ _ Hself) eq_refl).
Qed.

Lemma serialize_after_deserialize_witness :
  exists w',
    Product.deserialize 0%nat trilby fedora_world = (Ok 0%nat, w') /\
    Product.serialize no_repr 0%nat w'
    = (Ok (VDict [("id", VInt 1);
                  ("name", VStr "Trilby");
                  ("description", VStr "A felt hat");
                  ("price", VStr "30");
                  ("available", VBool false);
                  ("category", VStr "CLOTHS")]), w').
Proof.
  apply (serialize_after_deserialize no_repr fedora_world 0%nat
           (mkInstance (loaded 1 fedora_row) (Persistent 1)) trilby
           (VStr "Trilby") (VStr "A felt hat") (PyDecimal.Finite false 30 0) false CLOTHS).
  - reflexivity.
  - exact trilby_describes.
Defined.

(** X3. [serialize] needs a category: it returns a mapping, and touches
    nothing, when the category of the instance is a member of the
    enumeration; for any other value, [None] of a new instance included,
    it raises [AttributeError]. *)
Theorem serialize_needs_category (repr_other : pyval -> string)
    (w : world) (self : addr) (o : instance) :
  heap w !! self = Some o ->
  ((exists c, category (attrs o) = VCategory c) ->
   exists data, Product.serialize repr_other self w = (Ok data, w))
  /\ ((forall c, category (attrs o) <> VCategory c) ->
      Product.serialize repr_other self w = (Raise AttributeError, w)).
Proof.
  intros Hself. split.
  - intros [c Hc]. eexists. by apply (serialize_at repr_other w self o c).
  - intros Hc. unfold Product.serialize. run.
    rewrite !(getattr_at _ _ _ _ Hself).
    destruct (category (attrs o)) as [| | | | | | | |c]; try done.
    by destruct (Hc c).
Qed.

Lemma serialize_needs_category_witness :
  (exists data, Product.serialize no_repr 0%nat fedora_world = (Ok data, fedora_world))
  /\ Product.serialize no_repr 0%nat blank_world = (Raise AttributeError, blank_world).
Proof.
  split.
  - destruct (serialize_needs_category no_repr fedora_world 0%nat
                (mkInstance (loaded 1 fedora_row) (Persistent 1)) eq_refl) as [Hok _].
    apply Hok. exists CLOTHS. reflexivity.
  - destruct (serialize_needs_category no_repr blank_world 0%nat
                (mkInstance (mkProduct VNone VNone VNone VNone VNone VNone) Transient)
                eq_refl) as [_ Hraise].
    apply Hraise. intros c. simpl. discriminate.
Defined.

(** X4. [serialize] loses nothing of a row: when two instances, each
    loaded from a row of its table, have equal serializations, the two
    rows have the same key and the same values.  So two rows that differ
    in anything, be it only in the digits of the price, as 12.5 and
    12.50, are told apart by their serializations. *)
Theorem serialize_injective (repr_other : pyval -> string)
    (w w' : world) (a b : addr) (kr kr' : Z * Row) :
  represents (heap w) a kr ->
  represents (heap w') b kr' ->
  (Product.serialize repr_other a w).1 = (Product.serialize repr_other b w').1 ->
  kr = kr'.
Proof.
  intros Ha Hb. rewrite (serialize_loaded repr_other w a kr Ha).
  rewrite (serialize_loaded repr_other w' b kr' Hb). cbn [fst].
  intros Heq. apply row_json_inj. congruence.
Qed.

Lemma serialize_injective_witness :
  exists data data',
    (Product.serialize no_repr 0%nat fedora_world).1 = Ok data /\
    (Product.serialize no_repr 0%nat short_world).1 = Ok data' /\
    data <> data'.
Proof.
  exists (row_json (1, fedora_row)), (row_json (1, short_row)).
  split; [reflexivity|]. split; [reflexivity|].
  intros Heq.
  pose proof (serialize_injective no_repr fedora_world short_world 0%nat 0%nat
                (1, fedora_row) (1, short_row) eq_refl eq_refl (f_equal Ok Heq)) as Hrows.
  discriminate Hrows.
Defined.

(** X5. The columns [name], [description] and [price] are not nullable:
    [create] of a new instance that has [None] for one of them, and for
    the rest values that the storage accepts, raises [IntegrityError]
    and no row is inserted (the rest of the session having nothing to
    flush). *)
Theorem create_requires_not_null `{Engine} (w : world) (self : addr) (o : instance) :
  heap w !! self = Some o ->
  state o = Transient ->
  clean_but self w ->
  name (attrs o) = VNone \/ description (attrs o) = VNone \/ price (attrs o) = VNone ->
  null_or_accepted (attrs o) ->
  exists w',
    Product.create self w = (Raise IntegrityError, w') /\ table w' = table w.
Proof.
  intros Hself Hst Hothers Hnull Haccepted.
  rewrite (create_rejected w self o IntegrityError Hself Hst Hothers
             (insert_row_null _ Hnull Haccepted)).
  eexists. split; [done|]. done.
Qed.

Lemma create_requires_not_null_witness :
  exists w',
    Product.create (H:=strict_engine) 0%nat nameless_world = (Raise IntegrityError, w') /\
    table w' = table nameless_world.
Proof.
  apply (create_requires_not_null (H:=strict_engine) nameless_world 0%nat
           (mkInstance (set_name VNone hat) Transient)).
  - reflexivity.
  - reflexivity.
  - apply singleton_clean_but.
  - left. reflexivity.
  - split; [left; reflexivity|].
    repeat split; right; eexists; reflexivity.
Defined.

(** X6. The defaults of the columns: when [create] inserts the row of a
    new instance whose [available] is [None], the row is available and
    the instance reads [True] afterwards; when its [category] is [None],
    the row is in the category [UNKNOWN] and the instance reads that
    member. *)
Theorem create_applies_defaults `{Engine}
    (w : world) (self : addr) (o : instance) (r : Row) :
  heap w !! self = Some o ->
  state o = Transient ->
  clean_but self w ->
  keys_fresh w ->
  insert_row (attrs o) = Ok r ->
  exists w',
    Product.create self w = (Ok tt, w') /\
    table w' !! serial w = Some r /\
    (available (attrs o) = VNone ->
     row_available r = true /\ getattr self available w' = (Ok (VBool true), w')) /\
    (category (attrs o) = VNone ->
     row_category r = UNKNOWN /\ getattr self category w' = (Ok (VCategory UNKNOWN), w')).
Proof.
  intros Hself Hst Hothers Hfresh Hrow.
  rewrite (create_transient w self o r Hself Hst Hothers Hfresh Hrow).
  destruct (insert_row_defaults _ _ Hrow) as [Ha Hc].
  eexists. split; [done|]. split; [apply lookup_insert_eq|].
  assert (Hlen : (self < length (heap w))%nat) by (by apply lookup_lt_Some in Hself).
  split; intros Hnone; (split; [auto|]);
    erewrite getattr_at by (simpl; by apply list_lookup_insert_eq); simpl.
  - by rewrite (Ha Hnone).
  - by rewrite (Hc Hnone).
Qed.

Lemma create_applies_defaults_witness :
  exists w',
    Product.create (H:=strict_engine) 0%nat bare_world = (Ok tt, w') /\
    table w' !! 1 = Some bare_row /\
    getattr 0%nat available w' = (Ok (VBool true), w') /\
    getattr 0%nat category w' = (Ok (VCategory UNKNOWN), w').
Proof.
  destruct (create_applies_defaults (H:=strict_engine) bare_world 0%nat
              (mkInstance bare_hat Transient) bare_row)
    as (w' & Hcreate & Hrow & Havailable & Hcategory).
  - reflexivity.
  - reflexivity.
  - apply singleton_clean_but.
  - intros k [x Hx]. simpl in Hx. by rewrite lookup_empty in Hx.
  - reflexivity.
  - exists w'. split; [exact Hcreate|]. split; [exact Hrow|].
    split; [apply Havailable|apply Hcategory]; reflexivity.
Defined.

(** X7. [create] then [find]: after [create] of a new instance the
    instance carries the key of its row as its [id], and [find] of that
    key returns that very instance, not a copy, and loads nothing. *)
Theorem create_then_find `{Engine} (w : world) (self : addr) (o : instance) (r : Row) :
  heap w !! self = Some o ->
  state o = Transient ->
  session_clean w ->
  keys_fresh w ->
  insert_row (attrs o) = Ok r ->
  exists w1,
    Product.create self w = (Ok tt, w1) /\
    getattr self id w1 = (Ok (VInt (serial w)), w1) /\
    Product.find (serial w) w1
    = (Ok (Some self),
       mkWorld (heap w1) (table w1) (serial w1) (trace w1 ++ [EvGet (serial w)])).
Proof.
  intros Hself Hst Hw Hfresh Hrow.
  rewrite (create_transient w self o r Hself Hst (session_clean_but self w Hw) Hfresh Hrow).
  eexists. split; [done|].
  assert (Hlen : (self < length (heap w))%nat) by (by apply lookup_lt_Some in Hself).
  split.
  - erewrite getattr_at by (simpl; by apply list_lookup_insert_eq). done.
  - unfold Product.find, query_get, log, modify, gets. run. simpl.
    rewrite (identity_lookup_only (serial w) _ self
               (mkInstance (loaded (serial w) r) (Persistent (serial w)))); [done| |done|].
    + by apply list_lookup_insert_eq.
    + intros b x Hb Hx. rewrite list_lookup_insert_ne in Hx by done.
      by apply (fresh_key_unused w b x).
Qed.

Lemma create_then_find_witness :
  exists w1,
    Product.create (H:=strict_engine) 0%nat transient_world = (Ok tt, w1) /\
    getattr 0%nat id w1 = (Ok (VInt 1), w1) /\
    Product.find (H:=strict_engine) 1 w1
    = (Ok (Some 0%nat),
       mkWorld (heap w1) (table w1) (serial w1) (trace w1 ++ [EvGet 1])).
Proof.
  destruct transient_world_good as (Hclean & _ & Hfresh).
  apply (create_then_find (H:=strict_engine) transient_world 0%nat
           (mkInstance (set_id (VInt 7) (loaded 1 fedora_row)) Transient) fedora_row).
  - reflexivity.
  - reflexivity.
  - exact Hclean.
  - exact Hfresh.
  - reflexivity.
Defined.

(** X8. [create] then [delete]: on a session in good order, creating a
    new instance and deleting it again leaves the table as it was before
    the two calls; in between, the row was there. *)
Theorem create_then_delete `{Engine} (w : world) (self : addr) (o : instance) (r : Row) :
  heap w !! self = Some o ->
  state o = Transient ->
  good w ->
  insert_row (attrs o) = Ok r ->
  exists w1 w2,
    Product.create self w = (Ok tt, w1) /\
    table w1 !! serial w = Some r /\
    Product.delete self w1 = (Ok tt, w2) /\
    table w2 = table w.
Proof.
  intros Hself Hst (Hw & Huniq & Hfresh) Hrow.
  rewrite (create_transient w self o r Hself Hst (session_clean_but self w Hw) Hfresh Hrow).
  eexists _, _. split; [done|]. split; [apply lookup_insert_eq|].
  assert (Hlen : (self < length (heap w))%nat) by (by apply lookup_lt_Some in Hself).
  erewrite delete_persistent.
  - split; [done|]. simpl. apply delete_insert_id. by apply fresh_key_absent.
  - simpl. by apply list_lookup_insert_eq.
  - done.
  - apply session_clean_but. by apply (created_world_clean w self o r).
  - simpl. by apply (created_world_unique w self o r).
Qed.

Lemma create_then_delete_witness :
  exists w1 w2,
    Product.create (H:=strict_engine) 0%nat transient_world = (Ok tt, w1) /\
    table w1 !! 1 = Some fedora_row /\
    Product.delete (H:=strict_engine) 0%nat w1 = (Ok tt, w2) /\
    table w2 = table transient_world.
Proof.
  apply (create_then_delete (H:=strict_engine) transient_world 0%nat
           (mkInstance (set_id (VInt 7) (loaded 1 fedora_row)) Transient) fedora_row).
  - reflexivity.
  - reflexivity.
  - exact transient_world_good.
  - reflexivity.
Defined.

(** X9. [update] does not ask whether the instance has a row: on a
    session with nothing to flush, [update] of any instance whose [id]
    is set to a true value, an instance that was never created
    included, returns normally, and the commit writes nothing. *)
Theorem update_writes_nothing_when_clean `{Engine}
    (w : world) (self : addr) (o : instance) :
  heap w !! self = Some o ->
  truthy (id (attrs o)) = true ->
  session_clean w ->
  Product.update self w
  = (Ok tt, mkWorld (heap w) (table w) (serial w) (trace w ++ [EvCommit])).
Proof.
  intros Hself Hid Hw. unfold Product.update.
  rewrite bind_at, (getattr_at _ _ _ _ Hself), Hid. cbn [negb].
  by apply commit_clean.
Qed.

Lemma update_writes_nothing_when_clean_witness :
  Product.update (H:=strict_engine) 0%nat transient_world
  = (Ok tt, mkWorld (heap transient_world) (table transient_world)
                    (serial transient_world) (trace transient_world ++ [EvCommit])).
Proof.
  destruct transient_world_good as (Hclean & _ & _).
  apply (update_writes_nothing_when_clean (H:=strict_engine) transient_world 0%nat
           (mkInstance (set_id (VInt 7) (loaded 1 fedora_row)) Transient)).
  - reflexivity.
  - reflexivity.
  - exact Hclean.
Defined.

(** X10. The queries, on a session with nothing to flush.  [all]
    returns one instance for each row of the table.  [find_by_name]
    returns instances of rows with exactly that name, and an instance
    for every such row; [find_by_availability] does the same for the
    availability.  None of them changes the table. *)
Theorem queries_sound_and_complete `{Engine} (w : world) :
  session_clean w ->
  (exists products ext,
     Product.all w = (Ok products, queried ext EvSelect w) /\
     length products = size (table w) /\
     (forall k r, table w !! k = Some r ->
        exists a, a ∈ products /\ represents (heap w ++ ext) a (k, r)))
  /\ (forall n, exists products ext,
        Product.find_by_name n w = (Ok products, queried ext EvSelect w) /\
        (forall a, a ∈ products ->
           exists k r, table w !! k = Some r /\ row_name r = n /\
                       represents (heap w ++ ext) a (k, r)) /\
        (forall k r, table w !! k = Some r -> row_name r = n ->
           exists a, a ∈ products /\ represents (heap w ++ ext) a (k, r)))
  /\ (forall b, exists products ext,
        Product.find_by_availability b w = (Ok products, queried ext EvSelect w) /\
        (forall a, a ∈ products ->
           exists k r, table w !! k = Some r /\ row_available r = b /\
                       represents (heap w ++ ext) a (k, r)) /\
        (forall k r, table w !! k = Some r -> row_available r = b ->
           exists a, a ∈ products /\ represents (heap w ++ ext) a (k, r))).
Proof.
  intros Hw. split; [|split].
  - destruct (query_filter_exact (fun _ => true) w Hw)
      as (products & ext & Hq & Hlen & _ & Hcomplete).
    exists products, ext. split; [done|]. split.
    + by rewrite Hlen, select_all, length_map_to_list.
    + intros k r Hk. by apply Hcomplete.
  - intros n.
    destruct (query_filter_exact (fun r => String.eqb (row_name r) n) w Hw)
      as (products & ext & Hq & _ & Hsound & Hcomplete).
    exists products, ext. split; [done|]. split.
    + intros a Ha. destruct (Hsound a Ha) as (k & r & Hk & Hkeep & Hr).
      apply String.eqb_eq in Hkeep. eauto.
    + intros k r Hk Hn. apply Hcomplete; [done|]. by apply String.eqb_eq.
  - intros b.
    destruct (query_filter_exact (fun r => Bool.eqb (row_available r) b) w Hw)
      as (products & ext & Hq & _ & Hsound & Hcomplete).
    exists products, ext. split; [done|]. split.
    + intros a Ha. destruct (Hsound a Ha) as (k & r & Hk & Hkeep & Hr).
      apply Bool.eqb_prop in Hkeep. eauto.
    + intros k r Hk Hb. apply Hcomplete; [done|]. rewrite Hb. apply Bool.eqb_reflx.
Qed.

Lemma queries_sound_and_complete_witness :
  exists products ext,
    Product.all (H:=strict_engine) fedora_world
    = (Ok products, queried ext EvSelect fedora_world) /\
    length products = 1%nat.
Proof.
  destruct (queries_sound_and_complete (H:=strict_engine) fedora_world fedora_world_clean)
    as ((products & ext & Hall & Hlen & _) & _).
  exists products, ext. split; [exact Hall|]. rewrite Hlen. reflexivity.
Defined.

(** X11. [find_by_price] turns a text into a decimal before it
    searches.  A text that [Decimal] refuses makes it raise
    [InvalidOperation], with nothing asked of the storage: there is no
    sentinel as in [find_by_category].  A text that [Decimal] accepts
    searches as the decimal it denotes does; so the text [str(d)] of a
    decimal searches as [d]. *)
Theorem find_by_price_text `{Engine}
    (numeric_eq : pyval -> result (PyDecimal.t -> bool)) (w : world) :
  (forall s, PyDecimal.of_str s = None ->
     find_by_price numeric_eq (VStr s) w = (Raise InvalidOperation, w))
  /\ (forall s d, PyDecimal.of_str s = Some d ->
        find_by_price numeric_eq (VStr s) w = find_by_price numeric_eq (VDecimal d) w)
  /\ (forall d, find_by_price numeric_eq (VStr (PyDecimal.to_str d)) w
                = find_by_price numeric_eq (VDecimal d) w).
Proof.
  assert (Hsome : forall s d, PyDecimal.of_str s = Some d ->
            find_by_price numeric_eq (VStr s) w = find_by_price numeric_eq (VDecimal d) w).
  { intros s d Hs. unfold find_by_price. rewrite !bind_at. simpl. by rewrite Hs. }
  split; [|split].
  - intros s Hs. unfold find_by_price. rewrite !bind_at. simpl. by rewrite Hs.
  - done.
  - intros d. apply Hsome. apply PyDecimalFacts.of_str_to_str.
Qed.

Lemma find_by_price_text_witness :
  find_by_price (H:=strict_engine) strict_numeric_eq (VStr "a dozen") fedora_world
  = (Raise InvalidOperation, fedora_world)
  /\ find_by_price (H:=strict_engine) strict_numeric_eq (VStr "1_250e-2") fedora_world
     = find_by_price (H:=strict_engine) strict_numeric_eq
         (VDecimal (PyDecimal.Finite false 1250 (-2))) fedora_world.
Proof.
  destruct (find_by_price_text (H:=strict_engine) strict_numeric_eq fedora_world)
    as (Hbad & Hgood & _).
  split; [apply Hbad|apply Hgood]; reflexivity.
Defined.

(** ** service/routes.py *)

(** X12. GET /products/{id} on a session with nothing to flush: 200
    with the JSON of the row when the table has a row with that key,
    and 404 with "Product not found" when it has none. *)
Theorem get_product_found_or_404 `{Engine}
    (repr_other : pyval -> string) (w : world) (k : Z) :
  session_clean w ->
  (forall r, table w !! k = Some r ->
     exists ext,
       get_product repr_other k w
       = (Ok (mkResponse (Json (row_json (k, r))) 200 []), queried ext (EvGet k) w))
  /\ (table w !! k = None ->
      get_product repr_other k w
      = (Raise (HTTPException 404 "Product not found"),
         mkWorld (heap w) (table w) (serial w) (trace w ++ [EvGet k]))).
Proof.
  intros Hw. split.
  - intros r Hk. by apply get_product_found.
  - intros Hk. by apply get_product_missing.
Qed.

Lemma get_product_found_or_404_witness :
  (exists ext,
     get_product (H:=strict_engine) no_repr 1 fedora_world
     = (Ok (mkResponse (Json (row_json (1, fedora_row))) 200 []),
        queried ext (EvGet 1) fedora_world))
  /\ (get_product (H:=strict_engine) no_repr 9999 fedora_world).1
     = Raise (HTTPException 404 "Product not found").
Proof.
  split.
  - destruct (get_product_found_or_404 (H:=strict_engine) no_repr fedora_world 1
                fedora_world_clean) as [Hfound _].
    apply Hfound. reflexivity.
  - destruct (get_product_found_or_404 (H:=strict_engine) no_repr fedora_world 9999
                fedora_world_clean) as [_ Hmissing].
    rewrite Hmissing; reflexivity.
Defined.

(** X13. The handlers that read write nothing: on a session with
    nothing to flush, whatever the request is and however it is
    answered, GET /products and GET /products/{id} leave the table and
    the key sequence as they were and every instance as it was (they
    may load new ones), and they do not commit. *)
Theorem read_handlers_write_nothing `{Engine}
    (repr_other : pyval -> string) (req : request) (k : Z) (w : world) :
  session_clean w ->
  (exists ext events,
     (list_products repr_other req w).2
     = mkWorld (heap w ++ ext) (table w) (serial w) (trace w ++ events) /\
     EvCommit ∉ events)
  /\ (exists ext events,
        (get_product repr_other k w).2
        = mkWorld (heap w ++ ext) (table w) (serial w) (trace w ++ events) /\
        EvCommit ∉ events).
Proof.
  intros Hw. split; [by apply list_products_reads|].
  assert (Hev : EvCommit ∉ [EvGet k]).
  { intros Hin. apply list_elem_of_singleton in Hin. done. }
  destruct (table w !! k) as [r|] eqn:Hk.
  - destruct (get_product_found repr_other w k r Hw Hk) as [ext ->]. by exists ext, [EvGet k].
  - rewrite (get_product_missing repr_other w k Hw Hk). exists [], [EvGet k].
    by rewrite app_nil_r.
Qed.

Lemma read_handlers_write_nothing_witness :
  (exists ext events,
     (list_products (H:=strict_engine) no_repr (query_request [("category", "FOOD")])
        fedora_world).2
     = mkWorld (heap fedora_world ++ ext) (table fedora_world) (serial fedora_world)
               (trace fedora_world ++ events) /\
     EvCommit ∉ events)
  /\ (exists ext events,
        (get_product (H:=strict_engine) no_repr 1 fedora_world).2
        = mkWorld (heap fedora_world ++ ext) (table fedora_world) (serial fedora_world)
                  (trace fedora_world ++ events) /\
        EvCommit ∉ events).
Proof.
  apply (read_handlers_write_nothing (H:=strict_engine) no_repr
           (query_request [("category", "FOOD")]) 1 fedora_world fedora_world_clean).
Defined.

(** X14. POST /products that succeeds.  For a JSON request whose body
    [deserialize] accepts and whose values the storage accepts, on a
    session that has nothing to flush and whose key sequence is ahead of
    the keys in the table, the answer is 201; its body is the JSON of
    the new row, with the key that the sequence gave as [id], whatever
    [id] the body carried; its [Location] header is the address of that
    key under /products; the row is in the table under that key, and the
    handler has parsed the body once and committed once. *)
Theorem create_products_created `{Engine}
    (repr_other : pyval -> string) (req : request) (w : world) (data : pyval)
    (v_name v_description : pyval) (d : PyDecimal.t) (b : bool) (c : Category) (r : Row) :
  assoc "Content-Type" (headers req) = Some "application/json" ->
  body req = Some data ->
  describes data v_name v_description d b c ->
  insert_row (mkProduct VNone v_name v_description (VDecimal d) (VBool b) (VCategory c))
  = Ok r ->
  session_clean w ->
  keys_fresh w ->
  create_products repr_other req w
  = (Ok (mkResponse (Json (row_json (serial w, r))) 201
           [("Location", url_root req ++ "products/" ++ PyStr.str_of_Z (serial w))]),
     mkWorld (heap w ++ [mkInstance (loaded (serial w) r) (Persistent (serial w))])
             (<[serial w := r]> (table w)) (serial w + 1)
             (trace w ++ [EvGetJson; EvCommit])).
Proof. apply create_products_ok. Qed.

Lemma create_products_created_witness :
  create_products (H:=strict_engine) no_repr (json_request trilby) fedora_world
  = (Ok (mkResponse (Json (row_json (2, trilby_row))) 201
           [("Location", "http://localhost/products/2")]),
     mkWorld (heap fedora_world ++ [mkInstance (loaded 2 trilby_row) (Persistent 2)])
             (<[2 := trilby_row]> (table fedora_world)) 3
             (trace fedora_world ++ [EvGetJson; EvCommit])).
Proof.
  apply (create_products_created (H:=strict_engine) no_repr (json_request trilby)
           fedora_world trilby (VStr "Trilby") (VStr "A felt hat")
           (PyDecimal.Finite false 30 0) false CLOTHS trilby_row).
  - reflexivity.
  - reflexivity.
  - exact trilby_describes.
  - reflexivity.
  - exact fedora_world_clean.
  - exact fedora_world_fresh.
Defined.

(** X15. POST /products that is refused.  A JSON request without a JSON
    body is answered 400; one whose body [deserialize] refuses is
    answered 400 with "Invalid product data".  Either way no row is
    inserted, no key is taken from the sequence and nothing is
    committed. *)
Theorem create_products_rejects_invalid `{Engine}
    (repr_other : pyval -> string) (req : request) (w : world) :
  assoc "Content-Type" (headers req) = Some "application/json" ->
  (body req = None ->
   exists text w',
     create_products repr_other req w = (Raise (HTTPException 400 text), w') /\
     table w' = table w /\ serial w' = serial w /\
     trace w' = (trace w ++ [EvGetJson])%list)
  /\ (forall data, body req = Some data -> invalid_payload data ->
      exists w',
        create_products repr_other req w
        = (Raise (HTTPException 400 "Invalid product data"), w') /\
        table w' = table w /\ serial w' = serial w /\
        trace w' = (trace w ++ [EvGetJson])%list).
Proof.
  intros Hh. split; [intros Hb|intros data Hb Hbad]; unfold create_products;
    rewrite bind_at, (check_content_type_ok req w Hh), bind_at, try_except_at.
  - run. rewrite new_at, (get_json_none req _ Hb). eexists _, _. split; [done|]. done.
  - destruct (deserialize_attrs data (mkProduct VNone VNone VNone VNone VNone VNone))
      as [res p] eqn:Hd.
    rewrite (create_products_run req w data p res Hb Hd).
    destruct (deserialize_attrs_outcome data (mkProduct VNone VNone VNone VNone VNone VNone))
      as [[_ [msg Hm]]|[Hgood _]]; [|done].
    rewrite Hd in Hm. simpl in Hm. subst res.
    eexists. split; [done|]. done.
Qed.

Lemma create_products_rejects_invalid_witness :
  exists w',
    create_products (H:=strict_engine) no_repr (json_request (VDict [])) fedora_world
    = (Raise (HTTPException 400 "Invalid product data"), w') /\
    table w' = table fedora_world /\ serial w' = serial fedora_world /\
    trace w' = (trace fedora_world ++ [EvGetJson])%list.
Proof.
  destruct (create_products_rejects_invalid (H:=strict_engine) no_repr
              (json_request (VDict [])) fedora_world eq_refl) as [_ Hbad].
  apply (Hbad (VDict [])).
  - reflexivity.
  - left. reflexivity.
Defined.

(** X16. POST /products with [null] for a text.  [deserialize] does not
    look at the name or the description: a body that it accepts, with
    [null] for a name or for a description and with values that the
    storage accepts for the rest, passes it; [create] then fails on the
    column that is not nullable, and the handler, which catches
    validation errors only, lets the [IntegrityError] through instead of
    answering 400.  No row is inserted. *)
Theorem create_products_null_text `{Engine}
    (repr_other : pyval -> string) (req : request) (w : world) (data : pyval)
    (v_name v_description : pyval) (d : PyDecimal.t) (b : bool) (c : Category) :
  assoc "Content-Type" (headers req) = Some "application/json" ->
  body req = Some data ->
  describes data v_name v_description d b c ->
  v_name = VNone \/ v_description = VNone ->
  null_or_accepted
    (mkProduct VNone v_name v_description (VDecimal d) (VBool b) (VCategory c)) ->
  session_clean w ->
  exists w',
    create_products repr_other req w = (Raise IntegrityError, w') /\
    table w' = table w.
Proof.
  intros Hh Hb Hd Hnull Haccepted Hw.
  unfold create_products.
  rewrite bind_at, (check_content_type_ok req w Hh), bind_at, try_except_at.
  rewrite (create_products_run req w data _ _ Hb
             (deserialize_attrs_describes _ _ _ _ _ _ _ Hd)).
  cbn [id]. rewrite bind_at.
  set (p := mkProduct VNone v_name v_description (VDecimal d) (VBool b) (VCategory c)) in *.
  set (w3 := mkWorld _ _ _ _).
  assert (H3 : heap w3 !! length (heap w) = Some (mkInstance p Transient)).
  { unfold w3. simpl. by rewrite lookup_app_r, Nat.sub_diag. }
  rewrite (create_rejected w3 _ _ IntegrityError H3 eq_refl (posted_clean_but w p Hw)).
  - eexists. split; [done|]. done.
  - apply insert_row_null; [simpl; tauto|done].
Qed.

Lemma create_products_null_text_witness :
  exists w',
    create_products (H:=strict_engine) no_repr (json_request nameless) fedora_world
    = (Raise IntegrityError, w') /\
    table w' = table fedora_world.
Proof.
  apply (create_products_null_text (H:=strict_engine) no_repr (json_request nameless)
           fedora_world nameless VNone (VStr "A red hat")
           (PyDecimal.Finite false 1250 (-2)) true CLOTHS).
  - reflexivity.
  - reflexivity.
  - exact nameless_describes.
  - left. reflexivity.
  - split; [left; reflexivity|].
    repeat split; right; eexists; reflexivity.
  - exact fedora_world_clean.
Defined.

(** X17. POST then GET: after a POST /products that succeeds, GET of the
    key named in its [Location] header answers 200 with the body of the
    POST answer. *)
Theorem created_product_is_readable `{Engine}
    (repr_other : pyval -> string) (req : request) (w : world) (data : pyval)
    (v_name v_description : pyval) (d : PyDecimal.t) (b : bool) (c : Category) (r : Row) :
  assoc "Content-Type" (headers req) = Some "application/json" ->
  body req = Some data ->
  describes data v_name v_description d b c ->
  insert_row (mkProduct VNone v_name v_description (VDecimal d) (VBool b) (VCategory c))
  = Ok r ->
  session_clean w ->
  keys_fresh w ->
  exists resp w1 w2,
    create_products repr_other req w = (Ok resp, w1) /\
    response_headers resp
    = [("Location", url_root req ++ "products/" ++ PyStr.str_of_Z (serial w))] /\
    get_product repr_other (serial w) w1
    = (Ok (mkResponse (response_content resp) 200 []), w2).
Proof.
  intros Hh Hb Hd Hr Hw Hfresh.
  rewrite (create_products_ok repr_other req w data _ _ _ _ _ r Hh Hb Hd Hr Hw Hfresh).
  set (w1 := mkWorld _ _ _ _).
  destruct (get_product_found repr_other w1 (serial w) r) as [ext Hg].
  - by apply posted_world_clean.
  - apply lookup_insert_eq.
  - eexists _, w1, _. split; [done|]. split; [done|]. exact Hg.
Qed.

Lemma created_product_is_readable_witness :
  exists resp w1 w2,
    create_products (H:=strict_engine) no_repr (json_request fedora) initial_world
    = (Ok resp, w1) /\
    response_headers resp = [("Location", "http://localhost/products/1")] /\
    get_product (H:=strict_engine) no_repr 1 w1
    = (Ok (mkResponse (response_content resp) 200 []), w2).
Proof.
  apply (created_product_is_readable (H:=strict_engine) no_repr (json_request fedora)
           initial_world fedora (VStr "Fedora") (VStr "A red hat")
           (PyDecimal.Finite false 1250 (-2)) true CLOTHS fedora_row).
  - reflexivity.
  - reflexivity.
  - exact fedora_describes.
  - reflexivity.
  - exact initial_world_clean.
  - exact initial_world_fresh.
Defined.

(** X23. POST /products is not idempotent: the same request, sent
    twice and accepted, is answered 201 twice, and leaves two rows with
    the same values under two different keys, the second key being the
    one after the first. *)
Theorem create_products_twice `{Engine}
    (repr_other : pyval -> string) (req : request) (w : world) (data : pyval)
    (v_name v_description : pyval) (d : PyDecimal.t) (b : bool) (c : Category) (r : Row) :
  assoc "Content-Type" (headers req) = Some "application/json" ->
  body req = Some data ->
  describes data v_name v_description d b c ->
  insert_row (mkProduct VNone v_name v_description (VDecimal d) (VBool b) (VCategory c))
  = Ok r ->
  session_clean w ->
  keys_fresh w ->
  exists w1 w2 location1 location2,
    create_products repr_other req w
    = (Ok (mkResponse (Json (row_json (serial w, r))) 201 location1), w1) /\
    create_products repr_other req w1
    = (Ok (mkResponse (Json (row_json (serial w + 1, r))) 201 location2), w2) /\
    table w2 !! serial w = Some r /\
    table w2 !! (serial w + 1) = Some r.
Proof.
  intros Hh Hb Hd Hr Hw Hfresh.
  pose proof (create_products_ok repr_other req w data _ _ _ _ _ r Hh Hb Hd Hr Hw Hfresh)
    as H1.
  set (w1 := mkWorld _ _ _ _) in H1.
  assert (Hw1 : session_clean w1) by (by apply posted_world_clean).
  assert (Hfresh1 : keys_fresh w1) by (by apply posted_world_fresh).
  pose proof (create_products_ok repr_other req w1 data _ _ _ _ _ r Hh Hb Hd Hr Hw1 Hfresh1)
    as H2.
  eexists w1, _, _, _. split; [exact H1|]. split; [exact H2|]. simpl. split.
  - rewrite lookup_insert_ne by lia. apply lookup_insert_eq.
  - apply lookup_insert_eq.
Qed.

Lemma create_products_twice_witness :
  exists w1 w2 location1 location2,
    create_products (H:=strict_engine) no_repr (json_request fedora) initial_world
    = (Ok (mkResponse (Json (row_json (1, fedora_row))) 201 location1), w1) /\
    create_products (H:=strict_engine) no_repr (json_request fedora) w1
    = (Ok (mkResponse (Json (row_json (2, fedora_row))) 201 location2), w2) /\
    table w2 !! 1 = Some fedora_row /\
    table w2 !! 2 = Some fedora_row.
Proof.
  apply (create_products_twice (H:=strict_engine) no_repr (json_request fedora)
           initial_world fedora (VStr "Fedora") (VStr "A red hat")
           (PyDecimal.Finite false 1250 (-2)) true CLOTHS fedora_row).
  - reflexivity.
  - reflexivity.
  - exact fedora_describes.
  - reflexivity.
  - exact initial_world_clean.
  - exact initial_world_fresh.
Defined.

(** X18. PUT /products/{id} for a key that has no row: a JSON request is
    answered 404 with "Product not found", before the body is looked
    at: the body may be anything, and it is not parsed. *)
Theorem update_product_missing `{Engine}
    (repr_other : pyval -> string) (k : Z) (req : request) (w : world) :
  assoc "Content-Type" (headers req) = Some "application/json" ->
  session_clean w ->
  table w !! k = None ->
  update_product repr_other k req w
  = (Raise (HTTPException 404 "Product not found"),
     mkWorld (heap w) (table w) (serial w) (trace w ++ [EvGet k])).
Proof.
  intros Hh Hw Hk. unfold update_product.
  rewrite bind_at, (check_content_type_ok req w Hh), bind_at.
  by rewrite (find_absent w k Hw Hk).
Qed.

Lemma update_product_missing_witness :
  update_product (H:=strict_engine) no_repr 9999 (json_request (VDict [])) fedora_world
  = (Raise (HTTPException 404 "Product not found"),
     mkWorld (heap fedora_world) (table fedora_world) (serial fedora_world)
             (trace fedora_world ++ [EvGet 9999])).
Proof.
  apply (update_product_missing (H:=strict_engine) no_repr 9999 (json_request (VDict []))
           fedora_world).
  - reflexivity.
  - exact fedora_world_clean.
  - reflexivity.
Defined.

(** X19. PUT /products/{id} that succeeds.  For a row with a key other
    than 0, a JSON request whose body [deserialize] accepts and whose
    values the storage accepts is answered 200 with the JSON of the row
    as it is now: under the same key, whatever [id] the body carried,
    and with the values of the body; the table has the new row in the
    place of the old one, and the handler has looked the key up, parsed
    the body and committed, once each. *)
Theorem update_product_updated `{Engine}
    (repr_other : pyval -> string) (k : Z) (req : request) (w : world) (data : pyval)
    (v_name v_description : pyval) (d : PyDecimal.t) (b : bool) (c : Category)
    (r r' : Row) :
  assoc "Content-Type" (headers req) = Some "application/json" ->
  body req = Some data ->
  describes data v_name v_description d b c ->
  session_clean w ->
  identity_unique (heap w) ->
  table w !! k = Some r ->
  k <> 0 ->
  update_row r (mkProduct (VInt k) v_name v_description (VDecimal d) (VBool b) (VCategory c))
  = Ok r' ->
  exists w',
    update_product repr_other k req w
    = (Ok (mkResponse (Json (row_json (k, r'))) 200 []), w') /\
    table w' = <[k := r']> (table w) /\
    serial w' = serial w /\
    trace w' = (trace w ++ [EvGet k; EvGetJson; EvCommit])%list.
Proof.
  intros Hh Hb Hd Hw Huniq Hk Hk0 Hr'.
  destruct (update_product_ok repr_other k req w data _ _ _ _ _ r r'
              Hh Hb Hd Hw Huniq Hk Hk0 Hr') as (w' & Hu & Htbl & Hser & Htr & _).
  by exists w'.
Qed.

Lemma update_product_updated_witness :
  exists w',
    update_product (H:=strict_engine) no_repr 1 (json_request trilby) fedora_world
    = (Ok (mkResponse (Json (row_json (1, trilby_row))) 200 []), w') /\
    table w' = <[1 := trilby_row]> (table fedora_world) /\
    serial w' = serial fedora_world /\
    trace w' = (trace fedora_world ++ [EvGet 1; EvGetJson; EvCommit])%list.
Proof.
  apply (update_product_updated (H:=strict_engine) no_repr 1 (json_request trilby)
           fedora_world trilby (VStr "Trilby") (VStr "A felt hat")
           (PyDecimal.Finite false 30 0) false CLOTHS fedora_row trilby_row).
  - reflexivity.
  - reflexivity.
  - exact trilby_describes.
  - exact fedora_world_clean.
  - exact fedora_world_unique.
  - reflexivity.
  - lia.
  - reflexivity.
Defined.

(** X20. PUT /products/{id} that is refused.  For a key that has a row,
    a JSON request without a JSON body is answered 400, and one whose
    body [deserialize] refuses is answered 400 with "Invalid product
    data".  Either way the table is as it was and nothing is
    committed. *)
Theorem update_product_rejects_invalid `{Engine}
    (repr_other : pyval -> string) (k : Z) (req : request) (w : world) (r : Row) :
  assoc "Content-Type" (headers req) = Some "application/json" ->
  session_clean w ->
  table w !! k = Some r ->
  (body req = None ->
   exists text w',
     update_product repr_other k req w = (Raise (HTTPException 400 text), w') /\
     table w' = table w /\ serial w' = serial w /\
     trace w' = (trace w ++ [EvGet k; EvGetJson])%list)
  /\ (forall data, body req = Some data -> invalid_payload data ->
      exists w',
        update_product repr_other k req w
        = (Raise (HTTPException 400 "Invalid product data"), w') /\
        table w' = table w /\ serial w' = serial w /\
        trace w' = (trace w ++ [EvGet k; EvGetJson])%list).
Proof.
  intros Hh Hw Hk.
  destruct (find_loaded w k r Hw Hk) as (a & ext & Hf & Hrep & Hext & Huq).
  split; [intros Hb|intros data Hb Hbad]; unfold update_product;
    rewrite bind_at, (check_content_type_ok req w Hh), bind_at, Hf;
    rewrite bind_at, try_except_at.
  - rewrite bind_at, (get_json_none req _ Hb). eexists _, _. split; [done|].
    simpl. by rewrite <- app_assoc.
  - destruct (deserialize_attrs data (loaded k r)) as [res p] eqn:Hd.
    rewrite (update_product_run req (queried ext (EvGet k) w) a
               (mkInstance (loaded k r) (Persistent k)) data p res Hrep Hb Hd).
    destruct (deserialize_attrs_outcome data (loaded k r))
      as [[_ [msg Hm]]|[Hgood _]]; [|done].
    rewrite Hd in Hm. simpl in Hm. subst res.
    eexists. split; [done|]. simpl. by rewrite <- app_assoc.
Qed.

Lemma update_product_rejects_invalid_witness :
  exists w',
    update_product (H:=strict_engine) no_repr 1
      (json_request (VDict [("name", VStr "Trilby")])) fedora_world
    = (Raise (HTTPException 400 "Invalid product data"), w') /\
    table w' = table fedora_world /\ serial w' = serial fedora_world /\
    trace w' = (trace fedora_world ++ [EvGet 1; EvGetJson])%list.
Proof.
  destruct (update_product_rejects_invalid (H:=strict_engine) no_repr 1
              (json_request (VDict [("name", VStr "Trilby")])) fedora_world fedora_row
              eq_refl fedora_world_clean eq_refl) as [_ Hbad].
  apply (Hbad (VDict [("name", VStr "Trilby")])).
  - reflexivity.
  - right; right. eexists. split; [reflexivity|]. left.
    exists "description". split; [|reflexivity].
    apply elem_of_cons. right. apply elem_of_cons. left. reflexivity.
Defined.

(** X21. PUT then GET: after a PUT /products/{id} that succeeds, GET of
    the same key gives the very answer of the PUT. *)
Theorem updated_product_is_readable `{Engine}
    (repr_other : pyval -> string) (k : Z) (req : request) (w : world) (data : pyval)
    (v_name v_description : pyval) (d : PyDecimal.t) (b : bool) (c : Category)
    (r r' : Row) :
  assoc "Content-Type" (headers req) = Some "application/json" ->
  body req = Some data ->
  describes data v_name v_description d b c ->
  session_clean w ->
  identity_unique (heap w) ->
  table w !! k = Some r ->
  k <> 0 ->
  update_row r (mkProduct (VInt k) v_name v_description (VDecimal d) (VBool b) (VCategory c))
  = Ok r' ->
  exists resp w1 w2,
    update_product repr_other k req w = (Ok resp, w1) /\
    get_product repr_other k w1 = (Ok resp, w2).
Proof.
  intros Hh Hb Hd Hw Huniq Hk Hk0 Hr'.
  destruct (update_product_ok repr_other k req w data _ _ _ _ _ r r'
              Hh Hb Hd Hw Huniq Hk Hk0 Hr') as (w1 & Hu & Htbl & _ & _ & Hw1).
  destruct (get_product_found repr_other w1 k r' Hw1) as [ext Hg].
  { rewrite Htbl. apply lookup_insert_eq. }
  eexists _, w1, _. split; [exact Hu|exact Hg].
Qed.

Lemma updated_product_is_readable_witness :
  exists resp w1 w2,
    update_product (H:=strict_engine) no_repr 1 (json_request trilby) fedora_world
    = (Ok resp, w1) /\
    get_product (H:=strict_engine) no_repr 1 w1 = (Ok resp, w2).
Proof.
  apply (updated_product_is_readable (H:=strict_engine) no_repr 1 (json_request trilby)
           fedora_world trilby (VStr "Trilby") (VStr "A felt hat")
           (PyDecimal.Finite false 30 0) false CLOTHS fedora_row trilby_row).
  - reflexivity.
  - reflexivity.
  - exact trilby_describes.
  - exact fedora_world_clean.
  - exact fedora_world_unique.
  - reflexivity.
  - lia.
  - reflexivity.
Defined.

(** X22. After a DELETE /products/{id} that succeeds the product is gone
    for every handler: GET, PUT with a JSON request, and a second
    DELETE of the same key are all answered 404 with "Product not
    found". *)
Theorem deleted_product_is_gone `{Engine}
    (repr_other : pyval -> string) (w : world) (k : Z) (req : request) :
  session_clean w ->
  identity_unique (heap w) ->
  is_Some (table w !! k) ->
  assoc "Content-Type" (headers req) = Some "application/json" ->
  exists w1,
    delete_products k w = (Ok (mkResponse (Plain "") 204 []), w1) /\
    (get_product repr_other k w1).1 = Raise (HTTPException 404 "Product not found") /\
    (update_product repr_other k req w1).1 = Raise (HTTPException 404 "Product not found") /\
    (delete_products k w1).1 = Raise (HTTPException 404 "Product not found").
Proof.
  intros Hw Huniq [r Hk] Hh.
  destruct (delete_products_done w k r Hw Huniq Hk) as (w1 & Hd & Htbl & _ & Hw1 & _).
  assert (Hgone : table w1 !! k = None) by (rewrite Htbl; apply lookup_delete_eq).
  exists w1. split; [done|]. split; [|split].
  - by rewrite (get_product_missing repr_other w1 k Hw1 Hgone).
  - unfold update_product.
    rewrite bind_at, (check_content_type_ok req w1 Hh), bind_at.
    by rewrite (find_absent w1 k Hw1 Hgone).
  - by rewrite (delete_products_absent w1 k Hw1 Hgone).
Qed.

Lemma deleted_product_is_gone_witness :
  exists w1,
    delete_products (H:=strict_engine) 1 fedora_world
    = (Ok (mkResponse (Plain "") 204 []), w1) /\
    (get_product (H:=strict_engine) no_repr 1 w1).1
    = Raise (HTTPException 404 "Product not found") /\
    (update_product (H:=strict_engine) no_repr 1 (json_request trilby) w1).1
    = Raise (HTTPException 404 "Product not found") /\
    (delete_products (H:=strict_engine) 1 w1).1
    = Raise (HTTPException 404 "Product not found").
Proof.
  apply (deleted_product_is_gone (H:=strict_engine) no_repr fedora_world 1
           (json_request trilby)).
  - exact fedora_world_clean.
  - exact fedora_world_unique.
  - exists fedora_row. reflexivity.
  - reflexivity.
Defined.
